(** * The simulation tracker of the media-catalog backend

    A shallow embedding of [app/services/simulation.py] (class
    [SimulationService]) and of the two endpoints of [app/api/simulation.py]
    that drive it, followed by the properties of the tracker.

    The service keeps a Python dict of live sessions, reads the wall clock
    and the global random generator, and writes to the database session.
    All four are threaded explicitly through a small state-and-exception
    monad.  Python floats are IEEE binary64 numbers; they are modelled by
    [spec_float] at precision 53. *)

From Stdlib Require Import ZArith Lia SpecFloat Reals Lra.
From stdpp Require Import gmap strings list pretty.

Open Scope Z_scope.

(** ** Python numbers *)

Module PyFloat.

Definition prec : Z := 53.
Definition emax : Z := 1024.

Abbreviation float := spec_float.

Definition fmul : float -> float -> float := SFmul prec emax.
Definition fadd : float -> float -> float := SFadd prec emax.
Definition fdiv : float -> float -> float := SFdiv prec emax.
Definition flt : float -> float -> bool := SFltb.

Definition is_finite (x : float) : bool :=
  match x with
  | S754_zero _ | S754_finite _ _ _ => true
  | _ => false
  end.

Definition is_zero (x : float) : bool :=
  match x with
  | S754_zero _ => true
  | _ => false
  end.

(** [a / b] on two Python ints: the quotient correctly rounded to the
    nearest double, whatever the size of the operands.  Where Python
    raises, the result is not finite: NaN for a zero divisor, an infinity
    for a quotient too large for a double. *)
Definition int_true_div (a b : Z) : float :=
  match a, b with
  | Z0, _ => S754_zero (b <? 0)
  | _, Z0 => S754_nan
  | _, _ =>
      fdiv (S754_finite (a <? 0) (Z.to_pos (Z.abs a)) 0)
           (S754_finite (b <? 0) (Z.to_pos (Z.abs b)) 0)
  end.

(** [float(n)] for a Python int, rounded to nearest even. *)
Definition float_of_int (n : Z) : float := binary_normalize prec emax n 0 false.

(** The literals of the source. *)
Definition lit_0_9 : float := int_true_div 9 10.
Definition lit_0_1 : float := int_true_div 1 10.
Definition lit_0_3 : float := int_true_div 3 10.

(** The magnitude of a finite float cut to an integer. *)
Definition trunc_mag (m : positive) (e : Z) : Z :=
  if 0 <=? e then Zpos m * 2 ^ e else Zpos m / 2 ^ (- e).

(** [math.floor(x)] on a finite float. *)
Definition floor_float (x : float) : option Z :=
  match x with
  | S754_zero _ => Some 0
  | S754_finite false m e => Some (trunc_mag m e)
  | S754_finite true m e =>
      Some (if 0 <=? e then - (Zpos m * 2 ^ e) else - ((Zpos m + 2 ^ (- e) - 1) / 2 ^ (- e)))
  | _ => None
  end.

(** Nearest integer to [n / d] for [d > 0], ties to the even one. *)
Definition round_half_even (n d : Z) : Z :=
  let q := n / d in
  match (2 * (n mod d)) ?= d with
  | Lt => q
  | Gt => q + 1
  | Eq => if Z.even q then q else q + 1
  end.

(** [round(x, 2)]: the exact value of [x] is rounded half-even to two
    decimals and the decimal is read back as the nearest double. *)
Definition round2 (x : float) : float :=
  match x with
  | S754_finite s m e =>
      let n := if 0 <=? e then Zpos m * 2 ^ e * 100
               else round_half_even (Zpos m * 100) (2 ^ (- e)) in
      let r := int_true_div n 100 in
      if s then SFopp r else r
  | _ => x
  end.

End PyFloat.

Import PyFloat.

(** ** Exceptions and the monad of the service *)

Inductive exn : Type :=
  | ValueError (msg : string)
  | KeyError (key : string)
  | IndexError
  | UnboundLocalError (var : string)
  | OverflowError
  | ZeroDivisionError
  | HTTPException (status_code : Z) (detail : string)
  | StatementError.

(** ** The database rows the tracker touches *)

(** A row of [books], [movies] or [games]: the columns the service reads. *)
Record Content : Type := mkContent {
  title : string;
  popularity_score : float
}.

Record UserInteraction : Type := mkUserInteraction {
  interaction_id : Z;
  user_id : Z;
  content_type : string;
  content_id : Z;
  interaction_type : string;
  rating : option Z;
  progress_percent : Z;
  start_date : option Z;
  completion_date : option Z;
  simulation_duration : option Z;
  tags_extracted : list string
}.

(** The two databases of the repository: [run_server.py] configures
    PostgreSQL, [full_app.py] SQLite. *)
Inductive Dialect : Type := PostgreSQL | SQLite.

Record Db : Type := mkDb {
  books : gmap Z Content;
  movies : gmap Z Content;
  games : gmap Z Content;
  user_interactions : gmap Z UserInteraction;
  dialect : Dialect
}.

(** The largest value of a [Column(Integer)]: 32 bits in PostgreSQL,
    64 bits in SQLite. *)
Definition integer_max (d : Db) : Z :=
  match dialect d with
  | PostgreSQL => 2 ^ 31 - 1
  | SQLite => 2 ^ 63 - 1
  end.

Definition in_integer (d : Db) (n : Z) : bool :=
  (- integer_max d - 1 <=? n) && (n <=? integer_max d).

(** An entry of [active_simulations].  Times are microseconds, the
    resolution of [datetime]. *)
Record Simulation : Type := mkSimulation {
  sim_interaction_id : Z;
  sim_user_id : Z;
  sim_content_type : string;
  sim_content_id : Z;
  sim_content_title : string;
  start_time : Z;
  total_time : Z;
  events : list string
}.

(** ** Python dicts keep insertion order *)

Section Dict.
Context {V : Type}.

Fixpoint dict_get (k : string) (d : list (string * V)) : option V :=
  match d with
  | [] => None
  | (k', v) :: d' => if decide (k = k') then Some v else dict_get k d'
  end.

(** [d[k] = v]: an existing key keeps its place, a new one goes last. *)
Fixpoint dict_set (k : string) (v : V) (d : list (string * V)) : list (string * V) :=
  match d with
  | [] => [(k, v)]
  | (k', v') :: d' =>
      if decide (k = k') then (k, v) :: d' else (k', v') :: dict_set k v d'
  end.

(** [del d[k]] for a key that is present. *)
Fixpoint dict_del (k : string) (d : list (string * V)) : list (string * V) :=
  match d with
  | [] => []
  | (k', v') :: d' =>
      if decide (k = k') then d' else (k', v') :: dict_del k d'
  end.

Definition dict_keys (d : list (string * V)) : list string := d.*1.
End Dict.

(** ** The world the service runs in *)

Record SimulationService : Type := mkService {
  db : Db;
  active_simulations : list (string * Simulation)
}.

(** The clock and the random generator are tapes with a cursor: each
    [datetime.utcnow()] and each draw consumes one cell. *)
Record World : Type := mkWorld {
  service : SimulationService;
  clock : nat -> Z;
  clock_pos : nat;
  entropy : nat -> Z;
  entropy_pos : nat
}.

Definition M (A : Type) : Type := World -> World * (exn + A).

Definition ret {A} (a : A) : M A := fun w => (w, inr a).
Definition raise {A} (e : exn) : M A := fun w => (w, inl e).
Definition bind {A B} (c : M A) (k : A -> M B) : M B :=
  fun w => match c w with
           | (w', inr a) => k a w'
           | (w', inl e) => (w', inl e)
           end.

Notation "'do' x <- c ; k" := (bind c (fun x => k))
  (at level 10, x name, c at level 100, k at level 200).
Notation "c ;; k" := (bind c (fun _ => k))
  (at level 100, k at level 200, right associativity).

Definition get_service : M SimulationService := fun w => (w, inr (service w)).
Definition put_service (s : SimulationService) : M unit :=
  fun w => (mkWorld s (clock w) (clock_pos w) (entropy w) (entropy_pos w), inr tt).
Definition get_db : M Db := fun w => (w, inr (db (service w))).
Definition put_db (d : Db) : M unit :=
  do s <- get_service; put_service (mkService d (active_simulations s)).
Definition get_sims : M (list (string * Simulation)) :=
  fun w => (w, inr (active_simulations (service w))).
Definition put_sims (a : list (string * Simulation)) : M unit :=
  do s <- get_service; put_service (mkService (db s) a).

(** [datetime.utcnow()] *)
Definition utcnow : M Z :=
  fun w => (mkWorld (service w) (clock w) (S (clock_pos w)) (entropy w) (entropy_pos w),
            inr (clock w (clock_pos w))).

(** [Random._randbelow(n)] for [n > 0]. *)
Definition randbelow (n : Z) : M Z :=
  fun w => (mkWorld (service w) (clock w) (clock_pos w) (entropy w) (S (entropy_pos w)),
            inr (entropy w (entropy_pos w) mod n)).

(** [random.randint(a, b)] *)
Definition randint (a b : Z) : M Z :=
  if b <? a then raise (ValueError "empty range for randrange()")
  else do k <- randbelow (b - a + 1); ret (a + k).

(** [random.random()]: a multiple of 2^-53 in [0, 1). *)
Definition random_random : M float :=
  do k <- randbelow (2 ^ 53); ret (binary_normalize prec emax k (-53) false).

(** [random.choice(seq)] *)
Definition random_choice (seq : list string) : M string :=
  match seq with
  | [] => raise IndexError
  | _ => do i <- randbelow (Z.of_nat (length seq));
         match seq !! Z.to_nat i with
         | Some x => ret x
         | None => raise IndexError
         end
  end.

(** ** Conversions that raise *)

(** A computation that reads and writes nothing. *)
Definition lift {A} (r : exn + A) : M A := fun w => (w, r).

(** [int(x)] on a float: truncation towards zero. *)
Definition py_int (x : float) : exn + Z :=
  match x with
  | S754_zero _ => inr 0
  | S754_finite s m e => inr (if s then - trunc_mag m e else trunc_mag m e)
  | S754_infinity _ => inl OverflowError
  | S754_nan => inl (ValueError "cannot convert float NaN to integer")
  end.

(** [timedelta.total_seconds()]: microseconds divided by [10**6]. *)
Definition total_seconds (us : Z) : exn + float :=
  let x := int_true_div us 1000000 in
  if is_finite x then inr x else inl OverflowError.

(** [x / n] for a float [x] and an int [n]. *)
Definition float_div_int (x : float) (n : Z) : exn + float :=
  let y := float_of_int n in
  if is_finite y then
    if is_zero y then inl ZeroDivisionError else inr (fdiv x y)
  else inl OverflowError.

(** [x * n] for a float [x] and an int [n]. *)
Definition float_mul_int (x : float) (n : Z) : exn + float :=
  let y := float_of_int n in
  if is_finite y then inr (fmul x y) else inl OverflowError.

(** [n * x] for an int [n] and a float [x]. *)
Definition int_mul_float (n : Z) (x : float) : exn + float :=
  let y := float_of_int n in
  if is_finite y then inr (fmul y x) else inl OverflowError.

(** ** The class constants *)

Definition SIMULATION_TIMES : list (string * (Z * Z)) :=
  [ ("book", (30, 180)); ("movie", (20, 60)); ("game", (45, 300)) ].

Definition SIMULATION_EVENTS : list (string * list string) :=
  [ ("book",
      [ "Вы погружаетесь в увлекательный сюжет...";
        "Неожиданный поворот событий!";
        "Главный герой принимает важное решение...";
        "Вы не можете оторваться от чтения!";
        "Эмоциональная сцена заставляет задуматься..." ]);
    ("movie",
      [ "Захватывающая сцена экшена!";
        "Неожиданный сюжетный твист!";
        "Эмоциональный диалог между персонажами...";
        "Впечатляющие визуальные эффекты!";
        "Напряженный момент..." ]);
    ("game",
      [ "Вы исследуете новую локацию!";
        "Эпическая битва с боссом!";
        "Найден редкий предмет!";
        "Разблокировано достижение!";
        "Сложная головоломка решена!";
        "Новый уровень пройден!" ]) ].

(** Subscripting a dict with a key it may lack. *)
Definition subscript {V} (d : list (string * V)) (k : string) : exn + V :=
  match dict_get k d with
  | Some v => inr v
  | None => inl (KeyError k)
  end.

(** ** Database access *)

(** The primary key the database gives a new row: one past the largest
    key in use. *)
Definition fresh_key {V} (m : gmap Z V) : Z :=
  1 + foldr Z.max 0 (map_to_list m).*1.

(** [db.query(UserInteraction).filter(interaction_id == i).first()] *)
Definition query_interaction (i : Z) : M (option UserInteraction) :=
  do d <- get_db; ret (user_interactions d !! i).

(** Assigning to attributes of the row loaded under key [i] and
    committing: the row is stored back under the same key, unless one of
    the ints [assigned] to an [Integer] column is out of the range of the
    column; then [db.commit()] raises [sqlalchemy.exc.StatementError] (its
    subclass [DataError] with PostgreSQL) and nothing is stored. *)
Definition storable (d : Db) (assigned : list Z) : bool := forallb (in_integer d) assigned.

Definition commit_interaction (i : Z) (assigned : list Z) (r : UserInteraction) : M unit :=
  do d <- get_db;
  if storable d assigned then
    put_db (mkDb (books d) (movies d) (games d) (<[i := r]> (user_interactions d))
                 (dialect d))
  else raise StatementError.

(** [db.add(...)], [db.commit()], [db.refresh(...)]: the row as stored.
    The ints of a new row are the ids of the user and of the item, which
    the database holds already. *)
Definition add_interaction (mk : Z -> UserInteraction) : M UserInteraction :=
  do d <- get_db;
  let r := mk (fresh_key (user_interactions d)) in
  commit_interaction (fresh_key (user_interactions d)) [] r ;;
  ret r.

(** Storing a changed row of the table that [content_type] names. *)
Definition set_content_in (d : Db) (content_type : string) (content_id : Z) (c : Content)
  : Db :=
  if decide (content_type = "book") then
    mkDb (<[content_id := c]> (books d)) (movies d) (games d) (user_interactions d) (dialect d)
  else if decide (content_type = "movie") then
    mkDb (books d) (<[content_id := c]> (movies d)) (games d) (user_interactions d) (dialect d)
  else if decide (content_type = "game") then
    mkDb (books d) (movies d) (<[content_id := c]> (games d)) (user_interactions d) (dialect d)
  else d.

Definition commit_content (content_type : string) (content_id : Z) (c : Content) : M unit :=
  do d <- get_db; put_db (set_content_in d content_type content_id c).

(** ** The catalog, as the specification speaks of it *)

(** The item [content_id] of type [content_type] exists in the catalog
    with the row [c]: it is a row of the table of books, of movies or of
    games.  This is stated on the tables themselves, apart from the lookup
    the service performs. *)
Inductive in_catalog (d : Db) : string -> Z -> Content -> Prop :=
  | in_catalog_book content_id c :
      books d !! content_id = Some c -> in_catalog d "book" content_id c
  | in_catalog_movie content_id c :
      movies d !! content_id = Some c -> in_catalog d "movie" content_id c
  | in_catalog_game content_id c :
      games d !! content_id = Some c -> in_catalog d "game" content_id c.

(** How often the planned duration [t] comes up when the raw draw runs
    through the values [0], ..., [periods * (b - a + 1) - 1]. *)
Definition times_drawn (a b t : Z) (periods : nat) : nat :=
  length (filter (fun raw => a + raw mod (b - a + 1) = t)
                 (seqZ 0 (Z.of_nat periods * (b - a + 1)))).

(** ** The methods of [SimulationService] *)

Definition get_content_in (d : Db) (content_type : string) (content_id : Z) : option Content :=
  if decide (content_type = "book") then books d !! content_id
  else if decide (content_type = "movie") then movies d !! content_id
  else if decide (content_type = "game") then games d !! content_id
  else None.

Definition get_content (content_type : string) (content_id : Z) : M (option Content) :=
  do d <- get_db; ret (get_content_in d content_type content_id).

Definition get_action_verb (content_type : string) : string :=
  if decide (content_type = "book") then "чтение"
  else if decide (content_type = "movie") then "просмотр"
  else if decide (content_type = "game") then "игру"
  else "взаимодействие".

Definition calculate_experience (rating duration : Z) : Z :=
  let base_exp := rating * 10 in
  let time_bonus := Z.min (duration / 30) 50 in
  base_exp + time_bonus.

Definition simulation_key (user_id : Z) (content_type : string) (content_id : Z) : string :=
  pretty user_id +:+ "_" +:+ content_type +:+ "_" +:+ pretty content_id.

(** The dicts the methods return. *)
Record StartResult : Type := mkStartResult {
  sr_simulation_id : string;
  sr_interaction_id : Z;
  sr_estimated_time : Z;
  sr_content_title : string;
  sr_message : string
}.

Record ProgressReport : Type := mkProgressReport {
  pr_progress : Z;
  pr_completed : bool;
  pr_event : option string;
  pr_content_title : string;
  pr_elapsed_time : Z
}.

Record CompletionReport : Type := mkCompletionReport {
  cr_message : string;
  cr_rating : Z;
  cr_duration : Z;
  cr_experience_gained : Z
}.

Record CancelReport : Type := mkCancelReport {
  ca_message : string
}.

Definition start_simulation (user_id : Z) (content_type : string) (content_id : Z)
  : M StartResult :=
  do content <- get_content content_type content_id;
  match content with
  | None =>
      raise (ValueError ("Content not found: " +:+ content_type +:+ " " +:+ pretty content_id))
  | Some content =>
      do now <- utcnow;
      do interaction <-
        add_interaction (fun i =>
          mkUserInteraction i user_id content_type content_id "started"
                            None 0 (Some now) None None []);
      do time_range <- lift (subscript SIMULATION_TIMES content_type);
      do simulation_time <- randint (fst time_range) (snd time_range);
      let simulation_key := simulation_key user_id content_type content_id in
      do started <- utcnow;
      do sims <- get_sims;
      put_sims (dict_set simulation_key
                  (mkSimulation (interaction_id interaction) user_id content_type content_id
                                (title content) started simulation_time [])
                  sims) ;;
      ret (mkStartResult simulation_key (interaction_id interaction) simulation_time
             (title content)
             ("Начинаем " +:+ get_action_verb content_type +:+ " '" +:+ title content +:+ "'!"))
  end.

Definition with_progress (r : UserInteraction) (p : Z) : UserInteraction :=
  mkUserInteraction (interaction_id r) (user_id r) (content_type r) (content_id r)
    (interaction_type r) (rating r) p (start_date r) (completion_date r)
    (simulation_duration r) (tags_extracted r).

Definition with_events (s : Simulation) (ev : list string) : Simulation :=
  mkSimulation (sim_interaction_id s) (sim_user_id s) (sim_content_type s) (sim_content_id s)
    (sim_content_title s) (start_time s) (total_time s) ev.

Definition get_simulation_progress (simulation_id : string) : M ProgressReport :=
  do sims <- get_sims;
  match dict_get simulation_id sims with
  | None => raise (ValueError "Simulation not found")
  | Some sim =>
      do current_time <- utcnow;
      do elapsed <- lift (total_seconds (current_time - start_time sim));
      do ratio <- lift (float_div_int elapsed (total_time sim));
      do scaled <- lift (float_mul_int ratio 100);
      do whole <- lift (py_int scaled);
      let progress := Z.min 100 whole in
      do interaction <- query_interaction (sim_interaction_id sim);
      match interaction with
      | Some interaction =>
          commit_interaction (sim_interaction_id sim) [progress]
            (with_progress interaction progress)
      | None => ret tt
      end ;;
      do event <-
        (if (20 <? progress) && (Z.of_nat (length (events sim)) <? 3) then
           do r <- random_random;
           if flt r lit_0_3 then
             do pool <- lift (subscript SIMULATION_EVENTS (sim_content_type sim));
             do event <- random_choice pool;
             do sims <- get_sims;
             put_sims (dict_set simulation_id (with_events sim (events sim ++ [event])) sims) ;;
             ret (Some event)
           else ret None
         else ret None);
      do elapsed_time <- lift (py_int elapsed);
      ret (mkProgressReport progress (100 <=? progress) event (sim_content_title sim)
             elapsed_time)
  end.

(** [list(set(existing_tags + personal_tags))]: the tags without
    repetition (Python leaves the order of the result open). *)
Definition merge_tags (existing_tags personal_tags : list string) : list string :=
  remove_dups (existing_tags ++ personal_tags).

Definition update_content_popularity (content_type : string) (content_id : Z) (rating : Z)
  : M unit :=
  do content <- get_content content_type content_id;
  match content with
  | Some content =>
      let old_part := fmul (popularity_score content) lit_0_9 in
      do new_part <- lift (int_mul_float rating lit_0_1);
      let new_score := fadd old_part new_part in
      commit_content content_type content_id (mkContent (title content) (round2 new_score))
  | None => ret tt
  end.

Definition complete_simulation (simulation_id : string) (rating : Z)
    (personal_tags : option (list string)) : M CompletionReport :=
  do sims <- get_sims;
  match dict_get simulation_id sims with
  | None => raise (ValueError "Simulation not found")
  | Some sim =>
      do interaction <- query_interaction (sim_interaction_id sim);
      do actual_duration <-
        match interaction with
        | Some interaction =>
            do current_time <- utcnow;
            do seconds <- lift (total_seconds (current_time - start_time sim));
            do actual_duration <- lift (py_int seconds);
            let tags :=
              match personal_tags with
              | Some (t :: ts) => merge_tags (tags_extracted interaction) (t :: ts)
              | _ => tags_extracted interaction
              end in
            commit_interaction (sim_interaction_id sim) [rating; 100; actual_duration]
              (mkUserInteraction (interaction_id interaction) (user_id interaction)
                 (content_type interaction) (content_id interaction)
                 "completed" (Some rating) 100 (start_date interaction)
                 (Some current_time) (Some actual_duration) tags) ;;
            ret (Some actual_duration)
        | None => ret None
        end;
      do sims <- get_sims;
      put_sims (dict_del simulation_id sims) ;;
      update_content_popularity (sim_content_type sim) (sim_content_id sim) rating ;;
      match actual_duration with
      | Some actual_duration =>
          ret (mkCompletionReport
                 ("Вы завершили " +:+ get_action_verb (sim_content_type sim) +:+ " '"
                    +:+ sim_content_title sim +:+ "'!")
                 rating actual_duration (calculate_experience rating actual_duration))
      | None => raise (UnboundLocalError "actual_duration")
      end
  end.

Definition cancel_simulation (simulation_id : string) : M CancelReport :=
  do sims <- get_sims;
  match dict_get simulation_id sims with
  | None => raise (ValueError "Simulation not found")
  | Some sim =>
      do interaction <- query_interaction (sim_interaction_id sim);
      match interaction with
      | Some interaction =>
          do now <- utcnow;
          commit_interaction (sim_interaction_id sim) []
            (mkUserInteraction (interaction_id interaction) (user_id interaction)
               (content_type interaction) (content_id interaction)
               "dropped" (rating interaction) (progress_percent interaction)
               (start_date interaction) (Some now) (simulation_duration interaction)
               (tags_extracted interaction))
      | None => ret tt
      end ;;
      do sims <- get_sims;
      put_sims (dict_del simulation_id sims) ;;
      ret (mkCancelReport
             ("Вы прекратили " +:+ get_action_verb (sim_content_type sim) +:+ " '"
                +:+ sim_content_title sim +:+ "'"))
  end.

(** ** The endpoints of [app/api/simulation.py] *)

Module Api.

(** The request bodies.  The pydantic models declare the types of the
    fields and nothing more, so any int is a valid [rating]. *)
Record SimulationStart : Type := mkSimulationStart {
  ss_content_type : string;
  ss_content_id : Z
}.

Record SimulationComplete : Type := mkSimulationComplete {
  sc_rating : Z;
  sc_personal_tags : list string
}.

Record ActiveSummary : Type := mkActiveSummary {
  as_simulation_id : string;
  as_content_title : string;
  as_content_type : string;
  as_progress : Z;
  as_start_time : Z
}.

(** [try: ... except ValueError as e: raise HTTPException(status, str(e))] *)
Definition except_ValueError {A} (status_code : Z) (c : M A) : M A :=
  fun w => match c w with
           | (w', inl (ValueError msg)) => (w', inl (HTTPException status_code msg))
           | r => r
           end.

(** The loop of [get_active_simulations] over the items of the dict.
    The calls inside the loop change neither the keys of the dict nor
    the fields of a session that the loop reads. *)
Fixpoint active_loop (current_user_id : Z) (items : list (string * Simulation))
    (user_simulations : list ActiveSummary) : M (list ActiveSummary) :=
  match items with
  | [] => ret user_simulations
  | (sim_id, sim_data) :: rest =>
      if decide (sim_user_id sim_data = current_user_id) then
        do progress <- get_simulation_progress sim_id;
        active_loop current_user_id rest
          (user_simulations ++
             [mkActiveSummary sim_id (sim_content_title sim_data)
                (sim_content_type sim_data) (pr_progress progress)
                (start_time sim_data)])
      else active_loop current_user_id rest user_simulations
  end.

Definition get_active_simulations (current_user_id : Z) : M (list ActiveSummary) :=
  do sims <- get_sims;
  active_loop current_user_id sims [].

Definition start_simulation (current_user_id : Z) (simulation_data : SimulationStart)
  : M StartResult :=
  except_ValueError 400
    (start_simulation current_user_id (ss_content_type simulation_data)
                      (ss_content_id simulation_data)).

Definition get_simulation_progress (simulation_id : string) : M ProgressReport :=
  except_ValueError 404 (get_simulation_progress simulation_id).

(** The background task added after a completion computes nothing. *)
Definition complete_simulation (simulation_id : string)
    (completion_data : SimulationComplete) : M CompletionReport :=
  except_ValueError 404
    (complete_simulation simulation_id (sc_rating completion_data)
                         (Some (sc_personal_tags completion_data))).

Definition cancel_simulation (simulation_id : string) : M CancelReport :=
  except_ValueError 404 (cancel_simulation simulation_id).

End Api.

(** ** What the rest of the application may do *)

(** One request served, or anything else that happens between two
    requests: the other endpoints and the environment change the database,
    the clock and the generator, never the dict of live sessions. *)
Inductive step (w : World) : World -> Prop :=
  | step_start u ct cid : step w (fst (start_simulation u ct cid w))
  | step_progress k : step w (fst (get_simulation_progress k w))
  | step_complete k r tags : step w (fst (complete_simulation k r tags w))
  | step_cancel k : step w (fst (cancel_simulation k w))
  | step_active u : step w (fst (Api.get_active_simulations u w))
  | step_env d c cp e ep :
      step w (mkWorld (mkService d (active_simulations (service w))) c cp e ep).

(** The service object is created with an empty dict. *)
Inductive reachable : World -> Prop :=
  | reach_init d c cp e ep : reachable (mkWorld (mkService d []) c cp e ep)
  | reach_step w w' : reachable w -> step w w' -> reachable w'.

(** The time range configured for a content type holds the planned
    duration of a session. *)
Definition duration_in_range (sim : Simulation) : Prop :=
  exists a b, dict_get (sim_content_type sim) SIMULATION_TIMES = Some (a, b)
              /\ a <= total_time sim <= b.

Definition session_ok (sim : Simulation) : Prop :=
  (length (events sim) <= 3)%nat /\ duration_in_range sim.

Definition sessions_ok (sims : list (string * Simulation)) : Prop :=
  NoDup (dict_keys sims) /\ Forall (fun kv => session_ok kv.2) sims.

(** Shorthands for the parts of a world. *)
Definition sims_of (w : World) : list (string * Simulation) := active_simulations (service w).
Definition ledger_of (w : World) : gmap Z UserInteraction := user_interactions (db (service w)).
Definition now_of (w : World) : Z := clock w (clock_pos w).
Definition draw_of (w : World) : Z := entropy w (entropy_pos w).

(** ** The progress logic on its own *)

Definition rbind {A B} (r : exn + A) (k : A -> exn + B) : exn + B :=
  match r with
  | inl e => inl e
  | inr a => k a
  end.

(** The float the service scales and cuts to get the percentage:
    [(elapsed / total_time) * 100], for [us] microseconds elapsed. *)
Definition scaled_ratio (us total : Z) : exn + float :=
  rbind (total_seconds us) (fun elapsed =>
  rbind (float_div_int elapsed total) (fun ratio =>
  float_mul_int ratio 100)).

(** [min(100, int((elapsed / total_time) * 100))] *)
Definition progress_of (us total : Z) : exn + Z :=
  rbind (scaled_ratio us total) (fun scaled =>
  rbind (py_int scaled) (fun whole => inr (Z.min 100 whole))).

(** [int(elapsed)] *)
Definition whole_seconds (us : Z) : exn + Z :=
  rbind (total_seconds us) py_int.

(** The percentage a progress call gets past [db.commit()]: when the
    ledger row of the session exists, the percentage is assigned to its
    [progress_percent] and committed. *)
Definition progress_stored (w : World) (sim : Simulation) : exn + Z :=
  rbind (progress_of (now_of w - start_time sim) (total_time sim)) (fun p =>
  match ledger_of w !! sim_interaction_id sim with
  | Some _ => if storable (db (service w)) [p] then inr p else inl StatementError
  | None => inr p
  end).

(** The duration a completion with [rating] gets past [db.commit()], for
    a session whose ledger row exists. *)
Definition duration_stored (w : World) (sim : Simulation) (rating : Z) : exn + Z :=
  rbind (whole_seconds (now_of w - start_time sim)) (fun dur =>
  if storable (db (service w)) [rating; 100; dur] then inr dur else inl StatementError).

(** The value of [random.random()] for a raw draw. *)
Definition unit_float (raw : Z) : float :=
  binary_normalize prec emax (raw mod 2 ^ 53) (-53) false.

(** The row of the ledger after the service has stored a percentage. *)
Definition store_progress (i p : Z) (l : gmap Z UserInteraction) : gmap Z UserInteraction :=
  match l !! i with
  | Some row => <[i := with_progress row p]> l
  | None => l
  end.

(** ** Reasoning about a computation *)

(** [wp c w Q]: running [c] in [w] ends in a world and an outcome that
    satisfy [Q]. *)
Definition wp {A} (c : M A) (w : World) (Q : World -> exn + A -> Prop) : Prop :=
  Q (c w).1 (c w).2.

(** The worlds the primitives lead to. *)
Definition tick (w : World) : World :=
  mkWorld (service w) (clock w) (S (clock_pos w)) (entropy w) (entropy_pos w).
Definition drawn (w : World) : World :=
  mkWorld (service w) (clock w) (clock_pos w) (entropy w) (S (entropy_pos w)).
Definition set_sims (a : list (string * Simulation)) (w : World) : World :=
  mkWorld (mkService (db (service w)) a) (clock w) (clock_pos w) (entropy w) (entropy_pos w).
Definition set_db (d : Db) (w : World) : World :=
  mkWorld (mkService d (active_simulations (service w)))
          (clock w) (clock_pos w) (entropy w) (entropy_pos w).
Definition set_ledger (l : gmap Z UserInteraction) (w : World) : World :=
  set_db (mkDb (books (db (service w))) (movies (db (service w))) (games (db (service w))) l
               (dialect (db (service w)))) w.

(** The session a call leaves under the key: the same, or the same with
    one more event. *)
Definition event_added (k : string) (sim : Simulation) (p : Z) (w w' : World)
    (r : exn + ProgressReport) : Prop :=
  exists pool e rep,
    dict_get (sim_content_type sim) SIMULATION_EVENTS = Some pool
    /\ pool !! Z.to_nat (draw_of (drawn w) mod Z.of_nat (length pool)) = Some e
    /\ 20 < p /\ (length (events sim) < 3)%nat
    /\ flt (unit_float (draw_of w)) lit_0_3 = true
    /\ sims_of w' = dict_set k (with_events sim (events sim ++ [e])) (sims_of w)
    /\ entropy_pos w' = S (S (entropy_pos w))
    /\ r = inr rep /\ pr_event rep = Some e.

Definition event_skipped (sim : Simulation) (p : Z) (w w' : World)
    (r : exn + ProgressReport) : Prop :=
  sims_of w' = sims_of w
  /\ (forall rep, r = inr rep -> pr_event rep = None)
  /\ ((forall pool, dict_get (sim_content_type sim) SIMULATION_EVENTS = Some pool -> pool <> []) ->
      is_Some (dict_get (sim_content_type sim) SIMULATION_EVENTS) ->
      exists rep, r = inr rep)
  /\ (entropy_pos w <= entropy_pos w' <= S (entropy_pos w))%nat.

(** What [update_content_popularity] leaves behind. *)
Definition popularity_post (ct : string) (cid r : Z) (w w' : World) (res : exn + unit)
  : Prop :=
  match get_content_in (db (service w)) ct cid with
  | None => w' = w /\ res = inr tt
  | Some c =>
      match int_mul_float r lit_0_1 with
      | inl e => w' = w /\ res = inl e
      | inr new_part =>
          w' = set_db (set_content_in (db (service w)) ct cid
                         (mkContent (title c)
                            (round2 (fadd (fmul (popularity_score c) lit_0_9) new_part)))) w
          /\ res = inr tt
      end
  end.

(** The row of the ledger as [complete_simulation] rewrites it. *)
Definition completed_row (row : UserInteraction) (r : Z) (tags : option (list string))
    (now dur : Z) : UserInteraction :=
  mkUserInteraction (interaction_id row) (user_id row) (content_type row) (content_id row)
    "completed" (Some r) 100 (start_date row) (Some now) (Some dur)
    match tags with
    | Some (t :: ts) => merge_tags (tags_extracted row) (t :: ts)
    | _ => tags_extracted row
    end.

Definition completion_message (sim : Simulation) : string :=
  "Вы завершили " +:+ get_action_verb (sim_content_type sim) +:+ " '"
    +:+ sim_content_title sim +:+ "'!".

Definition complete_post (k : string) (r : Z) (tags : option (list string))
    (sim : Simulation) (w w' : World) (res : exn + CompletionReport) : Prop :=
  match ledger_of w !! sim_interaction_id sim with
  | Some row =>
      match duration_stored w sim r with
      | inl e => res = inl e /\ w' = tick w
      | inr dur =>
          exists ur,
            popularity_post (sim_content_type sim) (sim_content_id sim) r
              (set_sims (dict_del k (sims_of w))
                 (set_ledger (<[sim_interaction_id sim := completed_row row r tags (now_of w) dur]>
                                (ledger_of w)) (tick w)))
              w' ur
            /\ res = match ur with
                     | inl e => inl e
                     | inr _ => inr (mkCompletionReport (completion_message sim) r dur
                                       (calculate_experience r dur))
                     end
      end
  | None =>
      exists ur,
        popularity_post (sim_content_type sim) (sim_content_id sim) r
          (set_sims (dict_del k (sims_of w)) w) w' ur
        /\ res = match ur with
                 | inl e => inl e
                 | inr _ => inl (UnboundLocalError "actual_duration")
                 end
  end.

(** The row of the ledger as [cancel_simulation] rewrites it. *)
Definition dropped_row (row : UserInteraction) (now : Z) : UserInteraction :=
  mkUserInteraction (interaction_id row) (user_id row) (content_type row) (content_id row)
    "dropped" (rating row) (progress_percent row) (start_date row) (Some now)
    (simulation_duration row) (tags_extracted row).

Definition cancel_message (sim : Simulation) : string :=
  "Вы прекратили " +:+ get_action_verb (sim_content_type sim) +:+ " '"
    +:+ sim_content_title sim +:+ "'".

(** The ledger row and the session [start_simulation] creates. *)
Definition started_row (i u : Z) (ct : string) (cid now : Z) : UserInteraction :=
  mkUserInteraction i u ct cid "started" None 0 (Some now) None None [].

Definition start_message (ct : string) (c : Content) : string :=
  "Начинаем " +:+ get_action_verb ct +:+ " '" +:+ title c +:+ "'!".

Definition start_post (u : Z) (ct : string) (cid : Z) (w w' : World)
    (res : exn + StartResult) : Prop :=
  match get_content_in (db (service w)) ct cid with
  | None =>
      w' = w
      /\ res = inl (ValueError ("Content not found: " +:+ ct +:+ " " +:+ pretty cid))
  | Some c =>
      exists a b,
        dict_get ct SIMULATION_TIMES = Some (a, b) /\ a <= b
        /\ let i := fresh_key (ledger_of w) in
           let t := a + draw_of w mod (b - a + 1) in
           let key := simulation_key u ct cid in
           w' = drawn (tick
                  (set_sims (dict_set key
                               (mkSimulation i u ct cid (title c) (now_of (tick w)) t [])
                               (sims_of w))
                     (set_ledger (<[i := started_row i u ct cid (now_of w)]> (ledger_of w))
                        (tick w))))
           /\ res = inr (mkStartResult key i t (title c) (start_message ct c))
  end.

(** ** A small world to run the service in *)

(** One book in the catalog, with popularity 8.0. *)
Definition sample_db : Db :=
  mkDb {[ 7 := mkContent "Dune" (float_of_int 8) ]} ∅ ∅ ∅ PostgreSQL.

(** No live session; the clock advances ten seconds per reading and the
    raw draws are 70, 71, 72, ... *)
Definition sample_world : World :=
  mkWorld (mkService sample_db []) (fun n => 10000000 * Z.of_nat n) 0
          (fun n => 70 + Z.of_nat n) 0.

(** User 1 has started the book: the session lasts 100 seconds and began
    at second 10. *)
Definition sample_started : World := (start_simulation 1 "book" 7 sample_world).1.

Definition sample_session : Simulation :=
  mkSimulation 1 1 "book" 7 "Dune" 10000000 100 [].

Definition sample_row : UserInteraction := started_row 1 1 "book" 7 0.

(** The same world after the ledger row of the session has been deleted
    through the interactions endpoint. *)
Definition sample_orphaned : World :=
  mkWorld (mkService sample_db (sims_of sample_started))
          (clock sample_started) (clock_pos sample_started)
          (entropy sample_started) (entropy_pos sample_started).

(** ** Floats as real numbers *)

Definition pow2 (e : Z) : R := powerRZ 2 e.
Definition B2R (m e : Z) : R := (IZR m * pow2 e)%R.

(** [y] lies where the record says: at [m], between [m] and the middle,
    at the middle, or between the middle and [m + 1]. *)
Definition located (mrs : shr_record) (y : R) : Prop :=
  match shr_r mrs, shr_s mrs with
  | false, false => y = IZR (shr_m mrs)
  | false, true => (IZR (shr_m mrs) < y < IZR (shr_m mrs) + / 2)%R
  | true, false => y = (IZR (shr_m mrs) + / 2)%R
  | true, true => (IZR (shr_m mrs) + / 2 < y < IZR (shr_m mrs) + 1)%R
  end.

Abbreviation fexp64 := (fexp 53 1024).

(** The real number a float stands for. *)
Definition fval (f : spec_float) : R :=
  match f with
  | S754_finite s m e => if s then (- B2R (Z.pos m) e)%R else B2R (Z.pos m) e
  | _ => 0%R
  end.

(** [f] is the positive normal double nearest to [x]: it lies on the grid
    of step [2^E] of the binade of [x], at most half a step from [x]. *)
Definition rounds_to (f : spec_float) (x : R) : Prop :=
  exists mf ef E k,
    f = S754_finite false mf ef
    /\ canonical_mantissa 53 1024 mf ef = true
    /\ Zdigits2 (Z.pos mf) = 53
    /\ E <= ef <= E + 1 /\ ef <= 971
    /\ fval f = (IZR k * pow2 E)%R
    /\ (Rabs (fval f - x) <= pow2 E / 2)%R
    /\ (pow2 (E + 52) <= x < pow2 (E + 53))%R.

(** [float(n)] is exact, positive and normal. *)
Definition exact_int_float (n : Z) : bool :=
  match float_of_int n with
  | S754_finite false m e =>
      (Zdigits2 (Z.pos m) =? 53) && (e <=? 0) && (-52 <=? e) && (Z.pos m =? n * 2 ^ (- e))
  | _ => false
  end.

(** One part in [2^53]: the relative error of one rounding. *)
Definition eps : R := (/ 9007199254740992)%R.

(** [round(popularity_score * 0.9 + rating * 0.1, 2)] *)
Definition new_popularity (p : float) (r : Z) : float :=
  round2 (fadd (fmul p lit_0_9) (fmul (float_of_int r) lit_0_1)).

(** The sample world forty seconds into the session. *)
Definition sample_midway : World :=
  mkWorld (service sample_started) (clock sample_started) 5
          (entropy sample_started) (entropy_pos sample_started).

(** ** What a progress call may change *)

(** Two sessions that differ at most in their events, two ledger rows
    that differ at most in the progress. *)
Definition same_but_events (s s' : Simulation) : Prop :=
  with_events s' (events s) = s.




(** [f] is a non-negative double on the grid of step [2^E], at most half a step from [x]. *)
Definition near_grid (f : float) (x : R) (E : Z) : Prop :=
  exists k,
    0 <= k
    /\ (Rabs (IZR k * pow2 E - x) <= pow2 E / 2)%R
    /\ fval f = (IZR k * pow2 E)%R
    /\ (f = S754_zero false
        \/ exists m e, f = S754_finite false m e /\ canonical_mantissa 53 1024 m e = true).

(** A popularity score between 0 and 10: a zero, or a positive double in
    canonical form that is at most 10. *)
Definition score_in_range (p : float) : Prop :=
  match p with
  | S754_zero _ => True
  | S754_finite false m e =>
      canonical_mantissa 53 1024 m e = true /\ (B2R (Z.pos m) e <= 10)%R
  | _ => False
  end.

(** [rating * 0.1] is a positive double that is at most 1. *)
Definition rating_part_ok (r : Z) : bool :=
  match fmul (float_of_int r) lit_0_1 with
  | S754_finite false m e => (e <=? 0) && (Z.pos m <=? 2 ^ (- e))
  | _ => false
  end.

(** ** Invariants of the live sessions *)

(** A session is filed under the key of its own user, content type and
    content id. *)
Definition session_filed (kv : string * Simulation) : Prop :=
  kv.1 = simulation_key (sim_user_id kv.2) (sim_content_type kv.2) (sim_content_id kv.2).

(** The events of a session are taken from the list of its content type. *)
Definition events_from_pool (kv : string * Simulation) : Prop :=
  exists pool, dict_get (sim_content_type kv.2) SIMULATION_EVENTS = Some pool
               /\ Forall (fun e => In e pool) (events kv.2).

(** [c in s] for a character and a string. *)
Fixpoint occurs (c : Ascii.ascii) (s : string) : bool :=
  match s with
  | EmptyString => false
  | String c' s' => if decide (c = c') then true else occurs c s'
  end.

(** The character that separates the parts of a session key. *)
Definition underscore : Ascii.ascii :=
  Ascii.Ascii true true true true true false true false.

(** ** Requests *)

(** [get_simulation_service] of [app/api/simulation.py]: the module-level
    service object is created on first use, with an empty dict, and is
    given the database session of the request each time. *)
Definition get_simulation_service (simulation_service : option SimulationService) (db : Db)
  : SimulationService :=
  match simulation_service with
  | None => mkService db []
  | Some s => mkService db (active_simulations s)
  end.

(** A request to one of the five endpoints of the router. *)
Inductive Request : Type :=
  | PostStart (current_user_id : Z) (simulation_data : Api.SimulationStart)
  | GetProgress (simulation_id : string)
  | PostComplete (simulation_id : string) (completion_data : Api.SimulationComplete)
  | PostCancel (simulation_id : string)
  | GetActive (current_user_id : Z).

(** What a request finds: the database as it is by then, the clock and
    the generator. *)
Record Environment : Type := mkEnvironment {
  env_db : Db;
  env_clock : nat -> Z;
  env_clock_pos : nat;
  env_entropy : nat -> Z;
  env_entropy_pos : nat
}.

(** The world the endpoint of a request runs in. *)
Definition world_of (simulation_service : option SimulationService) (env : Environment)
  : World :=
  mkWorld (get_simulation_service simulation_service (env_db env))
          (env_clock env) (env_clock_pos env) (env_entropy env) (env_entropy_pos env).

(** The world an endpoint leaves. *)
Definition endpoint (req : Request) (w : World) : World :=
  match req with
  | PostStart u body => (Api.start_simulation u body w).1
  | GetProgress k => (Api.get_simulation_progress k w).1
  | PostComplete k body => (Api.complete_simulation k body w).1
  | PostCancel k => (Api.cancel_simulation k w).1
  | GetActive u => (Api.get_active_simulations u w).1
  end.

(** The module-level service object after a sequence of requests. *)
Fixpoint serve (simulation_service : option SimulationService)
    (requests : list (Environment * Request)) : option SimulationService :=
  match requests with
  | [] => simulation_service
  | (env, req) :: rest =>
      serve (Some (service (endpoint req (world_of simulation_service env)))) rest
  end.

(** ** The endpoints of [app/api/interactions.py] *)

Module Interactions.

(** The exceptions these endpoints can end in.  The module does not
    import [HTTPException], so the name is unbound where it is raised. *)
Inductive error : Type :=
  | NameError (name : string)
  | KeyError (key : string)
  | TypeError (msg : string)
  | OverflowError.

Definition ebind {A B} (r : error + A) (k : A -> error + B) : error + B :=
  match r with
  | inl e => inl e
  | inr a => k a
  end.

(** [if x:] for an optional int: neither [None] nor 0. *)
Definition truthy (x : option Z) : bool :=
  match x with
  | Some v => negb (v =? 0)
  | None => false
  end.

(** [[f(i) for i in rows if f(i)]] for an optional int column. *)
Definition truthy_values (f : UserInteraction -> option Z) (rows : list UserInteraction)
  : list Z :=
  omap (fun i => if truthy (f i) then f i else None) rows.

Definition sum (l : list Z) : Z := foldr Z.add 0 l.

(** [db.query(UserInteraction).filter(user_id == u)], on the rows in the
    order the database returns them. *)
Definition of_user (current_user_id : Z) (rows : list UserInteraction) : list UserInteraction :=
  filter (fun i => user_id i = current_user_id) rows.

Definition of_type (t : string) (rows : list UserInteraction) : list UserInteraction :=
  filter (fun i => interaction_type i = t) rows.

(** [DELETE /interactions/{interaction_id}] *)
Definition delete_interaction (interaction_id current_user_id : Z) (d : Db)
  : Db * (error + string) :=
  match user_interactions d !! interaction_id with
  | Some interaction =>
      if decide (user_id interaction = current_user_id) then
        (mkDb (books d) (movies d) (games d) (delete interaction_id (user_interactions d))
              (dialect d),
         inr "Interaction deleted successfully")
      else (d, inl (NameError "HTTPException"))
  | None => (d, inl (NameError "HTTPException"))
  end.

(** The dict [get_user_stats] returns.  [average_rating] is [None] while
    it is the int 0 the dict is created with. *)
Record Stats : Type := mkStats {
  total_interactions : Z;
  completed : Z;
  dropped : Z;
  average_rating : option float;
  total_time_spent : Z;
  by_content_type : list (string * Z);
  recent_activity : Z
}.

(** [for interaction in rows: by_content_type[interaction.content_type] += 1] *)
Fixpoint count_content_types (rows : list UserInteraction) (by_content_type : list (string * Z))
  : error + list (string * Z) :=
  match rows with
  | [] => inr by_content_type
  | interaction :: rest =>
      match dict_get (content_type interaction) by_content_type with
      | Some n =>
          count_content_types rest
            (dict_set (content_type interaction) (n + 1) by_content_type)
      | None => inl (KeyError (content_type interaction))
      end
  end.

(** [[i for i in rows if i.start_date >= week_ago]]: a row without start
    date cannot be compared. *)
Fixpoint recent_rows (week_ago : Z) (rows : list UserInteraction)
  : error + list UserInteraction :=
  match rows with
  | [] => inr []
  | i :: rest =>
      match start_date i with
      | None =>
          inl (TypeError
                 "'>=' not supported between instances of 'NoneType' and 'datetime.datetime'")
      | Some t =>
          ebind (recent_rows week_ago rest) (fun recent =>
          inr (if week_ago <=? t then i :: recent else recent))
      end
  end.

(** Seven days in microseconds. *)
Definition week : Z := 7 * 86400 * 1000000.

(** [GET /interactions/stats], for the rows [all_rows] in the order the
    database returns them and the clock reading [now]. *)
Definition get_user_stats (all_rows : gmap Z UserInteraction -> list UserInteraction)
    (current_user_id now : Z) (d : Db) : error + Stats :=
  let interactions := of_user current_user_id (all_rows (user_interactions d)) in
  let completed_interactions := of_type "completed" interactions in
  let ratings := truthy_values rating completed_interactions in
  ebind (match ratings with
         | [] => inr None
         | _ =>
             let mean := int_true_div (sum ratings) (Z.of_nat (length ratings)) in
             if is_finite mean then inr (Some (round2 mean)) else inl OverflowError
         end) (fun average_rating =>
  let durations := truthy_values simulation_duration completed_interactions in
  ebind (count_content_types completed_interactions
           [("book", 0); ("movie", 0); ("game", 0)]) (fun by_content_type =>
  let week_ago := now - week in
  ebind (recent_rows week_ago interactions) (fun recent =>
  inr (mkStats (Z.of_nat (length interactions))
               (Z.of_nat (length completed_interactions))
               (Z.of_nat (length (of_type "dropped" interactions)))
               average_rating
               (sum durations)
               by_content_type
               (Z.of_nat (length recent)))))).

Definition status_mapping : list (string * string) :=
  [ ("reading", "started"); ("completed", "completed");
    ("dropped", "dropped"); ("planned", "planned") ].

Definition status_reverse_mapping : list (string * string) :=
  [ ("started", "reading"); ("completed", "completed");
    ("dropped", "dropped"); ("planned", "planned") ].

(** [for interaction in rows: library[status_key].append(interaction)] *)
Fixpoint group_by_status (rows : list UserInteraction)
    (library : list (string * list UserInteraction))
  : error + list (string * list UserInteraction) :=
  match rows with
  | [] => inr library
  | interaction :: rest =>
      let status_key :=
        default "reading" (dict_get (interaction_type interaction) status_reverse_mapping) in
      match dict_get status_key library with
      | Some l => group_by_status rest (dict_set status_key (l ++ [interaction]) library)
      | None => inl (KeyError status_key)
      end
  end.

(** [GET /interactions/library], for the rows [by_start_date] of the
    ledger as the database orders them by start date, latest first. *)
Definition get_user_library
    (by_start_date : gmap Z UserInteraction -> list UserInteraction)
    (status : string) (content_type_filter : option string) (current_user_id : Z) (d : Db)
  : error + list (string * list UserInteraction) :=
  let query := of_user current_user_id (by_start_date (user_interactions d)) in
  let query :=
    match content_type_filter with
    | Some t => if decide (t = "") then query else filter (fun i => content_type i = t) query
    | None => query
    end in
  ebind (if decide (status = "all") then inr query
         else match dict_get status status_mapping with
              | Some t => inr (of_type t query)
              | None => inl (KeyError status)
              end) (fun interactions =>
  group_by_status interactions
    [ ("reading", []); ("completed", []); ("dropped", []); ("planned", []) ]).

(** The rows of the ledger in the order of the map: one order a database
    may return them in. *)
Definition rows_of_map (ledger : gmap Z UserInteraction) : list UserInteraction :=
  (map_to_list ledger).*2.

End Interactions.

(** The content types the statistics can count. *)
Definition countable (i : UserInteraction) : Prop :=
  content_type i = "book" \/ content_type i = "movie" \/ content_type i = "game".

Definition with_content_type (t : string) (rows : list UserInteraction)
  : list UserInteraction :=
  filter (fun i => content_type i = t) rows.

(** The rows the library shows under "reading": the started ones and
    those of any type the mapping does not know. *)
Definition shown_as_reading (i : UserInteraction) : Prop :=
  interaction_type i <> "completed" /\ interaction_type i <> "dropped"
  /\ interaction_type i <> "planned".

(** The rows [get_user_library] groups: those of the user, of the content
    type and of the status asked for. *)
Definition library_rows (rows : list UserInteraction) (status : string)
    (content_type_filter : option string) (current_user_id : Z) : list UserInteraction :=
  let mine := Interactions.of_user current_user_id rows in
  let typed :=
    match content_type_filter with
    | Some t => if decide (t = "") then mine else with_content_type t mine
    | None => mine
    end in
  if decide (status = "all") then typed
  else if decide (status = "reading") then Interactions.of_type "started" typed
  else Interactions.of_type status typed.

(** The sample world after user 1 has completed the book with a rating of 9. *)
Definition sample_completed : World :=
  (complete_simulation "1_book_7" 9 None sample_started).1.


(** ** Sessions and their ledger rows *)

(** Two states of one ledger row: the same id, user, item and start date. *)
Definition same_subject (r r' : UserInteraction) : Prop :=
  interaction_id r' = interaction_id r /\ user_id r' = user_id r
  /\ content_type r' = content_type r /\ content_id r' = content_id r
  /\ start_date r' = start_date r.

(** From one ledger to the next no row is deleted and none is given to
    another user or item. *)
Definition ledger_kept (l l' : gmap Z UserInteraction) : Prop :=
  forall i row, l !! i = Some row -> exists row', l' !! i = Some row' /\ same_subject row row'.

(** The ledger row of a session exists and is of the session's user and
    item. *)
Definition session_linked (l : gmap Z UserInteraction) (sim : Simulation) : Prop :=
  exists row, l !! sim_interaction_id sim = Some row
              /\ user_id row = sim_user_id sim
              /\ content_type row = sim_content_type sim
              /\ content_id row = sim_content_id sim.

(** The sessions of a world all have their rows. *)
Definition all_linked (w : World) : Prop :=
  Forall (fun kv : string * Simulation => session_linked (ledger_of w) kv.2) (sims_of w).

(** One request served, or anything else that keeps the rows of the
    ledger. *)
Inductive keeping_step (w : World) : World -> Prop :=
  | keeping_start u ct cid : keeping_step w (fst (start_simulation u ct cid w))
  | keeping_progress k : keeping_step w (fst (get_simulation_progress k w))
  | keeping_complete k r tags : keeping_step w (fst (complete_simulation k r tags w))
  | keeping_cancel k : keeping_step w (fst (cancel_simulation k w))
  | keeping_active u : keeping_step w (fst (Api.get_active_simulations u w))
  | keeping_env d c cp e ep :
      ledger_kept (ledger_of w) (user_interactions d) ->
      keeping_step w (mkWorld (mkService d (active_simulations (service w))) c cp e ep).

(** The worlds reached while nothing deletes or reassigns a ledger row. *)
Inductive rows_kept : World -> Prop :=
  | rows_kept_init d c cp e ep : rows_kept (mkWorld (mkService d []) c cp e ep)
  | rows_kept_step w w' : rows_kept w -> keeping_step w w' -> rows_kept w'.

(** ** Rows whose outcome is recorded *)

(** A ledger row as [start_simulation] leaves it: started, with no
    rating, completion date or duration. *)
Definition row_open (r : UserInteraction) : Prop :=
  interaction_type r = "started" /\ rating r = None
  /\ completion_date r = None /\ simulation_duration r = None.

Definition session_open (l : gmap Z UserInteraction) (sim : Simulation) : Prop :=
  exists row, l !! sim_interaction_id sim = Some row /\ row_open row.

Definition all_open (w : World) : Prop :=
  Forall (fun kv : string * Simulation => session_open (ledger_of w) kv.2) (sims_of w).

(** One request served by the tracker, or anything else that leaves the
    ledger alone: in the application only the tracker and the endpoint
    that deletes an interaction write to it. *)
Inductive tracker_step (w : World) : World -> Prop :=
  | tracker_start u ct cid : tracker_step w (fst (start_simulation u ct cid w))
  | tracker_progress k : tracker_step w (fst (get_simulation_progress k w))
  | tracker_complete k r tags : tracker_step w (fst (complete_simulation k r tags w))
  | tracker_cancel k : tracker_step w (fst (cancel_simulation k w))
  | tracker_active u : tracker_step w (fst (Api.get_active_simulations u w))
  | tracker_env d c cp e ep :
      user_interactions d = ledger_of w ->
      tracker_step w (mkWorld (mkService d (active_simulations (service w))) c cp e ep).

Inductive tracker_run : World -> Prop :=
  | tracker_run_init d c cp e ep : tracker_run (mkWorld (mkService d []) c cp e ep)
  | tracker_run_step w w' : tracker_run w -> tracker_step w w' -> tracker_run w'.

(** No live session has the ledger row [i]. *)
Definition unreferenced (w : World) (i : Z) : Prop :=
  Forall (fun kv : string * Simulation => sim_interaction_id kv.2 <> i) (sims_of w).
(** * Properties *)

(** ** Symbolic execution *)

Section Wp.
Context {A B : Type}.
Implicit Types (w : World).

Lemma wp_run (c : M A) w Q : wp c w Q -> Q (c w).1 (c w).2.
Proof. exact (fun H => H). Qed.

Lemma wp_bind (c : M A) (k : A -> M B) w Q :
  wp c w (fun w' r => match r with
                      | inl e => Q w' (inl e)
                      | inr a => wp (k a) w' Q
                      end) ->
  wp (bind c k) w Q.
Proof. unfold wp, bind. destruct (c w) as [w' [e|a]]; exact (fun H => H). Qed.

Lemma wp_ret (a : A) w (Q : World -> exn + A -> Prop) : Q w (inr a) -> wp (ret a) w Q.
Proof. exact (fun H => H). Qed.

Lemma wp_raise e w (Q : World -> exn + A -> Prop) : Q w (inl e) -> wp (raise e) w Q.
Proof. exact (fun H => H). Qed.

Lemma wp_lift r w (Q : World -> exn + A -> Prop) : Q w r -> wp (lift r) w Q.
Proof. exact (fun H => H). Qed.

Lemma wp_mono (c : M A) w (Q Q' : World -> exn + A -> Prop) :
  (forall w' r, Q w' r -> Q' w' r) -> wp c w Q -> wp c w Q'.
Proof. unfold wp. auto. Qed.
End Wp.

Lemma wp_get_sims w Q : Q w (inr (sims_of w)) -> wp get_sims w Q.
Proof. exact (fun H => H). Qed.

Lemma wp_put_sims a w Q : Q (set_sims a w) (inr tt) -> wp (put_sims a) w Q.
Proof. exact (fun H => H). Qed.

Lemma wp_get_db w Q : Q w (inr (db (service w))) -> wp get_db w Q.
Proof. exact (fun H => H). Qed.

Lemma wp_put_db d w Q : Q (set_db d w) (inr tt) -> wp (put_db d) w Q.
Proof. exact (fun H => H). Qed.

Lemma wp_utcnow w Q : Q (tick w) (inr (now_of w)) -> wp utcnow w Q.
Proof. exact (fun H => H). Qed.

Lemma wp_randbelow n w Q : Q (drawn w) (inr (draw_of w mod n)) -> wp (randbelow n) w Q.
Proof. exact (fun H => H). Qed.

Lemma wp_query_interaction i w Q :
  Q w (inr (ledger_of w !! i)) -> wp (query_interaction i) w Q.
Proof. exact (fun H => H). Qed.

Lemma wp_commit_interaction i assigned r w Q :
  (if storable (db (service w)) assigned
   then Q (set_ledger (<[i := r]> (ledger_of w)) w) (inr tt)
   else Q w (inl StatementError)) ->
  wp (commit_interaction i assigned r) w Q.
Proof.
  unfold wp, commit_interaction, bind, get_db. cbn [fst snd].
  destruct (storable (db (service w)) assigned); exact (fun H => H).
Qed.

Lemma wp_commit_interaction_nil i r w Q :
  Q (set_ledger (<[i := r]> (ledger_of w)) w) (inr tt) -> wp (commit_interaction i [] r) w Q.
Proof. exact (fun H => H). Qed.

Lemma wp_get_content ct cid w Q :
  Q w (inr (get_content_in (db (service w)) ct cid)) -> wp (get_content ct cid) w Q.
Proof. exact (fun H => H). Qed.

Ltac wp_step :=
  lazymatch goal with
  | |- wp (bind _ _) _ _ => apply wp_bind
  | |- wp (ret _) _ _ => apply wp_ret
  | |- wp (raise _) _ _ => apply wp_raise
  | |- wp (lift _) _ _ => apply wp_lift
  | |- wp get_sims _ _ => apply wp_get_sims
  | |- wp (put_sims _) _ _ => apply wp_put_sims
  | |- wp get_db _ _ => apply wp_get_db
  | |- wp (put_db _) _ _ => apply wp_put_db
  | |- wp utcnow _ _ => apply wp_utcnow
  | |- wp (randbelow _) _ _ => apply wp_randbelow
  | |- wp (query_interaction _) _ _ => apply wp_query_interaction
  | |- wp (commit_interaction _ [] _) _ _ => apply wp_commit_interaction_nil
  | |- wp (commit_interaction _ _ _) _ _ => apply wp_commit_interaction
  | |- wp (get_content _ _) _ _ => apply wp_get_content
  end.

Ltac wp_steps := repeat wp_step.

(** ** Dicts *)

Section DictFacts.
Context {V : Type}.
Implicit Types (d : list (string * V)) (k : string) (v : V).

Lemma dict_get_Some_In k v d : dict_get k d = Some v -> In (k, v) d.
Proof.
  induction d as [|[k' v'] d IH]; simpl; [discriminate|].
  destruct (decide (k = k')) as [->|Hne]; intros H.
  - injection H as ->. now left.
  - right. auto.
Qed.

Lemma dict_get_None k d : dict_get k d = None <-> ~ In k (dict_keys d).
Proof.
  induction d as [|[k' v'] d IH]; simpl.
  - split; [intros _ []|reflexivity].
  - destruct (decide (k = k')) as [->|Hne]; split.
    + discriminate.
    + intros H. exfalso. apply H. now left.
    + intros H [Heq|Hin]; [congruence|]. now apply IH.
    + intros H. apply IH. intros Hin. apply H. now right.
Qed.

Lemma dict_get_In k v d : NoDup (dict_keys d) -> In (k, v) d -> dict_get k d = Some v.
Proof.
  induction d as [|[k' v'] d IH]; simpl; intros Hnd Hin; [contradiction|].
  apply NoDup_cons in Hnd as [Hnotin Hnd].
  destruct Hin as [Heq|Hin].
  - injection Heq as -> ->. now rewrite decide_True.
  - destruct (decide (k = k')) as [->|Hne]; [|auto].
    exfalso. apply Hnotin. apply list_elem_of_In.
    change (In k' (dict_keys d)). unfold dict_keys.
    apply in_map_iff. now exists (k', v).
Qed.

Lemma dict_get_set_eq k v d : dict_get k (dict_set k v d) = Some v.
Proof.
  induction d as [|[k' v'] d IH]; simpl.
  - now rewrite decide_True.
  - destruct (decide (k = k')) as [->|Hne]; simpl.
    + now rewrite decide_True.
    + now rewrite decide_False.
Qed.

Lemma dict_get_set_ne k k' v d : k <> k' -> dict_get k' (dict_set k v d) = dict_get k' d.
Proof.
  intros Hne. induction d as [|[k0 v0] d IH]; simpl.
  - rewrite decide_False; [reflexivity|congruence].
  - destruct (decide (k = k0)) as [->|Hne0]; simpl.
    + rewrite !decide_False; [reflexivity|congruence|congruence].
    + now rewrite IH.
Qed.

Lemma dict_keys_set_present k v d :
  In k (dict_keys d) -> dict_keys (dict_set k v d) = dict_keys d.
Proof.
  induction d as [|[k0 v0] d IH]; simpl; [intros []|].
  destruct (decide (k = k0)) as [->|Hne]; simpl; [reflexivity|].
  intros [Heq|Hin]; [congruence|].
  f_equal. now apply IH.
Qed.

Lemma dict_keys_set_absent k v d :
  ~ In k (dict_keys d) -> dict_keys (dict_set k v d) = dict_keys d ++ [k].
Proof.
  induction d as [|[k0 v0] d IH]; simpl; [reflexivity|].
  destruct (decide (k = k0)) as [->|Hne]; simpl.
  - intros H. exfalso. apply H. now left.
  - intros H. f_equal. apply IH. intros Hin. apply H. now right.
Qed.

Lemma dict_set_NoDup k v d : NoDup (dict_keys d) -> NoDup (dict_keys (dict_set k v d)).
Proof.
  intros Hnd. destruct (decide (k ∈ dict_keys d)) as [Hin|Hnotin];
    rewrite list_elem_of_In in *.
  - now rewrite dict_keys_set_present.
  - rewrite dict_keys_set_absent by assumption.
    apply NoDup_app. split; [assumption|]. split.
    + intros x Hx Hx'. apply list_elem_of_In in Hx, Hx'.
      destruct Hx' as [<-|[]]. contradiction.
    + apply NoDup_singleton.
Qed.

Lemma dict_set_In k v d x : In x (dict_set k v d) -> x = (k, v) \/ In x d.
Proof.
  induction d as [|[k0 v0] d IH]; simpl.
  - intros [<-|[]]. now left.
  - destruct (decide (k = k0)) as [->|Hne]; simpl.
    + intros [<-|Hin]; [now left|right; now right].
    + intros [<-|Hin]; [right; now left|].
      destruct (IH Hin) as [->|Hin']; [now left|right; now right].
Qed.

Lemma dict_set_length_present k v d :
  In k (dict_keys d) -> length (dict_set k v d) = length d.
Proof.
  intros Hin. rewrite <- (length_fmap fst (dict_set k v d)), <- (length_fmap fst d).
  change (length (dict_keys (dict_set k v d)) = length (dict_keys d)).
  now rewrite dict_keys_set_present.
Qed.

Lemma dict_del_In k d x : In x (dict_del k d) -> In x d.
Proof.
  induction d as [|[k0 v0] d IH]; simpl; [intros []|].
  destruct (decide (k = k0)) as [->|Hne]; simpl.
  - intros Hin. now right.
  - intros [<-|Hin]; [now left|right; auto].
Qed.

Lemma dict_del_keys_In k k' d : In k' (dict_keys (dict_del k d)) -> In k' (dict_keys d).
Proof.
  unfold dict_keys. intros Hin. apply in_map_iff in Hin as [x [<- Hx]].
  apply in_map_iff. exists x. split; [reflexivity|]. eapply dict_del_In; eauto.
Qed.

Lemma dict_del_NoDup k d : NoDup (dict_keys d) -> NoDup (dict_keys (dict_del k d)).
Proof.
  induction d as [|[k0 v0] d IH]; simpl; intros Hnd; [assumption|].
  apply NoDup_cons in Hnd as [Hnotin Hnd].
  destruct (decide (k = k0)) as [->|Hne]; simpl; [assumption|].
  apply NoDup_cons. split; [|auto].
  intros Hin. apply Hnotin. apply list_elem_of_In.
  apply list_elem_of_In in Hin. now apply dict_del_keys_In in Hin.
Qed.

Lemma dict_get_del_eq k d : NoDup (dict_keys d) -> dict_get k (dict_del k d) = None.
Proof.
  induction d as [|[k0 v0] d IH]; simpl; intros Hnd; [reflexivity|].
  apply NoDup_cons in Hnd as [Hnotin Hnd].
  destruct (decide (k = k0)) as [->|Hne]; simpl.
  - apply dict_get_None. intros Hin. apply Hnotin. now apply list_elem_of_In.
  - rewrite decide_False by assumption. auto.
Qed.

Lemma dict_get_del_ne k k' d : k <> k' -> dict_get k' (dict_del k d) = dict_get k' d.
Proof.
  intros Hne. induction d as [|[k0 v0] d IH]; simpl; [reflexivity|].
  destruct (decide (k = k0)) as [->|Hne0]; simpl.
  - rewrite decide_False; [reflexivity|congruence].
  - now rewrite IH.
Qed.

End DictFacts.

(** ** Conversions *)

Arguments total_seconds : simpl never.
Arguments float_div_int : simpl never.
Arguments float_mul_int : simpl never.
Arguments int_mul_float : simpl never.
Arguments float_of_int : simpl never.
Arguments int_true_div : simpl never.
Arguments unit_float : simpl never.
Arguments round2 : simpl never.
Arguments fmul : simpl never.
Arguments fdiv : simpl never.
Arguments fadd : simpl never.
Arguments flt : simpl never.
Arguments lit_0_1 : simpl never.
Arguments lit_0_3 : simpl never.
Arguments lit_0_9 : simpl never.

Lemma py_int_finite x : is_finite x = true -> exists n, py_int x = inr n.
Proof. destruct x; simpl; try discriminate; eauto. Qed.

Lemma total_seconds_finite us x : total_seconds us = inr x -> is_finite x = true.
Proof.
  unfold total_seconds. destruct (is_finite (int_true_div us 1000000)) eqn:H; [|discriminate].
  intros [= <-]. exact H.
Qed.

Lemma subscript_Some {V} (d : list (string * V)) k v : dict_get k d = Some v -> subscript d k = inr v.
Proof. unfold subscript. now intros ->. Qed.

(** ** Values that reach the ledger *)

Lemma progress_stored_inr w sim p :
  progress_stored w sim = inr p ->
  progress_of (now_of w - start_time sim) (total_time sim) = inr p.
Proof.
  unfold progress_stored. destruct (progress_of _ _) as [e|q]; cbn [rbind]; [discriminate|].
  destruct (ledger_of w !! sim_interaction_id sim); [|easy].
  destruct (storable _ _); [easy|discriminate].
Qed.

Lemma progress_stored_inl w sim e :
  progress_stored w sim = inl e ->
  progress_of (now_of w - start_time sim) (total_time sim) = inl e
  \/ (e = StatementError
      /\ exists p, progress_of (now_of w - start_time sim) (total_time sim) = inr p
                   /\ is_Some (ledger_of w !! sim_interaction_id sim)
                   /\ in_integer (db (service w)) p = false).
Proof.
  unfold progress_stored. destruct (progress_of _ _) as [e'|p]; cbn [rbind]; [auto|].
  destruct (ledger_of w !! sim_interaction_id sim) as [row|]; [|discriminate].
  destruct (storable _ _) eqn:Hst; [discriminate|]. intros [= <-]. right.
  split; [reflexivity|]. exists p. split; [reflexivity|]. split; [eauto|].
  unfold storable in Hst. cbn [forallb] in Hst. now rewrite andb_true_r in Hst.
Qed.


Lemma in_integer_small d n : - 2 ^ 31 <= n < 2 ^ 31 -> in_integer d n = true.
Proof.
  intros Hn. unfold in_integer, integer_max.
  apply andb_true_iff. rewrite !Z.leb_le. destruct (dialect d); lia.
Qed.

Lemma duration_stored_inr w sim r dur :
  duration_stored w sim r = inr dur ->
  whole_seconds (now_of w - start_time sim) = inr dur
  /\ in_integer (db (service w)) r = true
  /\ in_integer (db (service w)) dur = true.
Proof.
  unfold duration_stored. destruct (whole_seconds _) as [e|d]; cbn [rbind]; [discriminate|].
  destruct (storable _ _) eqn:Hst; [|discriminate]. intros [= <-].
  unfold storable in Hst. cbn [forallb] in Hst.
  apply andb_true_iff in Hst as [Hr Hst]. apply andb_true_iff in Hst as [_ Hst].
  rewrite andb_true_r in Hst. easy.
Qed.

Lemma duration_stored_inl w sim r e :
  duration_stored w sim r = inl e ->
  whole_seconds (now_of w - start_time sim) = inl e
  \/ (e = StatementError
      /\ exists dur, whole_seconds (now_of w - start_time sim) = inr dur
                     /\ (in_integer (db (service w)) r = false
                         \/ in_integer (db (service w)) dur = false)).
Proof.
  unfold duration_stored. destruct (whole_seconds _) as [e'|dur]; cbn [rbind]; [auto|].
  destruct (storable _ _) eqn:Hst; [discriminate|]. intros [= <-]. right.
  split; [reflexivity|]. exists dur. split; [reflexivity|].
  unfold storable in Hst. cbn [forallb] in Hst.
  destruct (in_integer _ r); [right|now left].
  rewrite (in_integer_small _ 100) in Hst by lia. cbn [andb] in Hst.
  now rewrite andb_true_r in Hst.
Qed.

Lemma duration_stored_of w sim r dur :
  whole_seconds (now_of w - start_time sim) = inr dur ->
  in_integer (db (service w)) r = true ->
  in_integer (db (service w)) dur = true ->
  duration_stored w sim r = inr dur.
Proof.
  unfold duration_stored. intros -> Hr Hd. cbn [rbind]. unfold storable. cbn [forallb].
  now rewrite Hr, Hd, (in_integer_small _ 100) by lia.
Qed.

(** ** What one call of [get_simulation_progress] does *)

Lemma progress_spec k w sim :
  dict_get k (sims_of w) = Some sim ->
  wp (get_simulation_progress k) w (fun w' r =>
    clock w' = clock w /\ clock_pos w' = S (clock_pos w) /\ entropy w' = entropy w
    /\ books (db (service w')) = books (db (service w))
    /\ movies (db (service w')) = movies (db (service w))
    /\ games (db (service w')) = games (db (service w))
    /\ match progress_stored w sim with
       | inl e => r = inl e /\ service w' = service w /\ entropy_pos w' = entropy_pos w
       | inr p =>
           ledger_of w' = store_progress (sim_interaction_id sim) p (ledger_of w)
           /\ (forall rep, r = inr rep ->
                 pr_progress rep = p /\ pr_completed rep = (100 <=? p)
                 /\ pr_content_title rep = sim_content_title sim
                 /\ whole_seconds (now_of w - start_time sim) = inr (pr_elapsed_time rep))
           /\ (event_added k sim p w w' r \/ event_skipped sim p w w' r)
       end).
Proof.
  intros Hk. unfold get_simulation_progress. wp_steps. rewrite Hk. wp_steps.
  unfold progress_stored, progress_of, scaled_ratio, whole_seconds.
  destruct (total_seconds _) as [e|elapsed] eqn:Hel; cbn [rbind]; [easy|]. wp_steps.
  destruct (float_div_int _ _) as [e|ratio]; cbn [rbind]; [easy|]. wp_steps.
  destruct (float_mul_int _ _) as [e|scaled]; cbn [rbind]; [easy|]. wp_steps.
  destruct (py_int scaled) as [e|whole]; cbn [rbind]; [easy|]. wp_steps.
  destruct (py_int_finite elapsed (total_seconds_finite _ _ Hel)) as [secs Hsecs].
  set (p := 100 `min` whole).
  destruct (match ledger_of w !! sim_interaction_id sim with
            | Some _ => storable (db (service w)) [p]
            | None => true
            end) eqn:Hstored.
  2:{ change (ledger_of (tick w)) with (ledger_of w).
      destruct (ledger_of w !! sim_interaction_id sim) as [row|]; [|discriminate].
      rewrite Hstored. wp_steps. change (db (service (tick w))) with (db (service w)).
      rewrite Hstored. easy. }
  assert (Hscr : match ledger_of w !! sim_interaction_id sim with
                 | Some _ => if storable (db (service w)) [p] then inr p
                             else inl StatementError
                 | None => inr p
                 end = (inr p : exn + Z)).
  { destruct (ledger_of w !! sim_interaction_id sim); [now rewrite Hstored|reflexivity]. }
  rewrite Hscr. clear Hscr.
  set (w1 := match ledger_of (tick w) !! sim_interaction_id sim with
             | Some row => set_ledger (<[sim_interaction_id sim := with_progress row p]>
                                         (ledger_of (tick w))) (tick w)
             | None => tick w
             end).
  assert (Hw1 : clock w1 = clock w /\ clock_pos w1 = S (clock_pos w) /\ entropy w1 = entropy w
                /\ entropy_pos w1 = entropy_pos w
                /\ books (db (service w1)) = books (db (service w))
                /\ movies (db (service w1)) = movies (db (service w))
                /\ games (db (service w1)) = games (db (service w))
                /\ sims_of w1 = sims_of w
                /\ ledger_of w1 = store_progress (sim_interaction_id sim) p (ledger_of w)).
  { unfold w1, store_progress. change (ledger_of (tick w)) with (ledger_of w).
    destruct (ledger_of w !! sim_interaction_id sim); simpl; easy. }
  destruct Hw1 as (Hc & Hcp & He & Hep & Hb & Hm & Hg & Hs & Hl).
  apply (wp_mono _ _ (fun w' r => w' = w1 /\ r = inr tt)).
  2:{ unfold w1. change (ledger_of (tick w)) with (ledger_of w) in *.
      destruct (ledger_of w !! sim_interaction_id sim); wp_steps; [|easy].
      change (db (service (tick w))) with (db (service w)). now rewrite Hstored. }
  intros w' r [-> ->]. wp_steps.
  destruct ((20 <? p) && (Z.of_nat (length (events sim)) <? 3)) eqn:Hgate.
  - apply andb_true_iff in Hgate as [Hp Hlen].
    apply Z.ltb_lt in Hp, Hlen.
    unfold random_random. wp_steps.
    change (binary_normalize prec emax (draw_of w1 mod 2 ^ 53) (-53) false)
      with (unit_float (draw_of w1)).
    assert (Hd : draw_of w1 = draw_of w) by (unfold draw_of; now rewrite He, Hep).
    rewrite Hd.
    destruct (flt (unit_float (draw_of w)) lit_0_3) eqn:Hflt.
    + wp_steps. unfold subscript.
      destruct (dict_get (sim_content_type sim) SIMULATION_EVENTS) as [pool|] eqn:Hpool.
      * wp_steps. unfold random_choice.
        destruct pool as [|x pool'] eqn:Hpl.
        { wp_steps. split_and!; try easy.
          right. unfold event_skipped. split_and!; try easy; try (cbn [entropy_pos drawn]; lia).
          intros Hne. exfalso. now apply (Hne []). }
        rewrite <- Hpl. wp_steps.
        assert (Hd2 : draw_of (drawn w1) = draw_of (drawn w))
          by (unfold draw_of; simpl; now rewrite He, Hep).
        rewrite Hd2.
        destruct (pool !! Z.to_nat (draw_of (drawn w) mod Z.of_nat (length pool)))
          as [e|] eqn:Hidx.
        { wp_steps. rewrite Hsecs. wp_steps. split_and!; try easy.
          - intros rep0 [= <-]. simpl. easy.
          - left. exists pool, e. eexists. split_and!; try eassumption; try reflexivity.
            + now rewrite Hpl.
            + lia.
            + change (sims_of (drawn (drawn w1))) with (sims_of w1). now rewrite Hs.
            + simpl. now rewrite Hep. }
        { wp_steps. simpl. exfalso.
          apply lookup_ge_None in Hidx.
          assert (0 < Z.of_nat (length pool)) by (rewrite Hpl; simpl; lia).
          pose proof (Z.mod_pos_bound (draw_of (drawn w)) (Z.of_nat (length pool)) H). lia. }
      * wp_steps. split_and!; try easy.
        right. unfold event_skipped. split_and!; try easy; try (cbn [entropy_pos drawn]; lia).
        intros _ [? HH]. congruence.
    + wp_steps. rewrite Hsecs. wp_steps. split_and!; try easy.
      * intros rep [= <-]. simpl. easy.
      * right. unfold event_skipped. split_and!; try easy; try (cbn [entropy_pos drawn]; lia).
        -- intros rep [= <-]. reflexivity.
        -- intros _ _. eauto.
  - wp_steps. rewrite Hsecs. wp_steps. split_and!; try easy.
    + intros rep [= <-]. simpl. easy.
    + right. unfold event_skipped. split_and!; try easy; try (cbn [entropy_pos drawn]; lia).
      * intros rep [= <-]. reflexivity.
      * intros _ _. eauto.
Qed.

(** ** What the other methods do *)

Lemma get_content_in_type d ct cid c :
  get_content_in d ct cid = Some c -> ct = "book" \/ ct = "movie" \/ ct = "game".
Proof.
  unfold get_content_in. repeat case_decide; auto. discriminate.
Qed.

Lemma times_of_type ct :
  ct = "book" \/ ct = "movie" \/ ct = "game" ->
  exists a b, dict_get ct SIMULATION_TIMES = Some (a, b) /\ 20 <= a /\ a <= b /\ b <= 300.
Proof.
  intros [-> | [-> | ->]]; [exists 30, 180|exists 20, 60|exists 45, 300];
    (split; [reflexivity|lia]).
Qed.

Lemma events_of_type ct :
  ct = "book" \/ ct = "movie" \/ ct = "game" ->
  exists pool, dict_get ct SIMULATION_EVENTS = Some pool /\ pool <> [].
Proof.
  intros [-> | [-> | ->]]; eexists; (split; [reflexivity|discriminate]).
Qed.

Lemma times_type ct ab :
  dict_get ct SIMULATION_TIMES = Some ab -> ct = "book" \/ ct = "movie" \/ ct = "game".
Proof.
  unfold SIMULATION_TIMES. simpl. repeat case_decide; auto. discriminate.
Qed.

Lemma start_spec u ct cid w :
  wp (start_simulation u ct cid) w (start_post u ct cid w).
Proof.
  unfold start_simulation, start_post. wp_steps.
  destruct (get_content_in (db (service w)) ct cid) as [c|] eqn:Hc; wp_steps; [|easy].
  destruct (times_of_type ct (get_content_in_type _ _ _ _ Hc)) as (a & b & Hab & Ha & Hle & Hb).
  unfold add_interaction. wp_steps. unfold subscript. rewrite Hab. wp_steps.
  unfold randint. simpl. rewrite (proj2 (Z.ltb_ge b a) Hle). wp_steps.
  exists a, b. split; [reflexivity|]. split; [assumption|]. split; reflexivity.
Qed.

Lemma update_content_popularity_spec ct cid r w :
  wp (update_content_popularity ct cid r) w (popularity_post ct cid r w).
Proof.
  unfold update_content_popularity, popularity_post. wp_steps.
  destruct (get_content_in (db (service w)) ct cid) as [c|]; wp_steps; [|easy].
  destruct (int_mul_float r lit_0_1) as [e|np]; [easy|].
  unfold commit_content. wp_steps. easy.
Qed.

Lemma complete_spec k r tags w sim :
  dict_get k (sims_of w) = Some sim ->
  wp (complete_simulation k r tags) w (complete_post k r tags sim w).
Proof.
  intros Hk. unfold complete_simulation, complete_post. wp_steps. rewrite Hk. wp_steps.
  destruct (ledger_of w !! sim_interaction_id sim) as [row|]; wp_steps.
  - unfold duration_stored, whole_seconds.
    destruct (total_seconds _) as [e|secs]; cbn [rbind]; [easy|]. wp_steps.
    destruct (py_int secs) as [e|dur]; cbn [rbind]; [easy|]. wp_steps.
    change (db (service (tick w))) with (db (service w)).
    destruct (storable (db (service w)) [r; 100; dur]); [|easy]. wp_steps.
    eapply wp_mono; [|apply update_content_popularity_spec].
    intros w' ur Hpost.
    destruct ur as [e|u]; wp_steps; eexists; (split; [exact Hpost|reflexivity]).
  - eapply wp_mono; [|apply update_content_popularity_spec].
    intros w' ur Hpost.
    destruct ur as [e|u]; wp_steps; eexists; (split; [exact Hpost|reflexivity]).
Qed.

Lemma cancel_spec k w sim :
  dict_get k (sims_of w) = Some sim ->
  cancel_simulation k w =
    (match ledger_of w !! sim_interaction_id sim with
     | Some row =>
         set_sims (dict_del k (sims_of w))
           (set_ledger (<[sim_interaction_id sim := dropped_row row (now_of w)]> (ledger_of w))
              (tick w))
     | None => set_sims (dict_del k (sims_of w)) w
     end,
     inr (mkCancelReport (cancel_message sim))).
Proof.
  intros Hk.
  rewrite (surjective_pairing (cancel_simulation k w)).
  apply (wp_run (cancel_simulation k) w (fun w' r => (w', r) = _)).
  unfold cancel_simulation. wp_steps. rewrite Hk. wp_steps.
  destruct (ledger_of w !! sim_interaction_id sim) as [row|]; wp_steps; reflexivity.
Qed.

Lemma not_live k w :
  dict_get k (sims_of w) = None ->
  get_simulation_progress k w = (w, inl (ValueError "Simulation not found"))
  /\ (forall r tags,
        complete_simulation k r tags w = (w, inl (ValueError "Simulation not found")))
  /\ cancel_simulation k w = (w, inl (ValueError "Simulation not found")).
Proof.
  intros Hk. split_and!; [|intros r tags|].
  - rewrite (surjective_pairing (get_simulation_progress k w)).
    apply (wp_run (get_simulation_progress k) w (fun w' r => (w', r) = _)).
    unfold get_simulation_progress. wp_steps. rewrite Hk. wp_steps. reflexivity.
  - rewrite (surjective_pairing (complete_simulation k r tags w)).
    apply (wp_run (complete_simulation k r tags) w (fun w' r => (w', r) = _)).
    unfold complete_simulation. wp_steps. rewrite Hk. wp_steps. reflexivity.
  - rewrite (surjective_pairing (cancel_simulation k w)).
    apply (wp_run (cancel_simulation k) w (fun w' r => (w', r) = _)).
    unfold cancel_simulation. wp_steps. rewrite Hk. wp_steps. reflexivity.
Qed.

(** ** The dict of live sessions along a run *)

Lemma sessions_ok_set k sim sims :
  sessions_ok sims -> session_ok sim -> sessions_ok (dict_set k sim sims).
Proof.
  intros [Hnd Hall] Hsim. split; [now apply dict_set_NoDup|].
  apply Forall_forall. intros [k' sim'] Hin. apply list_elem_of_In in Hin.
  apply dict_set_In in Hin as [[= -> ->]|Hin]; [exact Hsim|].
  rewrite Forall_forall in Hall. apply (Hall (k', sim')). now apply list_elem_of_In.
Qed.

Lemma sessions_ok_del k sims : sessions_ok sims -> sessions_ok (dict_del k sims).
Proof.
  intros [Hnd Hall]. split; [now apply dict_del_NoDup|].
  apply Forall_forall. intros x Hin. apply list_elem_of_In in Hin.
  apply dict_del_In in Hin. rewrite Forall_forall in Hall.
  apply Hall. now apply list_elem_of_In.
Qed.

Lemma sessions_ok_get k sim sims :
  sessions_ok sims -> dict_get k sims = Some sim -> session_ok sim.
Proof.
  intros [_ Hall] Hk. apply dict_get_Some_In in Hk.
  rewrite Forall_forall in Hall. apply (Hall (k, sim)). now apply list_elem_of_In.
Qed.

Lemma popularity_post_sims ct cid r w w' res :
  popularity_post ct cid r w w' res -> sims_of w' = sims_of w.
Proof.
  unfold popularity_post.
  destruct (get_content_in _ _ _); [destruct (int_mul_float _ _)|]; intros [-> _]; reflexivity.
Qed.

Lemma start_sims_ok u ct cid w :
  sessions_ok (sims_of w) -> sessions_ok (sims_of (start_simulation u ct cid w).1).
Proof.
  intros Hok. apply (wp_run (start_simulation u ct cid) w (fun w' _ => sessions_ok (sims_of w'))).
  eapply wp_mono; [|apply start_spec]. intros w' r. unfold start_post.
  destruct (get_content_in (db (service w)) ct cid) as [c|] eqn:Hc.
  - intros (a & b & Hab & Hle & -> & _). cbn [sims_of drawn tick set_sims service active_simulations].
    apply sessions_ok_set; [exact Hok|]. split; [simpl; lia|].
    exists a, b. split; [exact Hab|]. simpl.
    pose proof (Z.mod_pos_bound (draw_of w) (b - a + 1)). lia.
  - now intros [-> _].
Qed.

Lemma progress_sims k w :
  let w' := (get_simulation_progress k w).1 in
  sims_of w' = sims_of w
  \/ exists sim e, dict_get k (sims_of w) = Some sim /\ (length (events sim) < 3)%nat
                   /\ sims_of w' = dict_set k (with_events sim (events sim ++ [e])) (sims_of w).
Proof.
  destruct (dict_get k (sims_of w)) as [sim|] eqn:Hk.
  - apply (wp_run (get_simulation_progress k) w (fun w' _ =>
      sims_of w' = sims_of w
      \/ exists sim0 e, Some sim = Some sim0 /\ (length (events sim0) < 3)%nat
           /\ sims_of w' = dict_set k (with_events sim0 (events sim0 ++ [e])) (sims_of w))).
    eapply wp_mono; [|apply (progress_spec k w sim Hk)].
    intros w' r (_ & _ & _ & _ & _ & _ & H).
    destruct (progress_stored _ _) as [e|p].
    + destruct H as (_ & Hs & _). left. unfold sims_of. now rewrite Hs.
    + destruct H as (_ & _ & [Hadd|Hskip]).
      * destruct Hadd as (pool & e & rep & _ & _ & _ & Hlen & _ & Hs & _).
        right. exists sim, e. easy.
      * left. apply Hskip.
  - left. destruct (not_live k w Hk) as (-> & _). reflexivity.
Qed.

Lemma progress_sims_ok k w :
  sessions_ok (sims_of w) -> sessions_ok (sims_of (get_simulation_progress k w).1).
Proof.
  intros Hok. destruct (progress_sims k w) as [->|(sim & e & Hk & Hlen & ->)]; [exact Hok|].
  apply sessions_ok_set; [exact Hok|].
  destruct (sessions_ok_get _ _ _ Hok Hk) as [_ Hdur].
  split; [|exact Hdur]. simpl. rewrite length_app. simpl. lia.
Qed.

Lemma complete_sims k r tags w :
  let w' := (complete_simulation k r tags w).1 in
  sims_of w' = sims_of w \/ sims_of w' = dict_del k (sims_of w).
Proof.
  destruct (dict_get k (sims_of w)) as [sim|] eqn:Hk.
  - apply (wp_run (complete_simulation k r tags) w (fun w' _ =>
      sims_of w' = sims_of w \/ sims_of w' = dict_del k (sims_of w))).
    eapply wp_mono; [|apply (complete_spec k r tags w sim Hk)].
    intros w' res. unfold complete_post.
    destruct (ledger_of w !! sim_interaction_id sim) as [row|].
    + destruct (duration_stored _ _ _) as [e|dur].
      * intros [_ ->]. now left.
      * intros (ur & Hpost & _). right. now rewrite (popularity_post_sims _ _ _ _ _ _ Hpost).
    + intros (ur & Hpost & _). right. now rewrite (popularity_post_sims _ _ _ _ _ _ Hpost).
  - left. destruct (not_live k w Hk) as (_ & H & _). now rewrite H.
Qed.

Lemma cancel_sims k w :
  let w' := (cancel_simulation k w).1 in
  sims_of w' = sims_of w \/ sims_of w' = dict_del k (sims_of w).
Proof.
  destruct (dict_get k (sims_of w)) as [sim|] eqn:Hk.
  - right. rewrite (cancel_spec k w sim Hk). simpl.
    now destruct (ledger_of w !! sim_interaction_id sim).
  - left. destruct (not_live k w Hk) as (_ & _ & ->). reflexivity.
Qed.

Lemma active_loop_sims_ok u items acc w :
  sessions_ok (sims_of w) -> sessions_ok (sims_of (Api.active_loop u items acc w).1).
Proof.
  revert acc w. induction items as [|[sim_id sim_data] rest IH]; intros acc w Hok.
  - exact Hok.
  - simpl. destruct (decide (sim_user_id sim_data = u)); [|now apply IH].
    unfold bind. pose proof (progress_sims_ok sim_id w Hok) as Hok'.
    destruct (get_simulation_progress sim_id w) as [w1 [err|rep]]; [exact Hok'|].
    now apply IH.
Qed.

Lemma step_sessions_ok w w' : step w w' -> sessions_ok (sims_of w) -> sessions_ok (sims_of w').
Proof.
  intros Hstep Hok. destruct Hstep.
  - now apply start_sims_ok.
  - now apply progress_sims_ok.
  - destruct (complete_sims k r tags w) as [->| ->]; [exact Hok|now apply sessions_ok_del].
  - destruct (cancel_sims k w) as [->| ->]; [exact Hok|now apply sessions_ok_del].
  - unfold Api.get_active_simulations, bind, get_sims. now apply active_loop_sims_ok.
  - exact Hok.
Qed.

Lemma reachable_sessions_ok w : reachable w -> sessions_ok (sims_of w).
Proof.
  induction 1 as [d c cp e ep|w w' _ IH Hstep].
  - split; [apply NoDup_nil_2|apply Forall_nil_2].
  - now apply (step_sessions_ok w w').
Qed.

(** ** Fresh primary keys *)

Lemma foldr_max_ge (l : list Z) x : In x l -> x <= foldr Z.max 0 l.
Proof.
  induction l as [|y l IH]; simpl; [intros []|].
  intros [->|Hin]; [lia|]. specialize (IH Hin). lia.
Qed.

Lemma fresh_key_fresh {V} (m : gmap Z V) : m !! fresh_key m = None.
Proof.
  destruct (m !! fresh_key m) as [v|] eqn:Hv; [|reflexivity]. exfalso.
  apply elem_of_map_to_list in Hv.
  assert (Hin : In (fresh_key m) (map_to_list m).*1).
  { apply list_elem_of_In. apply list_elem_of_fmap. now exists (fresh_key m, v). }
  apply foldr_max_ge in Hin. unfold fresh_key in Hin at 1. lia.
Qed.

(** ** Starting a session *)

(** ** The catalog and the lookup of the service *)

Lemma in_catalog_get d ct cid c :
  in_catalog d ct cid c <-> get_content_in d ct cid = Some c.
Proof.
  split.
  - intros []; unfold get_content_in; repeat (case_decide; try congruence).
  - unfold get_content_in. intros H. repeat case_decide; subst; try discriminate;
      now constructor.
Qed.

Lemma not_in_catalog_get d ct cid :
  (~ exists c, in_catalog d ct cid c) <-> get_content_in d ct cid = None.
Proof.
  split.
  - intros Hno. destruct (get_content_in d ct cid) as [c|] eqn:Hc; [|reflexivity].
    exfalso. apply Hno. exists c. now apply in_catalog_get.
  - intros Hnone [c Hc]. apply in_catalog_get in Hc. congruence.
Qed.

(** ** Every duration of the range is drawn equally often *)

Lemma filter_length_ext (P Q : Z -> Prop) `{!forall x, Decision (P x)}
    `{!forall x, Decision (Q x)} (l : list Z) :
  (forall x, x ∈ l -> P x <-> Q x) -> length (filter P l) = length (filter Q l).
Proof.
  induction l as [|x l IH]; intros Hext; [reflexivity|]. rewrite !filter_cons.
  assert (IH' : length (filter P l) = length (filter Q l)).
  { apply IH. intros y Hy. apply Hext. now right. }
  destruct (decide (P x)) as [HP|HP], (decide (Q x)) as [HQ|HQ]; simpl; try lia.
  - exfalso. apply HQ. apply (Hext x); [left|exact HP].
  - exfalso. apply HP. apply (Hext x); [left|exact HQ].
Qed.

Lemma count_absent (x : Z) (l : list Z) :
  x ∉ l -> length (filter (fun y => y = x) l) = 0%nat.
Proof.
  induction l as [|y l IH]; intros Hin; [reflexivity|]. rewrite filter_cons.
  apply not_elem_of_cons in Hin as [Hne Hin].
  rewrite decide_False by congruence. now apply IH.
Qed.

Lemma count_in_NoDup (x : Z) (l : list Z) :
  NoDup l -> x ∈ l -> length (filter (fun y => y = x) l) = 1%nat.
Proof.
  induction 1 as [|y l Hy Hnd IH]; intros Hin; [now apply elem_of_nil in Hin|].
  rewrite filter_cons. apply elem_of_cons in Hin as [->|Hin].
  - rewrite decide_True by reflexivity. simpl. now rewrite count_absent.
  - rewrite decide_False by (intros ->; contradiction). now apply IH.
Qed.

(** One period of raw draws gives each duration once. *)
Lemma times_drawn_period (a b t q : Z) :
  a <= t <= b ->
  length (filter (fun raw => a + raw mod (b - a + 1) = t)
                 (seqZ (q * (b - a + 1)) (b - a + 1))) = 1%nat.
Proof.
  intros Ht. set (n := b - a + 1). assert (Hn : 0 < n) by (unfold n; lia).
  rewrite (filter_length_ext _ (fun raw => raw = q * n + (t - a))).
  - apply count_in_NoDup; [apply NoDup_seqZ|]. apply elem_of_seqZ. lia.
  - intros raw Hraw. apply elem_of_seqZ in Hraw.
    replace raw with ((raw - q * n) + q * n) at 1 by lia.
    rewrite Z.mod_add by lia. rewrite Z.mod_small by lia. lia.
Qed.

Lemma times_drawn_uniform (a b t : Z) (periods : nat) :
  a <= t <= b -> times_drawn a b t periods = periods.
Proof.
  intros Ht. unfold times_drawn. set (n := b - a + 1).
  assert (Hn : 0 < n) by (unfold n; lia).
  induction periods as [|N IH]; [reflexivity|].
  replace (Z.of_nat (S N) * n) with (Z.of_nat N * n + n) by lia.
  rewrite seqZ_app by lia. rewrite filter_app, length_app, IH. rewrite Z.add_0_l.
  unfold n. rewrite (times_drawn_period a b t (Z.of_nat N) Ht). lia.
Qed.
(** C3: [start_simulation] fails with "not found" exactly when the item is
    not a row of the catalog table of its content type (books, movies or
    games), and then leaves the world as it was (no session, no ledger
    row).  Otherwise it succeeds: the ledger gets a new row, stored under a
    key that was free, with type "started", progress 0 and the current time
    as start date; the session stored under the key of the triple has a
    planned duration taken from the time range [a, b] of the content type,
    picked by the random draw as [a + draw mod (b - a + 1)], so that every
    duration of the range comes up equally often as the raw draw runs
    through whole periods. *)
Theorem start_simulation_outcome (u : Z) (ct : string) (cid : Z) (w : World) :
  let out := start_simulation u ct cid w in
  ((exists msg, out.2 = inl (ValueError msg))
   <-> ~ exists c, in_catalog (db (service w)) ct cid c)
  /\ ((~ exists c, in_catalog (db (service w)) ct cid c) ->
      out = (w, inl (ValueError ("Content not found: " +:+ ct +:+ " " +:+ pretty cid))))
  /\ (forall c, in_catalog (db (service w)) ct cid c ->
        exists a b res row sim,
          dict_get ct SIMULATION_TIMES = Some (a, b)
          /\ out.2 = inr res
          /\ sr_simulation_id res = simulation_key u ct cid
          /\ sr_content_title res = title c
          /\ ledger_of w !! sr_interaction_id res = None
          /\ ledger_of out.1 = <[sr_interaction_id res := row]> (ledger_of w)
          /\ interaction_id row = sr_interaction_id res
          /\ user_id row = u /\ content_type row = ct /\ content_id row = cid
          /\ interaction_type row = "started"
          /\ progress_percent row = 0
          /\ start_date row = Some (now_of w)
          /\ rating row = None /\ completion_date row = None
          /\ dict_get (simulation_key u ct cid) (sims_of out.1) = Some sim
          /\ sim_interaction_id sim = sr_interaction_id res
          /\ events sim = []
          /\ total_time sim = sr_estimated_time res
          /\ sr_estimated_time res = a + draw_of w mod (b - a + 1)
          /\ a <= sr_estimated_time res <= b
          /\ (forall t periods, a <= t <= b -> times_drawn a b t periods = periods)).
Proof.
  intros out. subst out.
  pose proof (wp_run _ _ _ (start_spec u ct cid w)) as H. unfold start_post in H.
  rewrite not_in_catalog_get.
  destruct (get_content_in (db (service w)) ct cid) as [c|] eqn:Hc.
  - destruct H as (a & b & Hab & Hle & Hw & Hr). split_and!.
    + split; [|discriminate]. intros [msg Hmsg]. rewrite Hr in Hmsg. discriminate.
    + discriminate.
    + intros c' Hc'. apply in_catalog_get in Hc'. rewrite Hc in Hc'. injection Hc' as <-.
      exists a, b. eexists _.
      exists (started_row (fresh_key (ledger_of w)) u ct cid (now_of w)).
      exists (mkSimulation (fresh_key (ledger_of w)) u ct cid (title c) (now_of (tick w))
                (a + draw_of w mod (b - a + 1)) []).
      split; [exact Hab|]. split; [exact Hr|]. rewrite Hw.
      cbn [sr_simulation_id sr_interaction_id sr_estimated_time sr_content_title].
      pose proof (Z.mod_pos_bound (draw_of w) (b - a + 1) ltac:(lia)).
      split_and!; try reflexivity; try lia.
      * apply fresh_key_fresh.
      * apply dict_get_set_eq.
      * intros t periods Ht. now apply times_drawn_uniform.
  - destruct H as [Hw Hr]. split_and!.
    + split; [reflexivity|]. intros _. eexists. exact Hr.
    + intros _. rewrite (surjective_pairing (start_simulation u ct cid w)), Hw, Hr.
      reflexivity.
    + intros c Hc'. apply in_catalog_get in Hc'. congruence.
Qed.

Lemma sample_book_7 :
  in_catalog (db (service sample_world)) "book" 7 (mkContent "Dune" (float_of_int 8)).
Proof. apply in_catalog_book. vm_compute. reflexivity. Qed.

Lemma sample_book_8 : ~ exists c, in_catalog (db (service sample_world)) "book" 8 c.
Proof. intros [c Hc]. inversion Hc as [cid' c' Hb| |]. vm_compute in Hb. discriminate. Qed.

Lemma start_simulation_outcome_witness :
  (exists res, (start_simulation 1 "book" 7 sample_world).2 = inr res
               /\ 30 <= sr_estimated_time res <= 180)
  /\ start_simulation 1 "book" 8 sample_world
     = (sample_world, inl (ValueError "Content not found: book 8")).
Proof.
  split.
  - destruct (start_simulation_outcome 1 "book" 7 sample_world) as (_ & _ & H).
    destruct (H _ sample_book_7) as (a & b & res & row & sim & Hab & Hres & H').
    injection Hab as <- <-. exists res. split; [exact Hres|]. apply H'.
  - destruct (start_simulation_outcome 1 "book" 8 sample_world) as (_ & H & _).
    exact (H sample_book_8).
Defined.

(** C5: the keys of the dict of live sessions are pairwise distinct in every
    reachable world, so a key names at most one session.  A second
    [start_simulation] for a triple whose session is still live succeeds; it
    adds no entry but overwrites the one under the key with a new session
    (no events, the new ledger row), and the ledger row of the overwritten
    session stays as it was. *)
Theorem start_twice_replaces (u : Z) (ct : string) (cid : Z) (w : World)
    (c : Content) (old : Simulation) :
  reachable w ->
  get_content_in (db (service w)) ct cid = Some c ->
  dict_get (simulation_key u ct cid) (sims_of w) = Some old ->
  let out := start_simulation u ct cid w in
  NoDup (dict_keys (sims_of w))
  /\ NoDup (dict_keys (sims_of out.1))
  /\ dict_keys (sims_of out.1) = dict_keys (sims_of w)
  /\ exists res new,
       out.2 = inr res
       /\ sr_simulation_id res = simulation_key u ct cid
       /\ dict_get (simulation_key u ct cid) (sims_of out.1) = Some new
       /\ (forall s, In (simulation_key u ct cid, s) (sims_of out.1) -> s = new)
       /\ sim_interaction_id new = sr_interaction_id res
       /\ sim_interaction_id new = fresh_key (ledger_of w)
       /\ start_time new = now_of (tick w)
       /\ events new = []
       /\ (forall k, k <> simulation_key u ct cid ->
             dict_get k (sims_of out.1) = dict_get k (sims_of w))
       /\ (forall i, i <> sr_interaction_id res -> ledger_of out.1 !! i = ledger_of w !! i).
Proof.
  intros Hreach Hc Hold out. subst out.
  pose proof (reachable_sessions_ok w Hreach) as [Hnd _].
  pose proof (wp_run _ _ _ (start_spec u ct cid w)) as H. unfold start_post in H.
  rewrite Hc in H. destruct H as (a & b & Hab & Hle & Hw & Hr).
  assert (Hin : In (simulation_key u ct cid) (dict_keys (sims_of w))).
  { destruct (decide (simulation_key u ct cid ∈ dict_keys (sims_of w))) as [Hin|Hnot].
    - now apply list_elem_of_In.
    - rewrite list_elem_of_In in Hnot. apply dict_get_None in Hnot. congruence. }
  rewrite Hw, Hr. cbn [sims_of drawn tick set_sims service active_simulations].
  assert (Hkeys := dict_keys_set_present (simulation_key u ct cid)
    (mkSimulation (fresh_key (ledger_of w)) u ct cid (title c) (now_of (tick w))
       (a + draw_of w mod (b - a + 1)) []) (sims_of w) Hin).
  split_and!.
  - exact Hnd.
  - rewrite Hkeys. exact Hnd.
  - exact Hkeys.
  - eexists _.
    exists (mkSimulation (fresh_key (ledger_of w)) u ct cid (title c) (now_of (tick w))
              (a + draw_of w mod (b - a + 1)) []).
    split_and!; try reflexivity.
    + apply dict_get_set_eq.
    + intros s Hs. apply dict_get_In in Hs.
      * rewrite dict_get_set_eq in Hs. congruence.
      * rewrite Hkeys. exact Hnd.
    + intros k Hk. apply dict_get_set_ne. congruence.
    + intros i Hi. cbn [sr_interaction_id] in Hi. unfold ledger_of. simpl.
      now rewrite lookup_insert_ne.
Qed.

(** ** Cancelling a session *)


(** ** Events *)

(** C8: a call of [get_simulation_progress] on a live session leaves the
    session under its key with the same events or with exactly one more;
    one more only if the call returns a report whose progress is above 20,
    fewer than 3 events had been emitted and the random draw was below 0.3;
    a session with 3 events keeps them; and in every reachable world every
    live session has at most 3 events. *)
Theorem events_grow_slowly (k : string) (w : World) (sim : Simulation) :
  dict_get k (sims_of w) = Some sim ->
  let out := get_simulation_progress k w in
  (exists sim',
     dict_get k (sims_of out.1) = Some sim'
     /\ (events sim' = events sim
         \/ exists e rep,
              events sim' = events sim ++ [e]
              /\ out.2 = inr rep /\ pr_event rep = Some e
              /\ 20 < pr_progress rep
              /\ (length (events sim) < 3)%nat
              /\ flt (unit_float (draw_of w)) lit_0_3 = true)
     /\ ((length (events sim) <= 3)%nat -> (length (events sim') <= 3)%nat)
     /\ ((3 <= length (events sim))%nat -> events sim' = events sim))
  /\ (reachable w ->
      forall k0 s, dict_get k0 (sims_of w) = Some s -> (length (events s) <= 3)%nat).
Proof.
  intros Hk out. subst out. split.
  - pose proof (wp_run _ _ _ (progress_spec k w sim Hk)) as H. cbv beta in H.
    destruct H as (_ & _ & _ & _ & _ & _ & H).
    destruct (progress_stored _ _) as [e|p].
    + destruct H as (_ & Hs & _). exists sim. unfold sims_of. rewrite Hs.
      split; [exact Hk|]. split; [now left|]. split; [exact (fun H => H)|reflexivity].
    + destruct H as (_ & Hrep & [Hadd|Hskip]).
      * destruct Hadd as (pool & e & rep & _ & _ & Hp & Hlen & Hflt & Hs & _ & Hr & Hev).
        exists (with_events sim (events sim ++ [e])). rewrite Hs.
        split; [apply dict_get_set_eq|]. destruct (Hrep rep Hr) as (Hpr & _).
        split; [|split].
        -- right. exists e, rep. rewrite Hpr. easy.
        -- intros _. simpl. rewrite length_app. simpl. lia.
        -- intros H3. lia.
      * destruct Hskip as (Hs & _). exists sim. rewrite Hs.
        split; [exact Hk|]. split; [now left|]. split; [exact (fun H => H)|reflexivity].
  - intros Hreach k0 s Hk0.
    apply (sessions_ok_get k0 s _ (reachable_sessions_ok w Hreach) Hk0).
Qed.

(** ** Completing a session *)

Lemma set_content_in_ledger d ct cid c :
  user_interactions (set_content_in d ct cid c) = user_interactions d.
Proof. unfold set_content_in. repeat case_decide; reflexivity. Qed.

Lemma popularity_post_ledger ct cid r w w' res :
  popularity_post ct cid r w w' res -> ledger_of w' = ledger_of w.
Proof.
  unfold popularity_post.
  destruct (get_content_in _ _ _); [destruct (int_mul_float _ _)|]; intros [-> _];
    try reflexivity.
  unfold ledger_of. simpl. apply set_content_in_ledger.
Qed.

Lemma popularity_post_tapes ct cid r w w' res :
  popularity_post ct cid r w w' res ->
  clock w' = clock w /\ clock_pos w' = clock_pos w
  /\ entropy w' = entropy w /\ entropy_pos w' = entropy_pos w.
Proof.
  unfold popularity_post.
  destruct (get_content_in _ _ _); [destruct (int_mul_float _ _)|]; intros [-> _]; easy.
Qed.

(** What a completion that returns a report has done. *)
Lemma complete_success k r tags w sim rep :
  dict_get k (sims_of w) = Some sim ->
  (complete_simulation k r tags w).2 = inr rep ->
  exists row dur,
    ledger_of w !! sim_interaction_id sim = Some row
    /\ whole_seconds (now_of w - start_time sim) = inr dur
    /\ rep = mkCompletionReport (completion_message sim) r dur (calculate_experience r dur)
    /\ popularity_post (sim_content_type sim) (sim_content_id sim) r
         (set_sims (dict_del k (sims_of w))
            (set_ledger (<[sim_interaction_id sim := completed_row row r tags (now_of w) dur]>
                           (ledger_of w)) (tick w)))
         (complete_simulation k r tags w).1 (inr tt).
Proof.
  intros Hk Hrep.
  pose proof (wp_run _ _ _ (complete_spec k r tags w sim Hk)) as H.
  unfold complete_post in H. rewrite Hrep in H.
  destruct (ledger_of w !! sim_interaction_id sim) as [row|].
  - destruct (duration_stored _ _ _) as [e|dur] eqn:Hds; [now destruct H|].
    destruct H as ([e|[]] & Hpost & Hr); [discriminate|].
    injection Hr as ->. exists row, dur.
    destruct (duration_stored_inr _ _ _ _ Hds) as (Hsec & _). easy.
  - destruct H as ([e|u] & _ & Hr); discriminate.
Qed.



(** ** The sample world *)

Lemma sample_started_reachable : reachable sample_started.
Proof.
  apply (reach_step sample_world); [apply reach_init|apply step_start].
Qed.

Lemma sample_started_session :
  dict_get "1_book_7" (sims_of sample_started) = Some sample_session.
Proof. vm_compute. reflexivity. Qed.

Lemma sample_started_row : ledger_of sample_started !! 1 = Some sample_row.
Proof. vm_compute. reflexivity. Qed.

Lemma sample_orphaned_reachable : reachable sample_orphaned.
Proof.
  apply (reach_step sample_started); [apply sample_started_reachable|apply step_env].
Qed.

Lemma start_twice_replaces_witness :
  reachable sample_started
  /\ dict_keys (sims_of (start_simulation 1 "book" 7 sample_started).1)
     = dict_keys (sims_of sample_started).
Proof.
  split; [apply sample_started_reachable|].
  refine (proj1 (proj2 (proj2
    (start_twice_replaces 1 "book" 7 sample_started (mkContent "Dune" (float_of_int 8))
       sample_session sample_started_reachable _ _)))).
  - vm_compute. reflexivity.
  - apply sample_started_session.
Defined.


(** A live session without ledger row, in a reachable world: cancelling
    it succeeds and no row of the ledger becomes "dropped". *)
Lemma cancel_without_row :
  reachable sample_orphaned
  /\ dict_get "1_book_7" (sims_of sample_orphaned) = Some sample_session
  /\ (exists rep, (cancel_simulation "1_book_7" sample_orphaned).2 = inr rep)
  /\ dict_get "1_book_7" (sims_of (cancel_simulation "1_book_7" sample_orphaned).1) = None
  /\ forall i row,
       ledger_of (cancel_simulation "1_book_7" sample_orphaned).1 !! i = Some row ->
       interaction_type row <> "dropped".
Proof.
  split; [apply sample_orphaned_reachable|]. split; [vm_compute; reflexivity|].
  split; [eexists; vm_compute; reflexivity|]. split; [vm_compute; reflexivity|].
  intros i row Hrow.
  assert (Hl : ledger_of (cancel_simulation "1_book_7" sample_orphaned).1 = ∅)
    by (vm_compute; reflexivity).
  rewrite Hl in Hrow. now rewrite lookup_empty in Hrow.
Qed.

Lemma events_grow_slowly_witness :
  dict_get "1_book_7" (sims_of sample_started) = Some sample_session
  /\ exists sim',
       dict_get "1_book_7" (sims_of (get_simulation_progress "1_book_7" sample_started).1)
       = Some sim'.
Proof.
  split; [apply sample_started_session|].
  destruct (proj1 (events_grow_slowly "1_book_7" sample_started sample_session
                     sample_started_session)) as (sim' & H & _).
  exists sim'. exact H.
Defined.



(** ** Rounding to the nearest double *)

Section Pow2.
Open Scope R_scope.

Lemma pow2_pos e : 0 < pow2 e.
Proof. apply powerRZ_lt. lra. Qed.

Lemma pow2_add a b : pow2 (a + b) = pow2 a * pow2 b.
Proof. apply powerRZ_add. lra. Qed.

Lemma pow2_0 : pow2 0 = 1.
Proof. reflexivity. Qed.

Lemma pow2_1 : pow2 1 = 2.
Proof. unfold pow2. simpl. lra. Qed.

Lemma pow2_succ a : pow2 (a + 1) = 2 * pow2 a.
Proof. rewrite pow2_add, pow2_1. lra. Qed.

Lemma pow2_pred a : pow2 (a - 1) = pow2 a / 2.
Proof.
  replace a with ((a - 1) + 1)%Z at 2 by lia. rewrite pow2_succ. lra.
Qed.

Lemma pow2_IZR n : (0 <= n)%Z -> pow2 n = IZR (2 ^ n).
Proof.
  intros Hn. destruct n as [|p|p]; [reflexivity| |lia].
  unfold pow2. rewrite <- Zpower_pos_powerRZ. reflexivity.
Qed.

Lemma pow2_ge_1 n : (0 <= n)%Z -> 1 <= pow2 n.
Proof.
  intros Hn. rewrite pow2_IZR by exact Hn. apply IZR_le.
  pose proof (Z.pow_pos_nonneg 2 n ltac:(lia) Hn). lia.
Qed.

Lemma pow2_le a b : (a <= b)%Z -> pow2 a <= pow2 b.
Proof.
  intros H. replace b with (a + (b - a))%Z by lia. rewrite pow2_add.
  pose proof (pow2_ge_1 (b - a) ltac:(lia)). pose proof (pow2_pos a). nra.
Qed.

Lemma pow2_lt a b : (a < b)%Z -> pow2 a < pow2 b.
Proof.
  intros H. replace b with (a + (b - a))%Z by lia. rewrite pow2_add.
  assert (2 <= pow2 (b - a)).
  { rewrite <- pow2_1. apply pow2_le. lia. }
  pose proof (pow2_pos a). nra.
Qed.

Lemma pow2_lt_inv a b : pow2 a < pow2 b -> (a < b)%Z.
Proof.
  intros H. destruct (Z_lt_le_dec a b) as [Hlt|Hle]; [exact Hlt|].
  apply pow2_le in Hle. lra.
Qed.

Lemma pow2_opp n : pow2 (- n) = / pow2 n.
Proof.
  assert (H : pow2 (- n) * pow2 n = 1).
  { rewrite <- pow2_add. replace (- n + n)%Z with 0%Z by lia. apply pow2_0. }
  pose proof (pow2_pos n). apply Rmult_eq_reg_r with (pow2 n); [|lra].
  rewrite H. field. lra.
Qed.

Lemma B2R_shift m e n : (0 <= n)%Z -> B2R (m * 2 ^ n) e = B2R m (e + n).
Proof.
  intros Hn. unfold B2R. rewrite mult_IZR, <- pow2_IZR by exact Hn.
  rewrite pow2_add. lra.
Qed.

End Pow2.

(** Digits *)

Lemma digits2_size p : digits2_pos p = Pos.size p.
Proof. induction p; simpl; congruence. Qed.

Lemma Zdigits2_log2 m : 0 < m -> Zdigits2 m = Z.log2 m + 1.
Proof.
  destruct m as [|p|p]; try lia. intros _. simpl. rewrite digits2_size.
  destruct p; simpl; try rewrite Pos2Z.inj_succ; lia.
Qed.

Lemma Zdigits2_bounds m : 0 < m -> 2 ^ (Zdigits2 m - 1) <= m < 2 ^ Zdigits2 m.
Proof.
  intros Hm. rewrite Zdigits2_log2 by exact Hm.
  replace (Z.log2 m + 1 - 1) with (Z.log2 m) by lia.
  pose proof (Z.log2_spec m Hm). unfold Z.succ in *. lia.
Qed.

Lemma Zdigits2_unique m d : 0 < m -> 2 ^ (d - 1) <= m < 2 ^ d -> Zdigits2 m = d.
Proof.
  intros Hm H. rewrite Zdigits2_log2 by exact Hm.
  assert (0 <= d - 1).
  { destruct (Z_lt_le_dec (d - 1) 0) as [Hneg|]; [|lia].
    assert (d <= 0) by lia. destruct (Z.eq_dec d 0) as [->|].
    - simpl in H. lia.
    - rewrite (Z.pow_neg_r 2 d) in H by lia. lia. }
  pose proof (Z.log2_unique m (d - 1) ltac:(lia)).
  replace (Z.succ (d - 1)) with d in * by lia. lia.
Qed.

Lemma Zdigits2_pos m : 0 < m -> 0 < Zdigits2 m.
Proof. intros Hm. rewrite Zdigits2_log2 by exact Hm. pose proof (Z.log2_nonneg m). lia. Qed.

Lemma Zdigits2_div m n : 0 < m -> 0 <= n -> n < Zdigits2 m ->
  0 < m / 2 ^ n /\ Zdigits2 (m / 2 ^ n) = Zdigits2 m - n.
Proof.
  intros Hm Hn Hlt. rewrite <- Z.shiftr_div_pow2 by exact Hn.
  rewrite (Zdigits2_log2 m Hm) in *.
  assert (Hpos : 0 < Z.shiftr m n).
  { destruct (Z.eq_dec (Z.shiftr m n) 0) as [H0|Hne].
    - apply Z.shiftr_eq_0_iff in H0. lia.
    - pose proof (Z.shiftr_nonneg m n). lia. }
  split; [exact Hpos|]. rewrite Zdigits2_log2 by exact Hpos.
  rewrite Z.log2_shiftr by exact Hm. lia.
Qed.

Lemma Zdiv_small_digits m n : 0 < m -> Zdigits2 m <= n -> m / 2 ^ n = 0.
Proof.
  intros Hm Hle. apply Z.div_small. split; [lia|].
  pose proof (Zdigits2_bounds m Hm).
  assert (2 ^ Zdigits2 m <= 2 ^ n) by (apply Z.pow_le_mono_r; lia). lia.
Qed.

(** Shifting *)

Lemma shr_1_located mrs y :
  0 <= shr_m mrs -> located mrs y ->
  located (shr_1 mrs) (y / 2) /\ shr_m (shr_1 mrs) = shr_m mrs / 2.
Proof.
  destruct mrs as [m r s]. unfold located. simpl. intros Hm Hy.
  destruct m as [|p|p]; [| |lia].
  - split; [|reflexivity]. destruct r, s; simpl in *; lra.
  - destruct p as [p|p|].
    + split.
      * assert (Hp : IZR (Z.pos p~1) = (2 * IZR (Z.pos p) + 1)%R).
        { rewrite Pos2Z.inj_xI, plus_IZR, mult_IZR. reflexivity. }
        rewrite Hp in Hy. destruct r, s; simpl in *; lra.
      * simpl. rewrite Pos2Z.inj_xI.
        apply (Z.div_unique _ _ _ 1); lia.
    + split.
      * assert (Hp : IZR (Z.pos p~0) = (2 * IZR (Z.pos p))%R).
        { rewrite Pos2Z.inj_xO, mult_IZR. reflexivity. }
        rewrite Hp in Hy. destruct r, s; simpl in *; lra.
      * simpl. rewrite Pos2Z.inj_xO.
        apply (Z.div_unique _ _ _ 0); lia.
    + split; [|reflexivity]. destruct r, s; simpl in *; lra.
Qed.

Lemma iter_shr_located n : forall mrs y,
  0 <= shr_m mrs -> located mrs y ->
  located (SpecFloat.iter_pos shr_1 n mrs) (y / pow2 (Z.pos n))
  /\ shr_m (SpecFloat.iter_pos shr_1 n mrs) = shr_m mrs / 2 ^ Z.pos n.
Proof.
  assert (Hnn : forall m (k : positive), 0 <= m -> 0 <= m / 2 ^ Z.pos k).
  { intros m k Hm. apply Z.div_pos; [exact Hm|]. apply Z.pow_pos_nonneg; lia. }
  induction n as [n IH|n IH|]; intros mrs y Hm Hy; simpl SpecFloat.iter_pos.
  - destruct (shr_1_located mrs y Hm Hy) as [H1 E1].
    assert (Hm1 : 0 <= shr_m (shr_1 mrs)) by (rewrite E1; apply Z.div_pos; lia).
    destruct (IH _ _ Hm1 H1) as [H2 E2].
    assert (Hm2 : 0 <= shr_m (SpecFloat.iter_pos shr_1 n (shr_1 mrs))) by (rewrite E2; now apply Hnn).
    destruct (IH _ _ Hm2 H2) as [H3 E3]. split.
    + replace (y / pow2 (Z.pos n~1))%R with (y / 2 / pow2 (Z.pos n) / pow2 (Z.pos n))%R;
        [exact H3|].
      rewrite Pos2Z.inj_xI. replace (2 * Z.pos n + 1) with (Z.pos n + Z.pos n + 1) by lia.
      rewrite pow2_succ, pow2_add. pose proof (pow2_pos (Z.pos n)). field. lra.
    + rewrite E3, E2, E1. rewrite !Z.div_div by (try apply Z.pow_pos_nonneg; lia).
      f_equal. rewrite Pos2Z.inj_xI.
      replace (2 * Z.pos n + 1) with (1 + Z.pos n + Z.pos n) by lia.
      rewrite !Z.pow_add_r by lia. lia.
  - destruct (IH _ _ Hm Hy) as [H2 E2].
    assert (Hm2 : 0 <= shr_m (SpecFloat.iter_pos shr_1 n mrs)) by (rewrite E2; now apply Hnn).
    destruct (IH _ _ Hm2 H2) as [H3 E3]. split.
    + replace (y / pow2 (Z.pos n~0))%R with (y / pow2 (Z.pos n) / pow2 (Z.pos n))%R;
        [exact H3|].
      rewrite Pos2Z.inj_xO. replace (2 * Z.pos n) with (Z.pos n + Z.pos n) by lia.
      rewrite pow2_add. pose proof (pow2_pos (Z.pos n)). field. lra.
    + rewrite E3, E2. rewrite !Z.div_div by (try apply Z.pow_pos_nonneg; lia).
      f_equal. rewrite <- Z.pow_add_r by lia. f_equal. lia.
  - destruct (shr_1_located mrs y Hm Hy) as [H1 E1]. split.
    + rewrite pow2_1. exact H1.
    + rewrite E1. reflexivity.
Qed.

(** Rounding to nearest, ties to even. *)
Lemma round_nearest_even_located mrs y :
  located mrs y ->
  let m1 := round_nearest_even (shr_m mrs) (loc_of_shr_record mrs) in
  shr_m mrs <= m1 <= shr_m mrs + 1
  /\ (Rabs (IZR m1 - y) <= / 2)%R.
Proof.
  destruct mrs as [m r s]. unfold located. simpl.
  destruct r, s; simpl; intros Hy.
  - split; [lia|]. rewrite plus_IZR. apply Rabs_le. lra.
  - destruct (Z.even m); (split; [lia|]); try rewrite plus_IZR; apply Rabs_le; lra.
  - split; [lia|]. apply Rabs_le. lra.
  - split; [lia|]. apply Rabs_le. lra.
Qed.

(** The rounding of [binary_round_aux] *)


Lemma fexp64_eq z : fexp64 z = Z.max (z - 53) (-1074).
Proof. reflexivity. Qed.

Lemma renormalize m1 E d :
  0 < m1 -> 1 <= d -> E = fexp64 (d + E) -> 2 ^ (d - 1) <= m1 <= 2 ^ d ->
  exists mf ef,
    shr_fexp 53 1024 m1 E loc_Exact = (Build_shr_record (Z.pos mf) false false, ef)
    /\ B2R (Z.pos mf) ef = B2R m1 E
    /\ canonical_mantissa 53 1024 mf ef = true
    /\ E <= ef <= E + 1.
Proof.
  intros Hm1 Hd HE Hb. unfold shr_fexp, shr. simpl shr_record_of_loc.
  rewrite fexp64_eq in HE.
  destruct (Z_lt_le_dec m1 (2 ^ d)) as [Hlt|Hge].
  - rewrite (Zdigits2_unique m1 d Hm1) by lia.
    rewrite fexp64_eq. replace (Z.max (d + E - 53) (-1074) - E) with 0 by lia.
    destruct m1 as [|mf|mf]; try lia. exists mf, E.
    split; [reflexivity|]. split; [reflexivity|]. split; [|lia].
    unfold canonical_mantissa. apply Z.eqb_eq.
    change (Z.pos (digits2_pos mf)) with (Zdigits2 (Z.pos mf)).
    rewrite (Zdigits2_unique (Z.pos mf) d) by lia. rewrite fexp64_eq. lia.
  - assert (Hm : m1 = 2 ^ d) by lia.
    assert (Hdig : Zdigits2 m1 = d + 1).
    { apply Zdigits2_unique; [exact Hm1|]. replace (d + 1 - 1) with d by lia.
      rewrite Z.pow_add_r by lia. lia. }
    rewrite Hdig, fexp64_eq.
    destruct (Z_le_gt_dec (d + E - 52) (-1074)) as [Hsub|Hnorm].
    + replace (Z.max (d + 1 + E - 53) (-1074) - E) with 0 by lia.
      destruct m1 as [|mf|mf]; try lia. exists mf, E.
      split; [reflexivity|]. split; [reflexivity|]. split; [|lia].
      unfold canonical_mantissa. apply Z.eqb_eq.
      change (Z.pos (digits2_pos mf)) with (Zdigits2 (Z.pos mf)).
      rewrite Hdig, fexp64_eq. lia.
    + replace (Z.max (d + 1 + E - 53) (-1074) - E) with 1 by lia.
      assert (Hd53 : d = 53) by lia.
      assert (Hhalf : m1 = 2 * 2 ^ (d - 1)).
      { rewrite Hm. replace d with (1 + (d - 1)) at 1 by lia.
        rewrite Z.pow_add_r by lia. reflexivity. }
      assert (Hp : 0 < 2 ^ (d - 1)) by (apply Z.pow_pos_nonneg; lia).
      destruct m1 as [|[p|p|]|p]; try lia.
      assert (Hp52 : p = 4503599627370496%positive).
      { subst d. change (2 ^ (53 - 1)) with 4503599627370496 in Hhalf. lia. }
      subst p. exists 4503599627370496%positive, (E + 1). split; [reflexivity|].
      split.
      * unfold B2R. rewrite pow2_succ.
        replace (IZR 9007199254740992) with (2 * IZR 4503599627370496)%R
          by (rewrite <- mult_IZR; reflexivity).
        lra.
      * split; [|lia]. unfold canonical_mantissa. apply Z.eqb_eq.
        change (Z.pos (digits2_pos 4503599627370496)) with 53.
        rewrite fexp64_eq. lia.
Qed.

Lemma shr_fexp_located m e l x :
  0 < m -> located (shr_record_of_loc m l) (x / pow2 e) ->
  e <= fexp64 (Zdigits2 m + e) ->
  exists mrs,
    shr_fexp 53 1024 m e l = (mrs, fexp64 (Zdigits2 m + e))
    /\ located mrs (x / pow2 (fexp64 (Zdigits2 m + e)))
    /\ shr_m mrs = m / 2 ^ (fexp64 (Zdigits2 m + e) - e).
Proof.
  intros Hm Hloc He. unfold shr_fexp, shr. set (E := fexp64 (Zdigits2 m + e)) in *.
  assert (Hrec : shr_m (shr_record_of_loc m l) = m) by (destruct l as [|[]]; reflexivity).
  destruct (E - e) as [|n|n] eqn:Hn; [| |lia].
  - exists (shr_record_of_loc m l). replace E with e by lia.
    split; [reflexivity|]. split; [exact Hloc|]. rewrite Hrec. simpl. now rewrite Z.div_1_r.
  - destruct (iter_shr_located n (shr_record_of_loc m l) (x / pow2 e)) as [H1 H2];
      [rewrite Hrec; lia|exact Hloc|].
    exists (SpecFloat.iter_pos shr_1 n (shr_record_of_loc m l)).
    split; [f_equal; lia|]. split; [|now rewrite H2, Hrec].
    replace (x / pow2 E)%R with (x / pow2 e / pow2 (Z.pos n))%R; [exact H1|].
    replace E with (e + Z.pos n) by lia. rewrite pow2_add.
    pose proof (pow2_pos e). pose proof (pow2_pos (Z.pos n)). field. lra.
Qed.

Lemma binary_round_aux_spec m e l x :
  0 < m -> located (shr_record_of_loc m l) (x / pow2 e) ->
  e <= fexp64 (Zdigits2 m + e) ->
  fexp64 (Zdigits2 m + e) + 1 <= 971 ->
  let E := fexp64 (Zdigits2 m + e) in
  exists k,
    0 <= k
    /\ (Rabs (IZR k * pow2 E - x) <= pow2 E / 2)%R
    /\ (k = 0 -> binary_round_aux 53 1024 false m e l = S754_zero false)
    /\ (0 < k -> exists mf ef,
          binary_round_aux 53 1024 false m e l = S754_finite false mf ef
          /\ B2R (Z.pos mf) ef = (IZR k * pow2 E)%R
          /\ canonical_mantissa 53 1024 mf ef = true
          /\ E <= ef <= E + 1).
Proof.
  intros Hm Hloc He Hfin E.
  destruct (shr_fexp_located m e l x Hm Hloc He) as (mrs & Hshr & Hl & Hmrs).
  fold E in Hshr, Hl, Hmrs.
  destruct (round_nearest_even_located mrs _ Hl) as [Hk Hnear].
  set (k := round_nearest_even (shr_m mrs) (loc_of_shr_record mrs)) in *.
  assert (Hn : 0 <= E - e) by lia.
  assert (Hm' : 0 <= shr_m mrs).
  { rewrite Hmrs. apply Z.div_pos; [lia|]. apply Z.pow_pos_nonneg; lia. }
  exists k. split; [lia|]. split.
  - pose proof (pow2_pos E) as HE.
    replace (IZR k * pow2 E - x)%R with ((IZR k - x / pow2 E) * pow2 E)%R by (field; lra).
    rewrite Rabs_mult, (Rabs_pos_eq (pow2 E)) by lra.
    apply Rmult_le_compat_r with (r := pow2 E) in Hnear; lra.
  - unfold binary_round_aux. rewrite Hshr. fold k. split.
    + intros Hk0. rewrite Hk0. unfold shr_fexp, shr. change (Zdigits2 0) with 0.
      assert (Hle : fexp64 (0 + E) - E <= 0).
      { unfold E. rewrite !fexp64_eq. lia. }
      destruct (fexp64 (0 + E) - E) as [|p|p]; [reflexivity|lia|reflexivity].
    + intros Hkpos.
      assert (Hren : exists d, 1 <= d /\ E = fexp64 (d + E) /\ 2 ^ (d - 1) <= k <= 2 ^ d).
      { destruct (Z_lt_le_dec (E - e) (Zdigits2 m)) as [Hlt|Hge].
        - destruct (Zdigits2_div m (E - e) Hm Hn Hlt) as [Hpos Hdig].
          rewrite <- Hmrs in Hpos, Hdig.
          pose proof (Zdigits2_bounds _ Hpos) as Hb. rewrite Hdig in Hb.
          exists (Zdigits2 m - (E - e)). split; [lia|]. split.
          + replace (Zdigits2 m - (E - e) + E) with (Zdigits2 m + e) by lia. reflexivity.
          + lia.
        - rewrite (Zdiv_small_digits m (E - e) Hm Hge) in Hmrs.
          exists 1. split; [lia|]. split.
          + pose proof (Zdigits2_pos m Hm).
            assert (HE : E = Z.max (Zdigits2 m + e - 53) (-1074)) by reflexivity.
            rewrite (fexp64_eq (1 + E)). lia.
          + change (2 ^ (1 - 1)) with 1. change (2 ^ 1) with 2. lia. }
      destruct Hren as (d & Hd & HEd & Hkb).
      destruct (renormalize k E d Hkpos Hd HEd Hkb) as (mf & ef & Hsh & Hval & Hcan & Hef).
      rewrite Hsh. simpl shr_m. exists mf, ef.
      replace (ef <=? 1024 - 53) with true by (symmetry; apply Z.leb_le; lia).
      split; [reflexivity|]. split; [exact Hval|]. split; [exact Hcan|exact Hef].
Qed.

(** Values and digits *)

Lemma B2R_digits m e :
  0 < m -> (pow2 (Zdigits2 m + e - 1) <= B2R m e < pow2 (Zdigits2 m + e))%R.
Proof.
  intros Hm. pose proof (Zdigits2_bounds m Hm) as [Hlo Hhi].
  pose proof (Zdigits2_pos m Hm) as Hd. unfold B2R.
  replace (Zdigits2 m + e - 1) with ((Zdigits2 m - 1) + e) by lia.
  rewrite !pow2_add, (pow2_IZR (Zdigits2 m - 1)), (pow2_IZR (Zdigits2 m)) by lia.
  apply IZR_le in Hlo. apply IZR_lt in Hhi. pose proof (pow2_pos e). split; nra.
Qed.

Lemma pow2_between a b x : (pow2 a <= x)%R -> (x < pow2 b)%R -> a < b.
Proof. intros H1 H2. apply pow2_lt_inv. lra. Qed.

(** Division *)

Lemma new_location_located m2 q r :
  0 < m2 -> 0 <= r < m2 ->
  located (shr_record_of_loc q (new_location m2 r)) (IZR q + IZR r / IZR m2).
Proof.
  intros Hm2 Hr.
  assert (Hm2R : (0 < IZR m2)%R) by (apply IZR_lt; lia).
  set (t := (IZR r / IZR m2)%R).
  assert (Ht : (t * IZR m2 = IZR r)%R) by (unfold t; field; lra).
  assert (Hcmp : forall c, (2 * r ?= m2) = c ->
            match c with
            | Lt => (2 * t < 1)%R
            | Eq => (2 * t = 1)%R
            | Gt => (2 * t > 1)%R
            end).
  { intros c Hc. destruct c.
    - apply Z.compare_eq in Hc. apply (f_equal IZR) in Hc. rewrite mult_IZR in Hc. nra.
    - apply -> Z.compare_lt_iff in Hc. apply IZR_lt in Hc. rewrite mult_IZR in Hc. nra.
    - apply -> Z.compare_gt_iff in Hc. apply IZR_lt in Hc. rewrite mult_IZR in Hc. nra. }
  assert (Ht0 : 0 < r -> (0 < t)%R).
  { intros H. apply IZR_lt in H. unfold t. apply Rdiv_lt_0_compat; lra. }
  assert (Ht1 : (t < 1)%R).
  { destruct Hr as [_ H]. apply IZR_lt in H. nra. }
  unfold new_location. destruct (Z.even m2) eqn:Heven.
  - unfold new_location_even. destruct (r =? 0) eqn:Hr0.
    + apply Z.eqb_eq in Hr0. unfold located. simpl. subst r. unfold t. lra.
    + apply Z.eqb_neq in Hr0. specialize (Ht0 ltac:(lia)).
      specialize (Hcmp _ eq_refl). destruct (2 * r ?= m2); unfold located; simpl; lra.
  - unfold new_location_odd. destruct (r =? 0) eqn:Hr0.
    + apply Z.eqb_eq in Hr0. unfold located. simpl. subst r. unfold t. lra.
    + apply Z.eqb_neq in Hr0. specialize (Ht0 ltac:(lia)).
      assert (Hodd : Z.odd m2 = true) by (rewrite <- Z.negb_even, Heven; reflexivity).
      apply Z.odd_spec in Hodd as [h Hh].
      destruct (2 * r + 1 ?= m2) eqn:Hc.
      * apply Z.compare_eq in Hc.
        assert (H2 : (2 * r ?= m2) = Lt) by (apply Z.compare_lt_iff; lia).
        specialize (Hcmp _ H2). unfold located. simpl. lra.
      * apply -> Z.compare_lt_iff in Hc.
        assert (H2 : (2 * r ?= m2) = Lt) by (apply Z.compare_lt_iff; lia).
        specialize (Hcmp _ H2). unfold located. simpl. lra.
      * apply -> Z.compare_gt_iff in Hc.
        assert (H2 : (2 * r ?= m2) = Gt) by (apply Z.compare_gt_iff; lia).
        specialize (Hcmp _ H2). unfold located. simpl. lra.
Qed.

Lemma div_core_spec m1 e1 m2 e2 :
  0 < m1 -> 0 < m2 ->
  let z := Zdigits2 m1 + e1 - (Zdigits2 m2 + e2) in
  -1074 <= z - 53 ->
  exists q e' l,
    SFdiv_core_binary 53 1024 m1 e1 m2 e2 = (q, e', l)
    /\ 0 < q
    /\ located (shr_record_of_loc q l) (B2R m1 e1 / B2R m2 e2 / pow2 e')
    /\ e' <= z - 53
    /\ z <= Zdigits2 q + e' <= z + 1.
Proof.
  intros Hm1 Hm2 z Hz. unfold SFdiv_core_binary.
  fold z. rewrite fexp64_eq. replace (Z.max (z - 53) (-1074)) with (z - 53) by lia.
  set (e' := Z.min (z - 53) (e1 - e2)).
  set (s := e1 - e2 - e').
  pose proof (Zdigits2_pos m1 Hm1) as Hd1. pose proof (Zdigits2_pos m2 Hm2) as Hd2.
  pose proof (Zdigits2_bounds m1 Hm1) as Hb1. pose proof (Zdigits2_bounds m2 Hm2) as Hb2.
  assert (Hs : 0 <= s) by (unfold s, e'; lia).
  assert (Hs53 : 53 - Zdigits2 m1 + Zdigits2 m2 <= s) by (unfold s, e', z; lia).
  set (m' := match s with Z.pos _ => Z.shiftl m1 s | 0 => m1 | Z.neg _ => 0 end).
  assert (Hm' : m' = m1 * 2 ^ s).
  { unfold m'. destruct s as [|p|p]; [simpl; lia| |lia].
    rewrite Z.shiftl_mul_pow2 by lia. reflexivity. }
  clearbody m'.
  pose proof (Z.div_eucl_eq m' m2 ltac:(lia)) as Heq.
  pose proof (Z.mod_pos_bound m' m2 Hm2) as Hrb.
  unfold Z.modulo in Hrb. destruct (Z.div_eucl m' m2) as [q r] eqn:Hqr.
  set (a := Zdigits2 m1 + s - Zdigits2 m2 - 1).
  assert (Ha : 52 <= a) by (unfold a; lia).
  assert (Hp2s : 0 < 2 ^ s) by (apply Z.pow_pos_nonneg; lia).
  assert (Hlow : 2 ^ a * 2 ^ Zdigits2 m2 <= m').
  { rewrite <- Z.pow_add_r by lia. unfold a.
    replace (Zdigits2 m1 + s - Zdigits2 m2 - 1 + Zdigits2 m2) with ((Zdigits2 m1 - 1) + s) by lia.
    rewrite Z.pow_add_r by lia. rewrite Hm'. nia. }
  assert (Hhigh : m' < 2 ^ (a + 2) * 2 ^ (Zdigits2 m2 - 1)).
  { rewrite <- Z.pow_add_r by lia. unfold a.
    replace (Zdigits2 m1 + s - Zdigits2 m2 - 1 + 2 + (Zdigits2 m2 - 1)) with (Zdigits2 m1 + s) by lia.
    rewrite Z.pow_add_r by lia. rewrite Hm'. nia. }
  assert (Hpa : 0 < 2 ^ a) by (apply Z.pow_pos_nonneg; lia).
  assert (Hpa2 : 2 ^ (a + 2) = 4 * 2 ^ a).
  { rewrite Z.pow_add_r by lia. change (2 ^ 2) with 4. lia. }
  assert (Hq : 2 ^ a <= q < 2 ^ (a + 2)).
  { split.
    - destruct (Z_lt_le_dec q (2 ^ a)) as [Hlt|]; [|assumption]. exfalso.
      assert (m2 * q + r < m2 * 2 ^ a) by nia. nia.
    - destruct (Z_lt_le_dec q (2 ^ (a + 2))) as [|Hge]; [assumption|]. exfalso.
      assert (m2 * 2 ^ (a + 2) <= m2 * q) by nia. nia. }
  exists q, e', (new_location m2 r). split; [reflexivity|]. split; [lia|]. split; [|split].
  - replace (B2R m1 e1 / B2R m2 e2 / pow2 e')%R with (IZR q + IZR r / IZR m2)%R.
    + apply new_location_located; lia.
    + unfold B2R. assert (He1 : e1 = e2 + e' + s) by (unfold s; lia).
      rewrite He1, !pow2_add, (pow2_IZR s Hs).
      assert (HmR : (IZR m1 * IZR (2 ^ s) = IZR m2 * IZR q + IZR r)%R).
      { rewrite <- !mult_IZR, <- plus_IZR. f_equal. lia. }
      pose proof (pow2_pos e2). pose proof (pow2_pos e').
      assert (0 < IZR m2)%R by (apply IZR_lt; lia).
      transitivity (IZR m1 * IZR (2 ^ s) / IZR m2)%R.
      * rewrite HmR. field. lra.
      * field. lra.
  - unfold e'. lia.
  - assert (Hze : z = a + 1 + e') by (unfold a, s, z; lia).
    destruct (Z_lt_le_dec q (2 ^ (a + 1))) as [Hlt|Hge].
    + rewrite (Zdigits2_unique q (a + 1)); [lia|lia|].
      replace (a + 1 - 1) with a by lia. lia.
    + rewrite (Zdigits2_unique q (a + 2)); [lia|lia|].
      replace (a + 2 - 1) with (a + 1) by lia. lia.
Qed.


Lemma Rabs_le_both x a : (Rabs x <= a)%R -> (- a <= x <= a)%R.
Proof. unfold Rabs. destruct (Rcase_abs x); lra. Qed.

Lemma located_bounds q l y :
  located (shr_record_of_loc q l) y -> (IZR q <= y < IZR q + 1)%R.
Proof. destruct l as [|[]]; unfold located; simpl; lra. Qed.

Lemma canonical_digits mf ef E k :
  canonical_mantissa 53 1024 mf ef = true ->
  -1074 <= E -> E <= ef <= E + 1 ->
  B2R (Z.pos mf) ef = (IZR k * pow2 E)%R ->
  (IZR (2 ^ 52) <= IZR k)%R ->
  Zdigits2 (Z.pos mf) = 53.
Proof.
  intros Hcan HE Hef Hval Hk. unfold canonical_mantissa in Hcan.
  apply Z.eqb_eq in Hcan. change (Z.pos (digits2_pos mf)) with (Zdigits2 (Z.pos mf)) in Hcan.
  rewrite fexp64_eq in Hcan.
  pose proof (Zdigits2_bounds (Z.pos mf) ltac:(lia)) as [Hlo Hhi].
  pose proof (Zdigits2_pos (Z.pos mf) ltac:(lia)) as Hd.
  destruct (Z.eq_dec ef E) as [->|Hne].
  - unfold B2R in Hval. pose proof (pow2_pos E).
    assert (Hmk : IZR (Z.pos mf) = IZR k) by nra.
    rewrite <- Hmk in Hk. apply le_IZR in Hk.
    destruct (Z_lt_le_dec (Zdigits2 (Z.pos mf)) 53) as [Hlt|Hge]; [|lia].
    exfalso. assert (2 ^ Zdigits2 (Z.pos mf) <= 2 ^ 52) by (apply Z.pow_le_mono_r; lia). lia.
  - lia.
Qed.

Lemma round_gives m e l x :
  0 < m -> located (shr_record_of_loc m l) (x / pow2 e) ->
  e <= Zdigits2 m + e - 53 -> -1074 <= Zdigits2 m + e - 53 ->
  Zdigits2 m + e - 53 + 1 <= 971 ->
  rounds_to (binary_round_aux 53 1024 false m e l) x.
Proof.
  intros Hm Hloc He Hlow Hfin.
  assert (HE : fexp64 (Zdigits2 m + e) = Zdigits2 m + e - 53) by (rewrite fexp64_eq; lia).
  destruct (binary_round_aux_spec m e l x Hm Hloc) as (k & Hk0 & Hnear & _ & Hpos);
    [lia|lia|]. rewrite HE in *.
  set (E := Zdigits2 m + e - 53) in *.
  pose proof (located_bounds _ _ _ Hloc) as Hy.
  pose proof (B2R_digits m e Hm) as Hb. unfold B2R in Hb.
  pose proof (Zdigits2_bounds m Hm) as [_ Hhi].
  pose proof (Zdigits2_pos m Hm) as Hd.
  pose proof (pow2_pos e) as Hpe. pose proof (pow2_pos E) as HpE.
  assert (Hx : (pow2 (E + 52) <= x < pow2 (E + 53))%R).
  { replace (E + 52) with (Zdigits2 m + e - 1) by (unfold E; lia).
    replace (E + 53) with (Zdigits2 m + e) by (unfold E; lia).
    assert (Hxe : (x = x / pow2 e * pow2 e)%R) by (field; lra).
    assert (Hm1 : (IZR m + 1 <= IZR (2 ^ Zdigits2 m))%R).
    { rewrite <- plus_IZR. apply IZR_le. lia. }
    rewrite pow2_add, (pow2_IZR (Zdigits2 m)) by lia.
    split; [nra|]. rewrite Hxe. nra. }
  assert (H52 : pow2 (E + 52) = (IZR (2 ^ 52) * pow2 E)%R).
  { rewrite Z.add_comm, pow2_add, (pow2_IZR 52) by lia. reflexivity. }
  assert (Hk52 : (IZR (2 ^ 52) <= IZR k)%R).
  { apply Rabs_le_both in Hnear.
    assert (Hlt : (IZR (2 ^ 52) - 1 < IZR k)%R) by nra.
    rewrite <- minus_IZR in Hlt. apply lt_IZR in Hlt. apply IZR_le. lia. }
  assert (Hkpos : 0 < k).
  { apply lt_IZR. assert (0 < IZR (2 ^ 52))%R by (apply IZR_lt; reflexivity). lra. }
  destruct (Hpos Hkpos) as (mf & ef & Hres & Hval & Hcan & Hef).
  exists mf, ef, E, k. rewrite Hres. simpl fval.
  split; [reflexivity|]. split; [exact Hcan|]. split.
  { apply (canonical_digits mf ef E k Hcan); try assumption; lia. }
  split; [exact Hef|]. split; [lia|]. split; [exact Hval|]. split; [|exact Hx].
  rewrite Hval. exact Hnear.
Qed.

Lemma fdiv_pos_spec m1 e1 m2 e2 :
  let z := Zdigits2 (Z.pos m1) + e1 - (Zdigits2 (Z.pos m2) + e2) in
  -1021 <= z <= 1020 ->
  rounds_to (SFdiv 53 1024 (S754_finite false m1 e1) (S754_finite false m2 e2))
            (B2R (Z.pos m1) e1 / B2R (Z.pos m2) e2).
Proof.
  intros z Hz.
  destruct (div_core_spec (Z.pos m1) e1 (Z.pos m2) e2) as (q & e' & l & Hcore & Hq & Hloc & He' & Hdq);
    [lia|lia|fold z; lia|]. fold z in He', Hdq.
  unfold SFdiv. rewrite Hcore. simpl xorb.
  apply round_gives; [exact Hq|exact Hloc|lia|lia|lia].
Qed.

Lemma fmul_pos_spec mx ex my ey :
  Zdigits2 (Z.pos mx) = 53 -> Zdigits2 (Z.pos my) = 53 ->
  -1126 <= ex + ey <= 917 ->
  rounds_to (SFmul 53 1024 (S754_finite false mx ex) (S754_finite false my ey))
            (B2R (Z.pos mx) ex * B2R (Z.pos my) ey).
Proof.
  intros Hdx Hdy He. simpl SFmul.
  pose proof (Zdigits2_bounds (Z.pos mx) ltac:(lia)) as Hbx. rewrite Hdx in Hbx.
  pose proof (Zdigits2_bounds (Z.pos my) ltac:(lia)) as Hby. rewrite Hdy in Hby.
  change (2 ^ (53 - 1)) with 4503599627370496 in *.
  change (2 ^ 53) with 9007199254740992 in *.
  assert (Hd : 105 <= Zdigits2 (Z.pos (mx * my)) <= 106).
  { rewrite Pos2Z.inj_mul.
    destruct (Z_lt_le_dec (Z.pos mx * Z.pos my) (2 ^ 105)) as [Hlt|Hge].
    - rewrite (Zdigits2_unique _ 105); [lia|lia|].
      split; [|exact Hlt]. change (2 ^ (105 - 1)) with (4503599627370496 * 4503599627370496). nia.
    - rewrite (Zdigits2_unique _ 106); [lia|lia|].
      split; [exact Hge|]. change (2 ^ 106) with (9007199254740992 * 9007199254740992). nia. }
  apply round_gives; try lia.
  unfold located. simpl. unfold B2R. rewrite Pos2Z.inj_mul, mult_IZR, pow2_add.
  pose proof (pow2_pos ex). pose proof (pow2_pos ey). field. lra.
Qed.

(** ** The arithmetic of the progress percentage *)

Lemma trunc_mag_floor m e :
  0 <= trunc_mag m e
  /\ (IZR (trunc_mag m e) <= B2R (Z.pos m) e < IZR (trunc_mag m e) + 1)%R.
Proof.
  unfold trunc_mag, B2R. destruct (0 <=? e) eqn:He.
  - apply Z.leb_le in He. rewrite pow2_IZR by exact He. rewrite mult_IZR.
    split; [|lra]. apply Z.mul_nonneg_nonneg; [lia|]. apply Z.pow_nonneg. lia.
  - apply Z.leb_gt in He.
    assert (Hp : 0 < 2 ^ (- e)) by (apply Z.pow_pos_nonneg; lia).
    assert (Hne : 2 ^ (- e) <> 0) by lia.
    pose proof (Z.div_mod (Z.pos m) (2 ^ (- e)) Hne) as Hdm.
    pose proof (Z.mod_pos_bound (Z.pos m) (2 ^ (- e)) Hp) as Hmod.
    split; [apply Z.div_pos; lia|].
    replace (pow2 e) with (/ IZR (2 ^ (- e)))%R
      by (rewrite <- pow2_IZR by lia; rewrite <- pow2_opp; f_equal; lia).
    apply IZR_lt in Hp.
    set (q := Z.pos m / 2 ^ (- e)) in *. set (r := Z.pos m mod 2 ^ (- e)) in *.
    assert (HmR : (IZR (Z.pos m) = IZR (2 ^ (- e)) * IZR q + IZR r)%R).
    { rewrite <- mult_IZR, <- plus_IZR. f_equal. exact Hdm. }
    destruct Hmod as [Hr0 Hr1]. apply IZR_le in Hr0. apply IZR_lt in Hr1.
    rewrite HmR. set (P := IZR (2 ^ (- e))) in *.
    split.
    + apply Rmult_le_reg_r with P; [lra|]. field_simplify; [|lra]. nra.
    + apply Rmult_lt_reg_r with P; [lra|]. field_simplify; [|lra]. nra.
Qed.

Lemma rounds_to_error f x :
  rounds_to f x ->
  (0 < x /\ x - x * eps <= fval f <= x + x * eps)%R.
Proof.
  intros (mf & ef & E & k & _ & _ & _ & _ & _ & _ & Hnear & Hx).
  apply Rabs_le_both in Hnear.
  assert (H52 : pow2 (E + 52) = (IZR (2 ^ 52) * pow2 E)%R).
  { rewrite Z.add_comm, pow2_add, (pow2_IZR 52) by lia. reflexivity. }
  change (IZR (2 ^ 52)) with 4503599627370496%R in H52.
  pose proof (pow2_pos E). unfold eps. split; [lra|]. lra.
Qed.

Lemma rounds_to_ge f x (b : Z) :
  rounds_to f x -> (x < pow2 53)%R -> (IZR b <= x)%R -> (IZR b <= fval f)%R.
Proof.
  intros (mf & ef & E & k & _ & _ & _ & _ & _ & Hval & Hnear & Hx) H53 Hb.
  assert (HE : E + 52 < 53) by (apply (pow2_between _ _ x); lra).
  assert (Hgrid : IZR b = (IZR (b * 2 ^ (- E)) * pow2 E)%R).
  { rewrite mult_IZR, <- pow2_IZR by lia. rewrite Rmult_assoc, <- pow2_add.
    replace (- E + E) with 0 by lia. rewrite pow2_0. lra. }
  rewrite Hval in *. rewrite Hgrid in *. set (j := b * 2 ^ (- E)) in *.
  apply Rabs_le_both in Hnear. pose proof (pow2_pos E) as HpE.
  destruct (Z_lt_le_dec k j) as [Hlt|Hge].
  - exfalso. assert (Hk1 : (IZR k + 1 <= IZR j)%R).
    { rewrite <- plus_IZR. apply IZR_le. lia. }
    nra.
  - apply IZR_le in Hge. nra.
Qed.

Lemma exact_int_float_range n : 20 <= n <= 300 -> exact_int_float n = true.
Proof.
  intros Hn.
  assert (Hall : forallb exact_int_float (map Z.of_nat (seq 20 281)) = true)
    by (vm_compute; reflexivity).
  rewrite forallb_forall in Hall. apply Hall.
  apply in_map_iff. exists (Z.to_nat n). split; [lia|]. apply in_seq. lia.
Qed.

Lemma B2R_0 m : B2R m 0 = IZR m.
Proof. unfold B2R. rewrite pow2_0. lra. Qed.

Lemma Zdigits2_le m p : 0 < m -> m < 2 ^ p -> 0 <= p -> Zdigits2 m <= p.
Proof.
  intros Hm Hlt Hp. pose proof (Zdigits2_bounds m Hm) as [Hlo _].
  pose proof (Zdigits2_pos m Hm).
  destruct (Z_le_gt_dec (Zdigits2 m) p) as [|Hgt]; [assumption|]. exfalso.
  assert (2 ^ p <= 2 ^ (Zdigits2 m - 1)) by (apply Z.pow_le_mono_r; lia). lia.
Qed.

Lemma elapsed_rounds us :
  0 < us < 2 ^ 62 -> rounds_to (int_true_div us 1000000) (IZR us / 1000000).
Proof.
  intros [Hpos Hlt]. destruct us as [|p|p]; try lia.
  change (int_true_div (Z.pos p) 1000000)
    with (SFdiv 53 1024 (S754_finite false p 0) (S754_finite false 1000000 0)).
  rewrite <- (B2R_0 (Z.pos p)), <- (B2R_0 1000000).
  apply fdiv_pos_spec.
  pose proof (Zdigits2_le (Z.pos p) 62 Hpos Hlt ltac:(lia)).
  pose proof (Zdigits2_pos (Z.pos p) Hpos).
  change (Zdigits2 1000000) with 20. lia.
Qed.

Lemma exact_int_float_spec n :
  exact_int_float n = true ->
  exists m e, float_of_int n = S754_finite false m e
              /\ Zdigits2 (Z.pos m) = 53 /\ -52 <= e <= 0
              /\ B2R (Z.pos m) e = IZR n.
Proof.
  unfold exact_int_float. destruct (float_of_int n) as [| | |[] m e]; try discriminate.
  intros H. apply andb_true_iff in H as [H H4]. apply andb_true_iff in H as [H H3].
  apply andb_true_iff in H as [H1 H2].
  apply Z.eqb_eq in H1, H4. apply Z.leb_le in H2, H3.
  exists m, e. split; [reflexivity|]. split; [exact H1|]. split; [lia|].
  unfold B2R. rewrite H4, mult_IZR, <- pow2_IZR by lia.
  rewrite Rmult_assoc, <- pow2_add. replace (- e + e) with 0 by lia. rewrite pow2_0. lra.
Qed.

Lemma rounds_to_exponent f x lo hi :
  rounds_to f x -> (pow2 lo <= x)%R -> (x < pow2 hi)%R ->
  exists m e, f = S754_finite false m e /\ Zdigits2 (Z.pos m) = 53
              /\ lo - 53 < e /\ e <= hi - 52.
Proof.
  intros (mf & ef & E & k & Hf & _ & Hd & Hef & _ & _ & _ & Hx) Hlo Hhi.
  assert (E + 52 < hi) by (apply (pow2_between _ _ x); lra).
  assert (lo < E + 53) by (apply (pow2_between _ _ x); lra).
  exists mf, ef. split; [exact Hf|]. split; [exact Hd|]. lia.
Qed.

Lemma float_100 :
  float_of_int 100 = S754_finite false 7036874417766400 (-46)
  /\ B2R 7036874417766400 (-46) = 100%R.
Proof.
  split; [vm_compute; reflexivity|].
  unfold B2R. change (-46) with (- (46)). rewrite pow2_opp, pow2_IZR by lia.
  change (2 ^ 46) with 70368744177664. lra.
Qed.

Lemma progress_arith us total :
  0 <= us < 2 ^ 62 -> 20 <= total <= 300 ->
  exists scaled whole secs,
    scaled_ratio us total = inr scaled
    /\ py_int scaled = inr whole
    /\ floor_float scaled = Some whole
    /\ whole_seconds us = inr secs
    /\ 0 <= whole
    /\ (100 <= whole <-> total * 1000000 <= us).
Proof.
  intros Hus Htot.
  destruct (exact_int_float_spec total (exact_int_float_range total Htot))
    as (mt & et & Ht & Hdt & Het & Hvt).
  destruct float_100 as [H100 Hv100].
  unfold scaled_ratio, whole_seconds, total_seconds, float_div_int, float_mul_int.
  rewrite Ht, H100. cbn [is_finite is_zero].
  destruct (Z.eq_dec us 0) as [->|Hne].
  - exists (S754_zero false), 0, 0. cbn. split_and!; try reflexivity; lia.
  - assert (Hpos : 0 < us < 2 ^ 62) by lia.
    pose proof (elapsed_rounds us Hpos) as He.
    set (xe := (IZR us / 1000000)%R) in *.
    assert (Hxe : (/ 1000000 <= xe < 4611686018428)%R).
    { unfold xe. destruct Hpos as [H0 H62]. apply IZR_lt in H62.
      assert (1 <= us) by lia. apply IZR_le in H.
      change (2 ^ 62) with 4611686018427387904 in H62. lra. }
    destruct (rounds_to_exponent _ _ (-20) 43 He) as (me & ee & Hef & Hde & Hee1 & Hee2).
    { change (-20) with (- (20)). rewrite pow2_opp, pow2_IZR by lia.
      change (2 ^ 20) with 1048576. lra. }
    { rewrite pow2_IZR by lia. change (2 ^ 43) with 8796093022208. lra. }
    destruct (rounds_to_error _ _ He) as [Hxe0 Herr]. unfold eps in Herr.
    rewrite Hef in *. cbn [is_finite rbind]. cbn [fval] in Herr.
    set (ve := B2R (Z.pos me) ee) in *.
    assert (HT : (20 <= IZR total <= 300)%R).
    { destruct Htot as [H1 H2]. apply IZR_le in H1, H2. lra. }
    (* the ratio *)
    assert (Hr : rounds_to (fdiv (S754_finite false me ee) (S754_finite false mt et))
                   (ve / IZR total)).
    { unfold ve. rewrite <- Hvt. apply fdiv_pos_spec. lia. }
    set (xr := (ve / IZR total)%R) in *.
    assert (Hxr : (xr * IZR total = ve)%R) by (unfold xr; field; lra).
    assert (Hxrb : (/ 1000000000 <= xr < 4611686018428)%R) by (split; nra).
    destruct (rounds_to_exponent _ _ (-30) 43 Hr) as (mr & er & Hrf & Hdr & Her1 & Her2).
    { change (-30) with (- (30)). rewrite pow2_opp, pow2_IZR by lia.
      change (2 ^ 30) with 1073741824. lra. }
    { rewrite pow2_IZR by lia. change (2 ^ 43) with 8796093022208. lra. }
    destruct (rounds_to_error _ _ Hr) as [Hxr0 Herr2]. unfold eps in Herr2.
    unfold fdiv in *. rewrite Hrf in *. cbn [fval] in Herr2.
    set (vr := B2R (Z.pos mr) er) in *.
    (* the scaled ratio *)
    assert (Hs : rounds_to (fmul (S754_finite false mr er)
                              (S754_finite false 7036874417766400 (-46)))
                   (vr * 100)).
    { unfold vr. rewrite <- Hv100. apply fmul_pos_spec; [exact Hdr|reflexivity|lia]. }
    set (xs := (vr * 100)%R) in *.
    assert (Hxsb : (/ 100000000 <= xs < 4611686018428000)%R) by (unfold xs; split; lra).
    destruct (rounds_to_exponent _ _ (-30) 53 Hs) as (ms & es & Hsf & Hds & Hes1 & Hes2).
    { change (-30) with (- (30)). rewrite pow2_opp, pow2_IZR by lia.
      change (2 ^ 30) with 1073741824. lra. }
    { rewrite pow2_IZR by lia. change (2 ^ 53) with 9007199254740992. lra. }
    destruct (rounds_to_error _ _ Hs) as [Hxs0 Herr3]. unfold eps in Herr3.
    unfold fmul in *. rewrite Hsf in *. cbn [fval] in Herr3.
    set (vs := B2R (Z.pos ms) es) in *.
    destruct (trunc_mag_floor ms es) as [Hw0 Hw]. fold vs in Hw.
    destruct (trunc_mag_floor me ee) as [Hsec0 _].
    exists (S754_finite false ms es), (trunc_mag ms es), (trunc_mag me ee).
    split; [reflexivity|]. split; [reflexivity|]. split; [reflexivity|].
    split; [reflexivity|]. split; [exact Hw0|]. split.
    + (* a percentage of 100 needs the whole duration *)
      intros Hwhole.
      destruct (Z_le_gt_dec (total * 1000000) us) as [|Hgt]; [assumption|]. exfalso.
      assert (Hus1 : (IZR us + 1 <= IZR total * 1000000)%R).
      { rewrite <- (mult_IZR total 1000000), <- plus_IZR. apply IZR_le. lia. }
      assert (Hxe1 : (xe <= IZR total - / 1000000)%R) by (unfold xe; lra).
      assert (Hve1 : (ve <= IZR total - / 2000000)%R) by nra.
      assert (Hxr1 : (xr <= 1 - / 1000000000)%R) by nra.
      assert (Hvr1 : (vr <= 1 - / 2000000000)%R) by nra.
      assert (Hvs1 : (vs < 100)%R) by (unfold xs in *; nra).
      apply IZR_le in Hwhole. lra.
    + (* and the whole duration gives 100 *)
      intros Hdone.
      assert (Hus1 : (IZR total * 1000000 <= IZR us)%R).
      { rewrite <- (mult_IZR total 1000000). apply IZR_le. lia. }
      assert (H53 : pow2 53 = 9007199254740992%R).
      { rewrite pow2_IZR by lia. reflexivity. }
      assert (Hve1 : (IZR total <= ve)%R).
      { apply (rounds_to_ge _ xe total He); [rewrite H53; lra|unfold xe; lra]. }
      assert (Hvr1 : (IZR 1 <= vr)%R).
      { apply (rounds_to_ge _ xr 1 Hr); [rewrite H53; lra|]. nra. }
      assert (Hvs1 : (IZR 100 <= vs)%R).
      { apply (rounds_to_ge _ xs 100 Hs); [rewrite H53; lra|]. unfold xs. lra. }
      apply le_IZR. 
      assert (Hlt : (IZR 100 < IZR (trunc_mag ms es + 1))%R) by (rewrite plus_IZR; lra).
      apply lt_IZR in Hlt. apply IZR_le. lia.
Qed.

(** ** The progress report *)

Lemma duration_events sim :
  duration_in_range sim ->
  20 <= total_time sim <= 300
  /\ is_Some (dict_get (sim_content_type sim) SIMULATION_EVENTS)
  /\ (forall pool, dict_get (sim_content_type sim) SIMULATION_EVENTS = Some pool -> pool <> []).
Proof.
  intros (a & b & Hab & Hr).
  pose proof (times_type _ _ Hab) as Hty.
  destruct (times_of_type _ Hty) as (a' & b' & Hab' & Ha & _ & Hb).
  rewrite Hab in Hab'. injection Hab' as <- <-.
  destruct (events_of_type _ Hty) as (pool & Hpool & Hne).
  split; [lia|]. split; [now exists pool|].
  intros pool' Hpool'. congruence.
Qed.




(** Exactly 29 of 100 seconds report 28 per cent: the quotient 0.29 is
    rounded down and so is its product with 100. *)
Example progress_29_of_100 : progress_of 29000000 100 = inr 28.
Proof. vm_compute. reflexivity. Qed.

(** ** Converting a rating to a float *)

Lemma binary_round_aux_sign sx m e l :
  is_finite (binary_round_aux 53 1024 sx m e l)
  = is_finite (binary_round_aux 53 1024 false m e l).
Proof.
  unfold binary_round_aux. destruct (shr_fexp 53 1024 m e l) as [mrs e'].
  destruct (shr_fexp 53 1024 _ e' loc_Exact) as [mrs' e''].
  destruct (shr_m mrs'); try reflexivity. destruct (e'' <=? 1024 - 53); reflexivity.
Qed.

Lemma iter_xO m d : Z.pos (Pos.iter xO m d) = Z.pos m * 2 ^ Z.pos d.
Proof.
  induction d as [|d IH] using Pos.peano_ind.
  - simpl. lia.
  - rewrite Pos.iter_succ, Pos2Z.inj_xO, IH, Pos2Z.inj_succ, Z.pow_succ_r by lia. lia.
Qed.

Lemma shl_align_spec mx ex ex' :
  exists mz ez, shl_align mx ex ex' = (mz, ez)
                /\ ez = Z.min ex ex' /\ Z.pos mz = Z.pos mx * 2 ^ (ex - ez).
Proof.
  unfold shl_align. destruct (ex' - ex) as [|d|d] eqn:Hd.
  - exists mx, ex. split; [reflexivity|]. split; [lia|].
    replace (ex - ex) with 0 by lia. simpl. lia.
  - exists mx, ex. split; [reflexivity|]. split; [lia|].
    replace (ex - ex) with 0 by lia. simpl. lia.
  - exists (Pos.iter xO mx d), ex'. split; [reflexivity|]. split; [lia|].
    rewrite iter_xO. f_equal. f_equal. lia.
Qed.

Lemma Zdigits2_mul_pow2 m n : 0 < m -> 0 <= n -> Zdigits2 (m * 2 ^ n) = Zdigits2 m + n.
Proof.
  intros Hm Hn. pose proof (Zdigits2_bounds m Hm) as [Hlo Hhi].
  pose proof (Zdigits2_pos m Hm).
  assert (0 < 2 ^ n) by (apply Z.pow_pos_nonneg; lia).
  apply Zdigits2_unique; [nia|].
  replace (Zdigits2 m + n - 1) with ((Zdigits2 m - 1) + n) by lia.
  rewrite !Z.pow_add_r by lia. split; nia.
Qed.

Lemma float_of_int_finite r : Z.abs r < 2 ^ 1023 -> is_finite (float_of_int r) = true.
Proof.
  intros Hr. unfold float_of_int, binary_normalize.
  assert (Hpos : forall sx m, Z.pos m < 2 ^ 1023 ->
            is_finite (binary_round 53 1024 sx m 0) = true).
  { intros sx m Hm. unfold binary_round.
    change (Z.pos (digits2_pos m)) with (Zdigits2 (Z.pos m)).
    destruct (shl_align_spec m 0 (fexp64 (Zdigits2 (Z.pos m) + 0))) as (mz & ez & -> & Hez & Hmz).
    rewrite binary_round_aux_sign.
    pose proof (Zdigits2_pos (Z.pos m) ltac:(lia)) as Hd.
    pose proof (Zdigits2_le (Z.pos m) 1023 ltac:(lia) Hm ltac:(lia)) as Hd'.
    rewrite fexp64_eq in Hez.
    assert (Hdz : Zdigits2 (Z.pos mz) = Zdigits2 (Z.pos m) + (0 - ez)).
    { rewrite Hmz. apply Zdigits2_mul_pow2; lia. }
    destruct (binary_round_aux_spec (Z.pos mz) ez loc_Exact (B2R (Z.pos mz) ez))
      as (k & Hk0 & _ & Hzero & Hfin).
    - lia.
    - unfold located. simpl. unfold B2R. pose proof (pow2_pos ez). field. lra.
    - rewrite Hdz, fexp64_eq. lia.
    - rewrite Hdz, fexp64_eq. lia.
    - destruct (Z.eq_dec k 0) as [H0|Hne].
      + now rewrite (Hzero H0).
      + destruct (Hfin ltac:(lia)) as (mf & ef & -> & _). reflexivity. }
  destruct r as [|m|m]; [reflexivity| |]; apply Hpos; lia.
Qed.

(** ** Scores between 0 and 10 *)

Lemma binary_round_aux_near m e l x :
  0 < m -> located (shr_record_of_loc m l) (x / pow2 e) ->
  e <= fexp64 (Zdigits2 m + e) -> fexp64 (Zdigits2 m + e) + 1 <= 971 ->
  near_grid (binary_round_aux 53 1024 false m e l) x (fexp64 (Zdigits2 m + e)).
Proof.
  intros Hm Hloc He Hfin.
  destruct (binary_round_aux_spec m e l x Hm Hloc He Hfin) as (k & Hk & Hnear & Hz & Hp).
  exists k. split; [exact Hk|]. split; [exact Hnear|].
  destruct (Z.eq_dec k 0) as [->|Hne].
  - rewrite (Hz eq_refl). simpl. split; [lra|now left].
  - destruct (Hp ltac:(lia)) as (mf & ef & -> & Hval & Hcan & _).
    split; [exact Hval|]. right. now exists mf, ef.
Qed.

Lemma near_grid_le f x E (b : Z) :
  near_grid f x E -> E <= 0 -> (x <= IZR b)%R -> (0 <= fval f <= IZR b)%R.
Proof.
  intros (k & Hk & Hnear & Hval & _) HE Hb.
  assert (Hgrid : IZR b = (IZR (b * 2 ^ (- E)) * pow2 E)%R).
  { rewrite mult_IZR, <- pow2_IZR by lia. rewrite Rmult_assoc, <- pow2_add.
    replace (- E + E) with 0 by lia. rewrite pow2_0. lra. }
  rewrite Hval, Hgrid in *. set (j := b * 2 ^ (- E)) in *.
  apply Rabs_le_both in Hnear. pose proof (pow2_pos E) as HpE.
  apply IZR_le in Hk. split; [nra|].
  destruct (Z_le_gt_dec k j) as [Hle|Hgt].
  - apply IZR_le in Hle. nra.
  - exfalso. assert (Hk1 : (IZR j + 1 <= IZR k)%R).
    { rewrite <- plus_IZR. apply IZR_le. lia. }
    nra.
Qed.

Lemma canonical_cases m e :
  canonical_mantissa 53 1024 m e = true ->
  (Zdigits2 (Z.pos m) = 53 /\ -1074 <= e) \/ (e = -1074 /\ Zdigits2 (Z.pos m) <= 53).
Proof.
  unfold canonical_mantissa. intros H. apply Z.eqb_eq in H.
  change (Z.pos (digits2_pos m)) with (Zdigits2 (Z.pos m)) in H.
  rewrite fexp64_eq in H. lia.
Qed.

Lemma Zdigits2_ge m p : 0 < m -> 2 ^ p <= m -> 0 <= p -> p + 1 <= Zdigits2 m.
Proof.
  intros Hm Hle Hp. pose proof (Zdigits2_bounds m Hm) as [_ Hhi].
  pose proof (Zdigits2_pos m Hm).
  destruct (Z_le_gt_dec (p + 1) (Zdigits2 m)) as [|Hgt]; [assumption|]. exfalso.
  assert (2 ^ Zdigits2 m <= 2 ^ p) by (apply Z.pow_le_mono_r; lia). lia.
Qed.

Lemma lit_0_9_eq : lit_0_9 = S754_finite false 8106479329266893 (-53).
Proof. vm_compute. reflexivity. Qed.

Lemma pow2_neg n : 0 <= n -> pow2 (- n) = (/ IZR (2 ^ n))%R.
Proof. intros Hn. rewrite pow2_opp, pow2_IZR by exact Hn. reflexivity. Qed.

Lemma near_grid_exponent (x : R) E d :
  (pow2 (d - 1) <= x)%R -> (x < 16)%R -> E = fexp64 d -> E <= -49.
Proof.
  intros Hlo Hhi ->. assert (d - 1 < 4).
  { apply (pow2_between _ _ x); [exact Hlo|]. rewrite pow2_IZR by lia.
    change (2 ^ 4) with 16. exact Hhi. }
  rewrite fexp64_eq. lia.
Qed.

(** The old score scaled by 0.9. *)
Lemma fmul_score m e :
  canonical_mantissa 53 1024 m e = true ->
  (B2R (Z.pos m) e <= 10)%R ->
  exists E, near_grid (fmul (S754_finite false m e) lit_0_9)
                      (B2R (Z.pos m) e * B2R 8106479329266893 (-53)) E
            /\ (0 <= fval (fmul (S754_finite false m e) lit_0_9) <= 9)%R.
Proof.
  intros Hcan Hp. rewrite lit_0_9_eq. unfold fmul. simpl SFmul.
  set (c := 8106479329266893%positive).
  set (M := Z.pos (m * c)).
  assert (HM : M = Z.pos m * Z.pos c) by (unfold M; lia).
  pose proof (Zdigits2_bounds (Z.pos m) ltac:(lia)) as [Hlo Hhi].
  pose proof (Zdigits2_pos (Z.pos m) ltac:(lia)) as Hdp.
  pose proof (canonical_cases m e Hcan) as Hcases.
  set (dp := Zdigits2 (Z.pos m)) in *.
  assert (HD : dp + 52 <= Zdigits2 M).
  { replace (dp + 52) with (dp + 51 + 1) by lia. apply Zdigits2_ge; [lia| |lia].
    replace (dp + 51) with ((dp - 1) + 52) by lia. rewrite Z.pow_add_r by lia.
    change (2 ^ 52) with 4503599627370496. rewrite HM. unfold c. nia. }
  set (x := (B2R (Z.pos m) e * B2R (Z.pos c) (-53))%R).
  assert (Hx : x = B2R M (e + -53)).
  { unfold x, B2R. rewrite HM, mult_IZR, pow2_add. lra. }
  assert (Hc : B2R (Z.pos c) (-53) = (8106479329266893 / 9007199254740992)%R).
  { unfold B2R, c. change (-53) with (- (53)). rewrite pow2_neg by lia.
    change (2 ^ 53) with 9007199254740992. lra. }
  pose proof (B2R_digits (Z.pos m) e ltac:(lia)) as [Hvp0 _].
  pose proof (pow2_pos (Zdigits2 (Z.pos m) + e - 1)) as Hpp.
  assert (Hxb : (0 < x <= 10 * (8106479329266893 / 9007199254740992))%R).
  { unfold x. rewrite Hc. split; nra. }
  pose proof (B2R_digits M (e + -53) ltac:(lia)) as [HxD HxD'].
  rewrite <- Hx in HxD, HxD'.
  set (E := fexp64 (Zdigits2 M + (e + -53))) in *.
  assert (HE : E <= -49).
  { apply (near_grid_exponent x E (Zdigits2 M + (e + -53)));
      [exact HxD|lra|reflexivity]. }
  assert (Hnear : near_grid (binary_round_aux 53 1024 false M (e + -53) loc_Exact) x E).
  { apply binary_round_aux_near.
    - lia.
    - unfold located. simpl. rewrite Hx. unfold B2R.
      pose proof (pow2_pos (e + -53)). field. lra.
    - fold E. unfold E. rewrite fexp64_eq.
      lia.
    - fold E. lia. }
  exists E. split; [exact Hnear|].
  destruct Hnear as (k & Hk & Hn & Hval & _).
  change (binary_round_aux prec emax) with (binary_round_aux 53 1024). rewrite Hval.
  assert (Hgrid : (9 = IZR (9 * 2 ^ (- E)) * pow2 E)%R).
  { rewrite mult_IZR, <- pow2_IZR by lia. rewrite Rmult_assoc, <- pow2_add.
    replace (- E + E) with 0 by lia. rewrite pow2_0. lra. }
  set (j := 9 * 2 ^ (- E)) in *.
  apply Rabs_le_both in Hn. pose proof (pow2_pos E) as HpE.
  apply IZR_le in Hk. split; [nra|].
  destruct (Z_le_gt_dec k j) as [Hle|Hgt].
  - apply IZR_le in Hle. nra.
  - exfalso. assert (Hk1 : (IZR j + 1 <= IZR k)%R).
    { rewrite <- plus_IZR. apply IZR_le. lia. }
    assert (Hd : (pow2 E <= 2 * (2 / 9007199254740992))%R) by nra.
    assert (HE51 : E <= -51).
    { destruct (Z_le_gt_dec E (-51)) as [|Hg]; [assumption|]. exfalso.
      assert (Hp50 : (pow2 (-50) <= pow2 E)%R) by (apply pow2_le; lia).
      change (-50) with (- (50)) in Hp50. rewrite pow2_neg in Hp50 by lia.
      change (2 ^ 50) with 1125899906842624 in Hp50. lra. }
    assert (Hx4 : (x < 4)%R).
    { assert (Hle4 : (pow2 (Zdigits2 M + (e + -53)) <= pow2 2)%R).
      { apply pow2_le. unfold E in HE51. rewrite fexp64_eq in HE51. lia. }
      rewrite (pow2_IZR 2) in Hle4 by lia. change (2 ^ 2) with 4 in Hle4. lra. }
    nra.
Qed.

Lemma binary_round_near m e :
  fexp64 (Zdigits2 (Z.pos m) + e) + 1 <= 971 ->
  near_grid (binary_round 53 1024 false m e) (B2R (Z.pos m) e)
            (fexp64 (Zdigits2 (Z.pos m) + e)).
Proof.
  intros Hfin. unfold binary_round.
  change (Z.pos (digits2_pos m)) with (Zdigits2 (Z.pos m)).
  destruct (shl_align_spec m e (fexp64 (Zdigits2 (Z.pos m) + e))) as (mz & ez & -> & Hez & Hmz).
  pose proof (Zdigits2_pos (Z.pos m) ltac:(lia)) as Hd.
  assert (Hdz : Zdigits2 (Z.pos mz) = Zdigits2 (Z.pos m) + (e - ez)).
  { rewrite Hmz. apply Zdigits2_mul_pow2; lia. }
  assert (Hsum : Zdigits2 (Z.pos mz) + ez = Zdigits2 (Z.pos m) + e) by lia.
  assert (Hval : B2R (Z.pos mz) ez = B2R (Z.pos m) e).
  { rewrite Hmz, B2R_shift by lia. f_equal. lia. }
  rewrite <- Hval, <- Hsum. apply binary_round_aux_near.
  - lia.
  - unfold located. simpl. unfold B2R. pose proof (pow2_pos ez). field. lra.
  - rewrite Hsum. lia.
  - rewrite Hsum. exact Hfin.
Qed.

(** The sum of two positive doubles that add up to at most 10. *)
Lemma fadd_score ma ea mb eb :
  (B2R (Z.pos ma) ea + B2R (Z.pos mb) eb <= 10)%R ->
  let s := fadd (S754_finite false ma ea) (S754_finite false mb eb) in
  (0 <= fval s <= 10)%R
  /\ (s = S754_zero false \/ exists m e, s = S754_finite false m e).
Proof.
  intros Hsum s. subst s. unfold fadd. simpl SFadd.
  set (ez := Z.min ea eb).
  destruct (shl_align_spec ma ea ez) as (ma' & ea' & Ha & Hea & Hma).
  destruct (shl_align_spec mb eb ez) as (mb' & eb' & Hb & Heb & Hmb).
  rewrite Ha, Hb. cbn [fst cond_Zopp].
  change (Z.pos ma' + Z.pos mb') with (Z.pos (ma' + mb')).
  cbn [binary_normalize].
  assert (Hez1 : ea' = ez) by (unfold ez in *; lia).
  assert (Hez2 : eb' = ez) by (unfold ez in *; lia).
  assert (Hx : B2R (Z.pos (ma' + mb')) ez
               = (B2R (Z.pos ma) ea + B2R (Z.pos mb) eb)%R).
  { rewrite Pos2Z.inj_add, Hma, Hmb, Hez1, Hez2. unfold B2R. rewrite plus_IZR.
    rewrite Rmult_plus_distr_r. fold (B2R (Z.pos ma * 2 ^ (ea - ez)) ez).
    fold (B2R (Z.pos mb * 2 ^ (eb - ez)) ez).
    rewrite !B2R_shift by (unfold ez; lia). unfold B2R.
    replace (ez + (ea - ez)) with ea by lia. replace (ez + (eb - ez)) with eb by lia.
    reflexivity. }
  pose proof (B2R_digits (Z.pos (ma' + mb')) ez ltac:(lia)) as [Hlo _].
  rewrite Hx in Hlo.
  assert (HE : fexp64 (Zdigits2 (Z.pos (ma' + mb')) + ez) <= -49).
  { apply (near_grid_exponent (B2R (Z.pos ma) ea + B2R (Z.pos mb) eb)%R _
             (Zdigits2 (Z.pos (ma' + mb')) + ez)); [exact Hlo|lra|reflexivity]. }
  pose proof (binary_round_near (ma' + mb') ez ltac:(lia)) as Hnear.
  rewrite Hx in Hnear.
  change (binary_round prec emax) with (binary_round 53 1024).
  split.
  - apply (near_grid_le _ _ _ 10 Hnear); [lia|exact Hsum].
  - destruct Hnear as (k & _ & _ & _ & [H|(m & e & H & _)]); [now left|right; eauto].
Qed.

Lemma rounds_to_le f x (b : Z) :
  rounds_to f x -> (x < pow2 53)%R -> (x <= IZR b)%R -> (0 < fval f <= IZR b)%R.
Proof.
  intros (mf & ef & E & k & _ & _ & _ & _ & _ & Hval & Hnear & Hx) H53 Hb.
  assert (HE : E + 52 < 53) by (apply (pow2_between _ _ x); lra).
  assert (Hgrid : IZR b = (IZR (b * 2 ^ (- E)) * pow2 E)%R).
  { rewrite mult_IZR, <- pow2_IZR by lia. rewrite Rmult_assoc, <- pow2_add.
    replace (- E + E) with 0 by lia. rewrite pow2_0. lra. }
  assert (H52 : pow2 (E + 52) = (IZR (2 ^ 52) * pow2 E)%R).
  { rewrite Z.add_comm, pow2_add, (pow2_IZR 52) by lia. reflexivity. }
  change (IZR (2 ^ 52)) with 4503599627370496%R in H52.
  rewrite Hval in *. rewrite Hgrid in *. set (j := b * 2 ^ (- E)) in *.
  apply Rabs_le_both in Hnear. pose proof (pow2_pos E) as HpE.
  split; [nra|].
  destruct (Z_le_gt_dec k j) as [Hle|Hgt].
  - apply IZR_le in Hle. nra.
  - exfalso. assert (Hk1 : (IZR j + 1 <= IZR k)%R).
    { rewrite <- plus_IZR. apply IZR_le. lia. }
    nra.
Qed.

Lemma round_half_even_bound n d b :
  0 <= n -> 0 < d -> n <= b * d -> 0 <= round_half_even n d <= b.
Proof.
  intros Hn Hd Hb. unfold round_half_even.
  pose proof (Z.div_mod n d ltac:(lia)) as Hdm.
  pose proof (Z.mod_pos_bound n d Hd) as Hmod.
  assert (Hq0 : 0 <= n / d) by (apply Z.div_pos; lia).
  assert (Hqb : n / d <= b).
  { destruct (Z_le_gt_dec (n / d) b) as [|Hgt]; [assumption|]. exfalso. nia. }
  destruct (Z.eq_dec (n / d) b) as [Heq|Hne].
  - assert (Hm0 : n mod d = 0) by nia. rewrite Hm0.
    replace (2 * 0 ?= d) with Lt by (symmetry; apply Z.compare_lt_iff; lia). lia.
  - destruct (2 * (n mod d) ?= d); [destruct (Z.even (n / d))| |]; lia.
Qed.

(** Rounding a score between 0 and 10 to two decimals keeps it there. *)
Lemma round2_score f :
  (f = S754_zero false \/ exists m e, f = S754_finite false m e) ->
  (0 <= fval f <= 10)%R ->
  is_finite (round2 f) = true /\ (0 <= fval (round2 f) <= 10)%R.
Proof.
  intros [->|(m & e & ->)] Hf.
  - simpl. split; [reflexivity|lra].
  - cbn [fval] in Hf. unfold round2.
    set (n := if 0 <=? e then Z.pos m * 2 ^ e * 100
              else round_half_even (Z.pos m * 100) (2 ^ (- e))).
    assert (Hn : 0 <= n <= 1000).
    { unfold n. destruct (0 <=? e) eqn:He.
      - apply Z.leb_le in He. unfold B2R in Hf. rewrite pow2_IZR in Hf by exact He.
        rewrite <- mult_IZR in Hf. destruct Hf as [_ Hf]. apply le_IZR in Hf.
        assert (0 < 2 ^ e) by (apply Z.pow_pos_nonneg; lia). nia.
      - apply Z.leb_gt in He.
        assert (Hp : 0 < 2 ^ (- e)) by (apply Z.pow_pos_nonneg; lia).
        apply round_half_even_bound; [lia|exact Hp|].
        unfold B2R in Hf. replace e with (- - e) in Hf by lia.
        rewrite pow2_neg in Hf by lia. destruct Hf as [_ Hf].
        assert (HpR : (0 < IZR (2 ^ (- e)))%R) by (apply IZR_lt; exact Hp).
        assert (Hm : (IZR (Z.pos m) <= 10 * IZR (2 ^ (- e)))%R).
        { apply Rmult_le_compat_r with (r := IZR (2 ^ (- e))) in Hf; [|lra].
          rewrite Rmult_assoc, Rinv_l in Hf by lra. lra. }
        rewrite <- mult_IZR in Hm. apply le_IZR in Hm. lia. }
    clearbody n. destruct n as [|p|p]; [| |lia].
    + simpl. split; [reflexivity|lra].
    + change (int_true_div (Z.pos p) 100)
        with (SFdiv 53 1024 (S754_finite false p 0) (S754_finite false 100 0)).
      assert (Hr : rounds_to (SFdiv 53 1024 (S754_finite false p 0) (S754_finite false 100 0))
                     (IZR (Z.pos p) / 100)).
      { rewrite <- (B2R_0 (Z.pos p)), <- (B2R_0 100). apply fdiv_pos_spec.
        pose proof (Zdigits2_le (Z.pos p) 10 ltac:(lia) ltac:(change (2 ^ 10) with 1024; lia)
                      ltac:(lia)).
        pose proof (Zdigits2_pos (Z.pos p) ltac:(lia)).
        change (Zdigits2 100) with 7. lia. }
      assert (HpR : (IZR (Z.pos p) <= 1000)%R) by (apply IZR_le; lia).
      destruct (rounds_to_le _ _ 10 Hr) as [H0 H10].
      * rewrite pow2_IZR by lia. change (2 ^ 53) with 9007199254740992. lra.
      * lra.
      * destruct Hr as (mf & ef & _ & _ & Hfe & _). rewrite Hfe in *.
        split; [reflexivity|]. lra.
Qed.

Lemma rating_part_range r :
  1 <= r <= 10 ->
  exists m e, fmul (float_of_int r) lit_0_1 = S754_finite false m e
              /\ (0 < B2R (Z.pos m) e <= 1)%R.
Proof.
  intros Hr.
  assert (Hall : forallb rating_part_ok (map Z.of_nat (seq 1 10)) = true)
    by (vm_compute; reflexivity).
  rewrite forallb_forall in Hall.
  assert (Hok : rating_part_ok r = true).
  { apply Hall. apply in_map_iff. exists (Z.to_nat r). split; [lia|]. apply in_seq. lia. }
  unfold rating_part_ok in Hok.
  destruct (fmul (float_of_int r) lit_0_1) as [| | |[] m e]; try discriminate.
  apply andb_true_iff in Hok as [He Hm]. apply Z.leb_le in He, Hm.
  exists m, e. split; [reflexivity|]. unfold B2R.
  replace e with (- - e) by lia. rewrite pow2_neg by lia.
  assert (Hp : 0 < 2 ^ (- e)) by (apply Z.pow_pos_nonneg; lia).
  apply IZR_lt in Hp. apply IZR_le in Hm.
  assert (H0 : (0 < IZR (Z.pos m))%R) by (apply IZR_lt; lia).
  split.
  - apply Rmult_lt_0_compat; [exact H0|]. now apply Rinv_0_lt_compat.
  - apply Rmult_le_reg_r with (IZR (2 ^ (- e))); [exact Hp|].
    rewrite Rmult_assoc, Rinv_l by lra. lra.
Qed.

(** For a score between 0 and 10 and a rating from 1 to 10 the new score
    is between 0 and 10 again. *)
Lemma new_popularity_in_range p r :
  score_in_range p -> 1 <= r <= 10 ->
  is_finite (new_popularity p r) = true /\ (0 <= fval (new_popularity p r) <= 10)%R.
Proof.
  intros Hp Hr. unfold new_popularity.
  destruct (rating_part_range r Hr) as (mb & eb & Hb & Hvb). rewrite Hb.
  assert (Hzero : forall s, is_finite (round2 (fadd (S754_zero s) (S754_finite false mb eb))) = true
            /\ (0 <= fval (round2 (fadd (S754_zero s) (S754_finite false mb eb))) <= 10)%R).
  { intros s. change (fadd (S754_zero s) (S754_finite false mb eb))
      with (S754_finite false mb eb).
    apply round2_score; [right; eauto|]. cbn [fval]. lra. }
  destruct p as [s| | |[] m e]; try contradiction.
  - rewrite lit_0_9_eq. apply Hzero.
  - destruct Hp as [Hcan Hle].
    destruct (fmul_score m e Hcan Hle) as (E & Hnear & Hva).
    destruct Hnear as (k & _ & _ & _ & [Ha|(ma & ea & Ha & _)]); rewrite Ha in *.
    + apply Hzero.
    + cbn [fval] in Hva.
      destruct (fadd_score ma ea mb eb ltac:(lra)) as [Hs Hform].
      now apply round2_score.
Qed.

(** ** The popularity update *)

Lemma get_set_content_in d ct cid c c' :
  get_content_in d ct cid = Some c ->
  get_content_in (set_content_in d ct cid c') ct cid = Some c'.
Proof.
  unfold get_content_in, set_content_in.
  repeat case_decide; try discriminate; intros _; simpl; apply lookup_insert_eq.
Qed.

Lemma get_set_content_in_other d ct cid c' ct' cid' :
  ct' <> ct \/ cid' <> cid ->
  get_content_in (set_content_in d ct cid c') ct' cid' = get_content_in d ct' cid'.
Proof.
  unfold get_content_in, set_content_in. intros Hne.
  repeat case_decide; subst; simpl; try reflexivity; try congruence;
    (rewrite lookup_insert_ne; [reflexivity|]; intros ->; destruct Hne; congruence).
Qed.

Lemma popularity_post_content ct cid r w w' c :
  popularity_post ct cid r w w' (inr tt) ->
  get_content_in (db (service w)) ct cid = Some c ->
  get_content_in (db (service w')) ct cid
    = Some (mkContent (title c) (new_popularity (popularity_score c) r))
  /\ (forall ct' cid', ct' <> ct \/ cid' <> cid ->
        get_content_in (db (service w')) ct' cid' = get_content_in (db (service w)) ct' cid').
Proof.
  unfold popularity_post. intros H Hc. rewrite Hc in H.
  unfold int_mul_float in H. destruct (is_finite (float_of_int r)).
  - destruct H as [-> _]. simpl. split.
    + now apply (get_set_content_in _ _ _ c).
    + intros ct' cid' Hne. now apply get_set_content_in_other.
  - destruct H as [_ H]. discriminate.
Qed.


Lemma popularity_post_result ct cid r w w' res :
  popularity_post ct cid r w w' res ->
  is_finite (float_of_int r) = true -> res = inr tt.
Proof.
  unfold popularity_post, int_mul_float. intros H Hfin. rewrite Hfin in H.
  destruct (get_content_in _ _ _); now destruct H.
Qed.

(** C4, as the code has it: a completion that returns a report replaces the
    popularity score [p] of the session's item by
    [round(p * 0.9 + r * 0.1, 2)], the arithmetic being that of doubles,
    and leaves the title and every other item alone.  Nothing clamps the
    result; it is a finite double between 0 and 10 when [p] is between 0
    and 10 and the rating from 1 to 10.  A rating of 10 on a score of 8.0
    gives 8.2. *)
Theorem complete_updates_popularity (k : string) (r : Z) (tags : option (list string))
    (w : World) (sim : Simulation) (rep : CompletionReport) (c : Content) :
  dict_get k (sims_of w) = Some sim ->
  get_content_in (db (service w)) (sim_content_type sim) (sim_content_id sim) = Some c ->
  let out := complete_simulation k r tags w in
  out.2 = inr rep ->
  get_content_in (db (service out.1)) (sim_content_type sim) (sim_content_id sim)
    = Some (mkContent (title c)
              (round2 (fadd (fmul (popularity_score c) lit_0_9)
                            (fmul (float_of_int r) lit_0_1))))
  /\ (forall ct cid, ct <> sim_content_type sim \/ cid <> sim_content_id sim ->
        get_content_in (db (service out.1)) ct cid = get_content_in (db (service w)) ct cid)
  /\ (score_in_range (popularity_score c) -> 1 <= r <= 10 ->
      let p' := round2 (fadd (fmul (popularity_score c) lit_0_9)
                             (fmul (float_of_int r) lit_0_1)) in
      is_finite p' = true /\ (0 <= fval p' <= 10)%R)
  /\ round2 (fadd (fmul (float_of_int 8) lit_0_9) (fmul (float_of_int 10) lit_0_1))
     = int_true_div 82 10.
Proof.
  intros Hk Hc out Hrep. subst out.
  destruct (complete_success k r tags w sim rep Hk Hrep) as (row & dur & _ & _ & _ & Hpost).
  destruct (popularity_post_content _ _ _ _ _ c Hpost Hc) as [H1 H2].
  split; [exact H1|]. split; [exact H2|]. split.
  - intros Hp Hr. exact (new_popularity_in_range _ _ Hp Hr).
  - vm_compute. reflexivity.
Qed.

Lemma complete_updates_popularity_witness :
  (complete_simulation "1_book_7" 10 None sample_started).2
    = inr (mkCompletionReport "Вы завершили чтение 'Dune'!" 10 10 100)
  /\ get_content_in (db (service (complete_simulation "1_book_7" 10 None sample_started).1))
       "book" 7
     = Some (mkContent "Dune" (int_true_div 82 10))
  /\ is_finite (int_true_div 82 10) = true
  /\ (0 <= fval (int_true_div 82 10) <= 10)%R.
Proof.
  assert (H : (complete_simulation "1_book_7" 10 None sample_started).2
              = inr (mkCompletionReport "Вы завершили чтение 'Dune'!" 10 10 100))
    by (vm_compute; reflexivity).
  split; [exact H|].
  destruct (complete_updates_popularity "1_book_7" 10 None sample_started sample_session _
              (mkContent "Dune" (float_of_int 8)) sample_started_session eq_refl H)
    as (H1 & _ & Hrange & H2).
  cbn [sim_content_type sim_content_id sample_session] in H1.
  split.
  - rewrite H1. cbn [title popularity_score]. rewrite H2. reflexivity.
  - cbn [popularity_score] in Hrange. cbv zeta in Hrange. rewrite H2 in Hrange.
    apply Hrange; [|lia].
    change (float_of_int 8) with (S754_finite false 4503599627370496 (-49)).
    cbn [score_in_range]. split; [vm_compute; reflexivity|].
    unfold B2R. change (-49) with (- (49)). rewrite (pow2_neg 49) by lia.
    change (2 ^ 49) with 562949953421312. lra.
Defined.

(** A rating of 100 is stored like any other and takes the score of the
    book from 8.0 to 17.2, above 10. *)
Lemma popularity_not_clamped :
  let out := complete_simulation "1_book_7" 100 None sample_started in
  (exists rep, out.2 = inr rep)
  /\ get_content_in (db (service sample_started)) "book" 7
     = Some (mkContent "Dune" (float_of_int 8))
  /\ get_content_in (db (service out.1)) "book" 7 = Some (mkContent "Dune" (int_true_div 172 10))
  /\ flt (float_of_int 10) (int_true_div 172 10) = true.
Proof.
  cbv zeta. split_and!.
  - eexists. vm_compute. reflexivity.
  - vm_compute. reflexivity.
  - vm_compute. reflexivity.
  - vm_compute. reflexivity.
Qed.

(** ** The request layer *)

(** C7, at a rating outside 1..10: the endpoint hands the rating 11 of the
    request body to the service, which returns a report and stores 11 in the
    ledger.  Nothing between the request and the tracker bounds a rating. *)
Theorem rating_reaches_tracker_unchecked :
  let out := Api.complete_simulation "1_book_7" (Api.mkSimulationComplete 11 []) sample_started in
  (exists rep, out.2 = inr rep /\ cr_rating rep = 11)
  /\ (exists row, ledger_of out.1 !! 1 = Some row /\ rating row = Some 11)
  /\ forall k body w,
       Api.complete_simulation k body w
       = Api.except_ValueError 404
           (complete_simulation k (Api.sc_rating body) (Some (Api.sc_personal_tags body))) w.
Proof.
  cbv zeta. split_and!.
  - eexists. split; vm_compute; reflexivity.
  - eexists. split; vm_compute; reflexivity.
  - reflexivity.
Qed.

(** ** Completing without a ledger row *)

(** The whole seconds are exact: the division in doubles loses nothing. *)
Lemma whole_seconds_exact us :
  0 <= us < 2 ^ 52 -> whole_seconds us = inr (us / 1000000).
Proof.
  intros [H0 H52]. destruct (Z.eq_dec us 0) as [->|Hne]; [reflexivity|].
  assert (Hpos : 0 < us < 2 ^ 62) by lia.
  pose proof (elapsed_rounds us Hpos) as Hr.
  set (x := (IZR us / 1000000)%R) in *.
  set (n := us / 1000000).
  pose proof (Z.div_mod us 1000000 ltac:(lia)) as Hdm.
  pose proof (Z.mod_pos_bound us 1000000 ltac:(lia)) as Hmod. fold n in Hdm.
  assert (Hus : (IZR us = 1000000 * IZR n + IZR (us mod 1000000))%R).
  { rewrite <- mult_IZR, <- plus_IZR. f_equal. exact Hdm. }
  assert (Hm0 : (0 <= IZR (us mod 1000000))%R) by (apply IZR_le; lia).
  assert (Hm1 : (IZR (us mod 1000000) <= 999999)%R) by (apply IZR_le; lia).
  assert (Hx52 : (IZR us < 4503599627370496)%R) by (apply IZR_lt; exact H52).
  assert (Hxn : (IZR n <= x)%R) by (unfold x; lra).
  assert (Hxn1 : (x <= IZR n + 999999 / 1000000)%R) by (unfold x; lra).
  assert (H53 : pow2 53 = 9007199254740992%R) by (rewrite pow2_IZR by lia; reflexivity).
  pose proof (rounds_to_ge _ x n Hr ltac:(rewrite H53; unfold x; lra) Hxn) as Hge.
  destruct (rounds_to_error _ _ Hr) as [Hx0 Herr]. unfold eps in Herr.
  destruct Hr as (mf & ef & E & k & Hf & _).
  unfold whole_seconds, total_seconds. rewrite Hf in *. cbn [is_finite rbind py_int].
  cbn [fval] in Hge, Herr. f_equal.
  destruct (trunc_mag_floor mf ef) as [_ Ht].
  set (t := trunc_mag mf ef) in *. set (v := B2R (Z.pos mf) ef) in *.
  assert (Hlt1 : (IZR t < IZR (n + 1))%R) by (rewrite plus_IZR; unfold x in *; lra).
  assert (Hlt2 : (IZR n < IZR (t + 1))%R) by (rewrite plus_IZR; lra).
  apply lt_IZR in Hlt1, Hlt2. lia.
Qed.

Lemma whole_seconds_returns us :
  0 <= us < 2 ^ 62 -> exists secs, whole_seconds us = inr secs.
Proof.
  intros Hus. destruct (progress_arith us 20 Hus ltac:(lia)) as (_ & _ & secs & _ & _ & _ & H & _).
  now exists secs.
Qed.

Lemma in_integer_finite d r :
  in_integer d r = true -> is_finite (float_of_int r) = true.
Proof.
  intros Hin. apply float_of_int_finite. unfold in_integer, integer_max in Hin.
  apply andb_true_iff in Hin as [Hlo Hhi]. apply Z.leb_le in Hlo, Hhi.
  assert (H63 : 2 ^ 63 < 2 ^ 1023) by (apply Z.pow_lt_mono_r; lia).
  assert (H31 : 2 ^ 31 < 2 ^ 63) by (apply Z.pow_lt_mono_r; lia).
  destruct (dialect d); lia.
Qed.

(** A completion returns a report when the row exists and the rating and
    the duration fit the columns of the database. *)
Lemma complete_returns k r tags w sim row :
  dict_get k (sims_of w) = Some sim ->
  ledger_of w !! sim_interaction_id sim = Some row ->
  0 <= now_of w - start_time sim < 2 ^ 52 ->
  in_integer (db (service w)) r = true ->
  in_integer (db (service w)) ((now_of w - start_time sim) / 1000000) = true ->
  exists rep, (complete_simulation k r tags w).2 = inr rep.
Proof.
  intros Hk Hrow Hus Hr Hdur.
  pose proof (wp_run _ _ _ (complete_spec k r tags w sim Hk)) as H.
  unfold complete_post in H. rewrite Hrow in H.
  rewrite (duration_stored_of w sim r _ (whole_seconds_exact _ Hus) Hr Hdur) in H.
  destruct H as (ur & Hpost & Hres).
  rewrite (popularity_post_result _ _ _ _ _ _ Hpost (in_integer_finite _ r Hr)) in Hres.
  eexists. exact Hres.
Qed.

(** C10: when the ledger row of a live session is gone, completing the
    session returns no report: the session is removed from the dict, the
    popularity of the item is updated all the same, and the call then raises
    because the duration was never assigned.  Such a world is reachable (the
    row of a live session can be deleted through another endpoint).  When
    the row exists, the call returns a report, for a clock within [2^52]
    microseconds after the start and a rating and a duration that fit the
    [Integer] columns of the database. *)
Theorem complete_needs_ledger_row :
  (forall k r tags w sim,
     reachable w ->
     dict_get k (sims_of w) = Some sim ->
     ledger_of w !! sim_interaction_id sim = None ->
     let out := complete_simulation k r tags w in
     (forall rep, out.2 <> inr rep)
     /\ dict_get k (sims_of out.1) = None
     /\ ledger_of out.1 = ledger_of w
     /\ (Z.abs r < 2 ^ 1023 ->
         out.2 = inl (UnboundLocalError "actual_duration")
         /\ forall c,
              get_content_in (db (service w)) (sim_content_type sim) (sim_content_id sim)
              = Some c ->
              get_content_in (db (service out.1)) (sim_content_type sim) (sim_content_id sim)
              = Some (mkContent (title c) (new_popularity (popularity_score c) r))))
  /\ (exists k w sim,
        reachable w /\ dict_get k (sims_of w) = Some sim
        /\ ledger_of w !! sim_interaction_id sim = None)
  /\ (forall k r tags w sim row,
        reachable w ->
        dict_get k (sims_of w) = Some sim ->
        ledger_of w !! sim_interaction_id sim = Some row ->
        0 <= now_of w - start_time sim < 2 ^ 52 ->
        in_integer (db (service w)) r = true ->
        in_integer (db (service w)) ((now_of w - start_time sim) / 1000000) = true ->
        exists rep, (complete_simulation k r tags w).2 = inr rep).
Proof.
  split_and!.
  - intros k r tags w sim Hreach Hk Hrow out. subst out.
    pose proof (reachable_sessions_ok w Hreach) as [Hnd _].
    pose proof (wp_run _ _ _ (complete_spec k r tags w sim Hk)) as H.
    unfold complete_post in H. rewrite Hrow in H. destruct H as (ur & Hpost & Hres).
    split_and!.
    + intros rep Hrep. rewrite Hrep in Hres. destruct ur; discriminate.
    + rewrite (popularity_post_sims _ _ _ _ _ _ Hpost).
      cbn [sims_of set_sims service active_simulations]. now apply dict_get_del_eq.
    + now rewrite (popularity_post_ledger _ _ _ _ _ _ Hpost).
    + intros Hr.
      pose proof (popularity_post_result _ _ _ _ _ _ Hpost (float_of_int_finite r Hr)) as ->.
      split; [exact Hres|]. intros c Hc. now apply (popularity_post_content _ _ _ _ _ c Hpost).
  - exists "1_book_7", sample_orphaned, sample_session.
    split; [apply sample_orphaned_reachable|]. split; vm_compute; reflexivity.
  - intros k r tags w sim row _ Hk Hrow Hus Hr Hdur.
    now apply (complete_returns k r tags w sim row).
Qed.

Lemma complete_needs_ledger_row_witness :
  ledger_of sample_orphaned !! sim_interaction_id sample_session = None
  /\ (complete_simulation "1_book_7" 7 None sample_orphaned).2
     = inl (UnboundLocalError "actual_duration").
Proof.
  assert (Hk : dict_get "1_book_7" (sims_of sample_orphaned) = Some sample_session)
    by (vm_compute; reflexivity).
  assert (Hrow : ledger_of sample_orphaned !! sim_interaction_id sample_session = None)
    by (vm_compute; reflexivity).
  assert (Hr : Z.abs 7 < 2 ^ 1023) by (vm_compute; reflexivity).
  split; [exact Hrow|].
  apply (proj1 complete_needs_ledger_row "1_book_7" 7 None sample_orphaned sample_session
           sample_orphaned_reachable Hk Hrow). exact Hr.
Defined.

Lemma duration_stored_rating w sim r dur :
  whole_seconds (now_of w - start_time sim) = inr dur ->
  in_integer (db (service w)) r = false ->
  duration_stored w sim r = inl StatementError.
Proof.
  unfold duration_stored. intros -> Hr. cbn [rbind]. unfold storable. cbn [forallb].
  now rewrite Hr.
Qed.

(** C2: completing a live session whose ledger row exists returns a report,
    for a clock within [2^52] microseconds after the start and a rating and
    a duration that fit the [Integer] columns of the database.  Every
    completion that returns a report has set the type of the session's
    ledger row to "completed" and stored the rating in it, and has removed
    the session: on the world it leaves, progress, complete and cancel under
    the same key all fail with "not found", so completing twice succeeds
    once and then fails.  A rating that does not fit the column is refused
    by the commit: the call raises, nothing is stored and the session stays
    live. *)
Theorem complete_then_not_found (k : string) (r : Z) (tags : option (list string))
    (w : World) (sim : Simulation) :
  reachable w ->
  dict_get k (sims_of w) = Some sim ->
  let out := complete_simulation k r tags w in
  (forall row,
     ledger_of w !! sim_interaction_id sim = Some row ->
     0 <= now_of w - start_time sim < 2 ^ 52 ->
     in_integer (db (service w)) r = true ->
     in_integer (db (service w)) ((now_of w - start_time sim) / 1000000) = true ->
     exists rep, out.2 = inr rep)
  /\ (forall rep,
        out.2 = inr rep ->
        (exists row',
           ledger_of out.1 !! sim_interaction_id sim = Some row'
           /\ interaction_type row' = "completed"
           /\ rating row' = Some r
           /\ progress_percent row' = 100
           /\ completion_date row' = Some (now_of w))
        /\ cr_rating rep = r
        /\ dict_get k (sims_of out.1) = None
        /\ get_simulation_progress k out.1 = (out.1, inl (ValueError "Simulation not found"))
        /\ (forall r' tags',
              complete_simulation k r' tags' out.1
              = (out.1, inl (ValueError "Simulation not found")))
        /\ cancel_simulation k out.1 = (out.1, inl (ValueError "Simulation not found")))
  /\ (forall row,
        ledger_of w !! sim_interaction_id sim = Some row ->
        0 <= now_of w - start_time sim < 2 ^ 52 ->
        in_integer (db (service w)) r = false ->
        out.2 = inl StatementError
        /\ dict_get k (sims_of out.1) = Some sim
        /\ ledger_of out.1 = ledger_of w).
Proof.
  intros Hreach Hk out. subst out. split_and!.
  - intros row Hrow Hus Hr Hdur. now apply (complete_returns k r tags w sim row).
  - intros rep Hrep.
    pose proof (reachable_sessions_ok w Hreach) as [Hnd _].
    destruct (complete_success k r tags w sim rep Hk Hrep)
      as (row & dur & Hrow & Hdur & -> & Hpost).
    assert (Hgone : dict_get k (sims_of (complete_simulation k r tags w).1) = None).
    { rewrite (popularity_post_sims _ _ _ _ _ _ Hpost).
      cbn [sims_of set_sims service active_simulations]. now apply dict_get_del_eq. }
    split_and!.
    + exists (completed_row row r tags (now_of w) dur).
      rewrite (popularity_post_ledger _ _ _ _ _ _ Hpost).
      split_and!; try reflexivity. unfold ledger_of. simpl. apply lookup_insert_eq.
    + reflexivity.
    + exact Hgone.
    + apply (not_live _ _ Hgone).
    + apply (not_live _ _ Hgone).
    + apply (not_live _ _ Hgone).
  - intros row Hrow Hus Hr.
    pose proof (wp_run _ _ _ (complete_spec k r tags w sim Hk)) as H.
    unfold complete_post in H. rewrite Hrow in H.
    rewrite (duration_stored_rating w sim r _ (whole_seconds_exact _ Hus) Hr) in H.
    destruct H as [-> ->]. split; [reflexivity|]. split; [exact Hk|reflexivity].
Qed.

Lemma sample_rating_fits : in_integer (db (service sample_started)) 9 = true.
Proof. vm_compute. reflexivity. Qed.

Lemma sample_duration_fits :
  in_integer (db (service sample_started))
    ((now_of sample_started - start_time sample_session) / 1000000) = true.
Proof. vm_compute. reflexivity. Qed.

Lemma sample_started_elapsed :
  0 <= now_of sample_started - start_time sample_session < 2 ^ 52.
Proof. vm_compute. split; [discriminate|reflexivity]. Qed.

Lemma complete_then_not_found_witness :
  dict_get "1_book_7" (sims_of sample_started) = Some sample_session
  /\ (exists rep, (complete_simulation "1_book_7" 9 None sample_started).2 = inr rep)
  /\ dict_get "1_book_7" (sims_of (complete_simulation "1_book_7" 9 None sample_started).1)
     = None.
Proof.
  pose proof (complete_then_not_found "1_book_7" 9 None sample_started sample_session
                sample_started_reachable sample_started_session) as (Hret & Heff & _).
  assert (Hrep : exists rep, (complete_simulation "1_book_7" 9 None sample_started).2 = inr rep).
  { exact (Hret sample_row sample_started_row sample_started_elapsed sample_rating_fits
             sample_duration_fits). }
  split; [apply sample_started_session|]. split; [exact Hrep|].
  destruct Hrep as [rep Hrep]. apply (Heff rep Hrep).
Defined.

(** ** Listing the active sessions *)

Lemma same_but_events_refl s : same_but_events s s.
Proof. now destruct s. Qed.














(** * Further properties of the tracker *)

(** ** Experience points *)

(** X1: the experience for a completion is ten points per rating point
    plus a time bonus of one point per full 30 seconds, capped at 50: it is
    [10 * rating + min(q, 50)] for the floor quotient [q] of the duration
    by 30, the one integer with [30 * q <= duration < 30 * q + 30].  For a
    duration that is not negative it lies between [10 * rating] and
    [10 * rating + 50]; the cap is reached exactly from 1500 seconds on; a
    negative duration gives less than [10 * rating], since [//] rounds
    down; and the experience grows with the duration and with the
    rating. *)
Theorem calculate_experience_bounds (rating duration : Z) :
  (exists q,
     30 * q <= duration < 30 * q + 30
     /\ calculate_experience rating duration = 10 * rating + Z.min q 50)
  /\ (0 <= duration ->
      10 * rating <= calculate_experience rating duration <= 10 * rating + 50)
  /\ (calculate_experience rating duration = 10 * rating + 50 <-> 1500 <= duration)
  /\ (duration < 0 -> calculate_experience rating duration < 10 * rating)
  /\ (forall d', duration <= d' ->
        calculate_experience rating duration <= calculate_experience rating d')
  /\ (forall r', rating < r' ->
        calculate_experience rating duration < calculate_experience r' duration).
Proof.
  unfold calculate_experience. cbv zeta.
  assert (Hq : forall d, 30 * (d / 30) <= d < 30 * (d / 30) + 30).
  { intros d. pose proof (Z.div_mod d 30 ltac:(lia)).
    pose proof (Z.mod_pos_bound d 30 ltac:(lia)). lia. }
  pose proof (Hq duration) as Hd.
  split_and!.
  - exists (duration / 30). split; [exact Hd|lia].
  - intros H0. lia.
  - split; intros H; lia.
  - intros Hneg. lia.
  - intros d' Hle. pose proof (Hq d') as Hd'. lia.
  - intros r' Hr. lia.
Qed.

(** ** Cancelling *)

Lemma dict_del_set_absent {V} (k : string) (v : V) d :
  dict_get k d = None -> dict_del k (dict_set k v d) = d.
Proof.
  induction d as [|[k0 v0] d IH]; simpl.
  - intros _. now rewrite decide_True.
  - destruct (decide (k = k0)) as [->|Hne]; [discriminate|].
    intros H. simpl. rewrite decide_False by assumption. now rewrite IH.
Qed.

(** X4: cancelling a live session succeeds in every world, whether or not
    its ledger row exists: it returns the message, removes the session's key
    and no other, leaves the catalog alone and draws no random number.
    Without a ledger row it writes nothing to the ledger and does not read
    the clock; with one it reads the clock once. *)
Theorem cancel_always_succeeds (k : string) (w : World) (sim : Simulation) :
  dict_get k (sims_of w) = Some sim ->
  let out := cancel_simulation k w in
  out.2 = inr (mkCancelReport
                 ("Вы прекратили " +:+ get_action_verb (sim_content_type sim) +:+ " '"
                    +:+ sim_content_title sim +:+ "'"))
  /\ sims_of out.1 = dict_del k (sims_of w)
  /\ (forall k', k' <> k -> dict_get k' (sims_of out.1) = dict_get k' (sims_of w))
  /\ books (db (service out.1)) = books (db (service w))
  /\ movies (db (service out.1)) = movies (db (service w))
  /\ games (db (service out.1)) = games (db (service w))
  /\ entropy_pos out.1 = entropy_pos w
  /\ (ledger_of w !! sim_interaction_id sim = None ->
      ledger_of out.1 = ledger_of w /\ clock_pos out.1 = clock_pos w)
  /\ (is_Some (ledger_of w !! sim_interaction_id sim) ->
      clock_pos out.1 = S (clock_pos w)).
Proof.
  intros Hk out. subst out. rewrite (cancel_spec k w sim Hk).
  destruct (ledger_of w !! sim_interaction_id sim) as [row|] eqn:Hrow; cbn [fst snd].
  - split_and!; try reflexivity.
    + intros k' Hne. apply dict_get_del_ne. congruence.
    + discriminate.
  - split_and!; try reflexivity.
    + intros k' Hne. apply dict_get_del_ne. congruence.
    + intros _. split; reflexivity.
    + intros [x Hx]. discriminate.
Qed.

Lemma cancel_always_succeeds_witness :
  (cancel_simulation "1_book_7" sample_orphaned).2
  = inr (mkCancelReport "Вы прекратили чтение 'Dune'")
  /\ sims_of (cancel_simulation "1_book_7" sample_orphaned).1 = [].
Proof.
  assert (Hk : dict_get "1_book_7" (sims_of sample_orphaned) = Some sample_session)
    by (vm_compute; reflexivity).
  destruct (cancel_always_succeeds "1_book_7" sample_orphaned sample_session Hk)
    as (H1 & H2 & _).
  split; [exact H1|]. rewrite H2. vm_compute. reflexivity.
Defined.

(** ** What a completion leaves alone *)

Lemma popularity_post_catalog_only ct cid r w w' res :
  popularity_post ct cid r w w' res ->
  sims_of w' = sims_of w /\ ledger_of w' = ledger_of w
  /\ clock w' = clock w /\ clock_pos w' = clock_pos w
  /\ entropy w' = entropy w /\ entropy_pos w' = entropy_pos w.
Proof.
  intros H. split; [exact (popularity_post_sims _ _ _ _ _ _ H)|].
  split; [exact (popularity_post_ledger _ _ _ _ _ _ H)|].
  exact (popularity_post_tapes _ _ _ _ _ _ H).
Qed.

(** X5: a completion that returns a report removes the session's key and
    no other, rewrites the session's ledger row and no other, and keeps the
    identity columns and the start date of that row; the duration in the
    row is the duration of the report, the experience of the report is
    [calculate_experience] of the rating and that duration; the call reads
    the clock once and draws no random number. *)
Theorem complete_simulation_frame (k : string) (r : Z) (tags : option (list string))
    (w : World) (sim : Simulation) (rep : CompletionReport) :
  dict_get k (sims_of w) = Some sim ->
  (complete_simulation k r tags w).2 = inr rep ->
  let w' := (complete_simulation k r tags w).1 in
  sims_of w' = dict_del k (sims_of w)
  /\ (forall k', k' <> k -> dict_get k' (sims_of w') = dict_get k' (sims_of w))
  /\ (forall i, i <> sim_interaction_id sim -> ledger_of w' !! i = ledger_of w !! i)
  /\ (exists row row',
        ledger_of w !! sim_interaction_id sim = Some row
        /\ ledger_of w' !! sim_interaction_id sim = Some row'
        /\ simulation_duration row' = Some (cr_duration rep)
        /\ interaction_id row' = interaction_id row
        /\ user_id row' = user_id row
        /\ content_type row' = content_type row
        /\ content_id row' = content_id row
        /\ start_date row' = start_date row)
  /\ cr_experience_gained rep = calculate_experience r (cr_duration rep)
  /\ cr_message rep
     = "Вы завершили " +:+ get_action_verb (sim_content_type sim) +:+ " '"
         +:+ sim_content_title sim +:+ "'!"
  /\ clock w' = clock w /\ clock_pos w' = S (clock_pos w)
  /\ entropy w' = entropy w /\ entropy_pos w' = entropy_pos w.
Proof.
  intros Hk Hrep w'. subst w'.
  destruct (complete_success k r tags w sim rep Hk Hrep) as (row & dur & Hrow & _ & -> & Hpost).
  destruct (popularity_post_catalog_only _ _ _ _ _ _ Hpost)
    as (Hs & Hl & Hc & Hcp & He & Hep).
  split_and!.
  - rewrite Hs. reflexivity.
  - intros k' Hne. rewrite Hs. cbn [sims_of set_sims service active_simulations].
    apply dict_get_del_ne. congruence.
  - intros i Hi. rewrite Hl. unfold ledger_of at 1. simpl.
    now rewrite lookup_insert_ne by congruence.
  - exists row, (completed_row row r tags (now_of w) dur).
    split; [exact Hrow|]. split; [|easy].
    rewrite Hl. unfold ledger_of at 1. simpl. now rewrite lookup_insert_eq.
  - reflexivity.
  - reflexivity.
  - rewrite Hc. reflexivity.
  - rewrite Hcp. reflexivity.
  - rewrite He. reflexivity.
  - rewrite Hep. reflexivity.
Qed.

Lemma complete_simulation_frame_witness :
  sims_of (complete_simulation "1_book_7" 9 None sample_started).1 = []
  /\ cr_experience_gained (mkCompletionReport "Вы завершили чтение 'Dune'!" 9 10 90) = 90.
Proof.
  assert (Hk : dict_get "1_book_7" (sims_of sample_started) = Some sample_session)
    by (vm_compute; reflexivity).
  assert (H : (complete_simulation "1_book_7" 9 None sample_started).2
              = inr (mkCompletionReport "Вы завершили чтение 'Dune'!" 9 10 90))
    by (vm_compute; reflexivity).
  destruct (complete_simulation_frame "1_book_7" 9 None sample_started sample_session _ Hk H)
    as (H1 & _ & _ & _ & H2 & _).
  split; [rewrite H1; vm_compute; reflexivity|]. rewrite H2. vm_compute. reflexivity.
Defined.

(** ** Personal tags *)

Lemma merge_tags_spec (existing personal : list string) :
  NoDup (merge_tags existing personal)
  /\ forall t, In t (merge_tags existing personal) <-> In t existing \/ In t personal.
Proof.
  unfold merge_tags. split; [apply NoDup_remove_dups|].
  intros t. rewrite <- !list_elem_of_In, elem_of_remove_dups, elem_of_app. reflexivity.
Qed.

(** X6: a completion that returns a report and was given a non-empty list
    of personal tags leaves in the ledger row each tag the row had and each
    personal tag, each once and nothing else; given no tags or an empty
    list it leaves the tags of the row as they were. *)
Theorem completion_merges_tags (k : string) (r : Z) (tags : option (list string))
    (w : World) (sim : Simulation) (rep : CompletionReport) :
  dict_get k (sims_of w) = Some sim ->
  (complete_simulation k r tags w).2 = inr rep ->
  exists row row',
    ledger_of w !! sim_interaction_id sim = Some row
    /\ ledger_of (complete_simulation k r tags w).1 !! sim_interaction_id sim = Some row'
    /\ match tags with
       | None | Some [] => tags_extracted row' = tags_extracted row
       | Some personal =>
           NoDup (tags_extracted row')
           /\ forall t, In t (tags_extracted row')
                        <-> In t (tags_extracted row) \/ In t personal
       end.
Proof.
  intros Hk Hrep.
  destruct (complete_success k r tags w sim rep Hk Hrep) as (row & dur & Hrow & _ & _ & Hpost).
  exists row, (completed_row row r tags (now_of w) dur).
  split; [exact Hrow|]. split.
  - rewrite (popularity_post_ledger _ _ _ _ _ _ Hpost). unfold ledger_of at 1. simpl.
    now rewrite lookup_insert_eq.
  - destruct tags as [[|t ts]|]; [reflexivity| |reflexivity].
    cbn [completed_row tags_extracted]. apply merge_tags_spec.
Qed.

Lemma completion_merges_tags_witness :
  exists row',
    ledger_of (complete_simulation "1_book_7" 9 (Some ["epic"; "epic"]) sample_started).1 !! 1
    = Some row'
    /\ NoDup (tags_extracted row') /\ In "epic" (tags_extracted row').
Proof.
  assert (Hk : dict_get "1_book_7" (sims_of sample_started) = Some sample_session)
    by (vm_compute; reflexivity).
  assert (H : (complete_simulation "1_book_7" 9 (Some ["epic"; "epic"]) sample_started).2
              = inr (mkCompletionReport "Вы завершили чтение 'Dune'!" 9 10 90))
    by (vm_compute; reflexivity).
  destruct (completion_merges_tags "1_book_7" 9 (Some ["epic"; "epic"]) sample_started
              sample_session _ Hk H) as (row & row' & _ & Hrow' & Hnd & Hin).
  exists row'. split; [exact Hrow'|]. split; [exact Hnd|].
  apply Hin. right. now left.
Defined.

(** ** The percentage in the ledger *)

(** X7: a progress call that returns a report stores the reported
    percentage in the [progress_percent] of the session's ledger row and
    changes nothing else in the ledger; if the row is missing the ledger
    stays as it was and the report is returned all the same.  The catalog
    is untouched, the title of the report is the title of the session, and
    the clock is read once. *)
Theorem progress_stores_percentage (k : string) (w : World) (sim : Simulation)
    (rep : ProgressReport) :
  dict_get k (sims_of w) = Some sim ->
  (get_simulation_progress k w).2 = inr rep ->
  let w' := (get_simulation_progress k w).1 in
  match ledger_of w !! sim_interaction_id sim with
  | Some row =>
      ledger_of w'
      = <[sim_interaction_id sim := with_progress row (pr_progress rep)]> (ledger_of w)
  | None => ledger_of w' = ledger_of w
  end
  /\ books (db (service w')) = books (db (service w))
  /\ movies (db (service w')) = movies (db (service w))
  /\ games (db (service w')) = games (db (service w))
  /\ pr_content_title rep = sim_content_title sim
  /\ pr_completed rep = (100 <=? pr_progress rep)
  /\ clock_pos w' = S (clock_pos w).
Proof.
  intros Hk Hrep w'. subst w'.
  pose proof (wp_run _ _ _ (progress_spec k w sim Hk)) as H. cbv beta in H.
  destruct H as (_ & Hcp & _ & Hb & Hm & Hg & H).
  rewrite Hrep in H.
  destruct (progress_stored _ _) as [e|p]; [destruct H as [H _]; discriminate|].
  destruct H as (Hl & Hr & _). destruct (Hr rep eq_refl) as (Hp & Hc & Ht & _).
  split_and!; try assumption.
  - rewrite Hl, Hp. unfold store_progress.
    destruct (ledger_of w !! sim_interaction_id sim); reflexivity.
  - now rewrite Hc, Hp.
Qed.

(** ** The exceptions a request can end in *)

Lemma iter_pos_invariant {T} (P : T -> Prop) (f : T -> T) :
  (forall x, P x -> P (f x)) -> forall n x, P x -> P (SpecFloat.iter_pos f n x).
Proof.
  intros Hf. induction n as [n IH|n IH|]; intros x Hx; simpl; auto.
Qed.

Lemma shr_1_nonneg mrs : 0 <= shr_m mrs -> 0 <= shr_m (shr_1 mrs).
Proof.
  destruct mrs as [m r s]. simpl. destruct m as [|[p|p|]|p]; simpl; lia.
Qed.

Lemma shr_fexp_nonneg m e l : 0 <= m -> 0 <= shr_m (shr_fexp 53 1024 m e l).1.
Proof.
  intros Hm. unfold shr_fexp, shr.
  assert (H0 : 0 <= shr_m (shr_record_of_loc m l)) by (destruct l as [|[]]; simpl; exact Hm).
  destruct (fexp 53 1024 (Zdigits2 m + e) - e); simpl; try exact H0.
  apply (iter_pos_invariant (fun mrs => 0 <= shr_m mrs)); [apply shr_1_nonneg|exact H0].
Qed.

Lemma binary_round_aux_not_nan sx m e l :
  0 <= m -> binary_round_aux 53 1024 sx m e l <> S754_nan.
Proof.
  intros Hm. unfold binary_round_aux.
  pose proof (shr_fexp_nonneg m e l Hm) as H1.
  destruct (shr_fexp 53 1024 m e l) as [mrs e']. simpl in H1.
  assert (H2 : 0 <= round_nearest_even (shr_m mrs) (loc_of_shr_record mrs)).
  { unfold round_nearest_even. destruct (loc_of_shr_record mrs) as [|[]]; try lia.
    destruct (IntDef.Z.even (shr_m mrs)); lia. }
  pose proof (shr_fexp_nonneg _ e' loc_Exact H2) as H3.
  destruct (shr_fexp 53 1024 _ e' loc_Exact) as [mrs' e'']. simpl in H3.
  destruct (shr_m mrs'); [discriminate| |lia].
  destruct (e'' <=? 1024 - 53); discriminate.
Qed.

Lemma fdiv_not_nan x y :
  is_finite x = true -> is_finite y = true -> is_zero y = false -> fdiv x y <> S754_nan.
Proof.
  unfold fdiv, SFdiv.
  destruct x as [sx| | |sx mx ex]; destruct y as [sy| | |sy my ey]; try discriminate.
  intros _ _ _.
  change prec with 53. change emax with 1024.
  unfold SFdiv_core_binary.
  set (m' := match _ - _ - _ with 0 => Z.pos mx | Z.pos _ => _ | Z.neg _ => 0 end).
  assert (Hm' : 0 <= m').
  { unfold m'. destruct (_ - _ - _); try lia. apply Z.shiftl_nonneg. lia. }
  pose proof (Z.div_pos m' (Z.pos my) Hm' ltac:(lia)) as Hq.
  change IntDef.Z.div_eucl with Z.div_eucl.
  unfold Z.div in Hq. destruct (Z.div_eucl m' (Z.pos my)) as [q r].
  now apply binary_round_aux_not_nan.
Qed.

Lemma fmul_not_nan x y :
  x <> S754_nan -> is_finite y = true -> is_zero y = false -> fmul x y <> S754_nan.
Proof.
  unfold fmul, SFmul.
  destruct x as [sx|sx| |sx mx ex]; destruct y as [sy| | |sy my ey]; try discriminate;
    try congruence.
  intros _ _ _. change prec with 53. change emax with 1024.
  apply binary_round_aux_not_nan. lia.
Qed.

Lemma whole_seconds_errors us e : whole_seconds us = inl e -> e = OverflowError.
Proof.
  unfold whole_seconds, total_seconds.
  destruct (is_finite (int_true_div us 1000000)) eqn:Hfin; cbn [rbind].
  - destruct (py_int_finite _ Hfin) as [n ->]. discriminate.
  - now intros [= <-].
Qed.

Lemma progress_of_errors us total e :
  progress_of us total = inl e -> e = OverflowError \/ e = ZeroDivisionError.
Proof.
  unfold progress_of, scaled_ratio, total_seconds, float_div_int, float_mul_int.
  destruct (is_finite (int_true_div us 1000000)) eqn:Hfin; cbn [rbind];
    [|intros [= <-]; now left].
  destruct (is_finite (float_of_int total)) eqn:Hft; cbn [rbind];
    [|intros [= <-]; now left].
  destruct (is_zero (float_of_int total)) eqn:Hzt; cbn [rbind];
    [intros [= <-]; now right|].
  destruct (is_finite (float_of_int 100)) eqn:Hf100; cbn [rbind];
    [|intros [= <-]; now left].
  pose proof (fdiv_not_nan _ _ Hfin Hft Hzt) as Hr.
  pose proof (fmul_not_nan _ (float_of_int 100) Hr Hf100 eq_refl) as Hs.
  destruct (fmul _ _) as [s|s| |s m ex]; cbn [py_int rbind]; try discriminate;
    [intros [= <-]; now left|congruence].
Qed.

(** The outcome of a progress call on a live session. *)
Lemma progress_outcome k w sim :
  dict_get k (sims_of w) = Some sim ->
  match (get_simulation_progress k w).2 with
  | inr _ => True
  | inl e => e = StatementError
             \/ (e = OverflowError \/ e = ZeroDivisionError
                 \/ e = IndexError \/ exists key, e = KeyError key)
  end.
Proof.
  intros Hk.
  apply (wp_run (get_simulation_progress k) w (fun _ r =>
    match r with
    | inr _ => True
    | inl e => e = StatementError
               \/ (e = OverflowError \/ e = ZeroDivisionError
                   \/ e = IndexError \/ exists key, e = KeyError key)
    end)).
  unfold get_simulation_progress. wp_steps. rewrite Hk. wp_steps.
  pose proof (progress_of_errors (now_of w - start_time sim) (total_time sim)) as Herr.
  pose proof (whole_seconds_errors (now_of w - start_time sim)) as Hsec.
  unfold progress_of, scaled_ratio, whole_seconds in Herr, Hsec.
  destruct (total_seconds _) as [e|elapsed]; cbn [rbind] in *;
    [destruct (Herr e eq_refl) as [->| ->]; auto 8|]. wp_steps.
  destruct (float_div_int _ _) as [e|ratio]; cbn [rbind] in *;
    [destruct (Herr e eq_refl) as [->| ->]; auto 8|]. wp_steps.
  destruct (float_mul_int _ _) as [e|scaled]; cbn [rbind] in *;
    [destruct (Herr e eq_refl) as [->| ->]; auto 8|]. wp_steps.
  destruct (py_int scaled) as [e|whole]; cbn [rbind] in *;
    [destruct (Herr e eq_refl) as [->| ->]; auto 8|]. wp_steps.
  assert (Hend : match py_int elapsed with
                 | inl e => e = StatementError
                            \/ (e = OverflowError \/ e = ZeroDivisionError
                                \/ e = IndexError \/ exists key, e = KeyError key)
                 | inr _ => True
                 end).
  { destruct (py_int elapsed) as [e|secs]; [|exact I]. right. left. now apply Hsec. }
  apply (wp_mono _ _ (fun _ r => r = inr tt \/ r = inl StatementError)).
  2:{ destruct (ledger_of (tick w) !! sim_interaction_id sim); wp_steps; [|now left].
      destruct (storable _ _); auto. }
  intros w' r [->| ->]; [|now left]. wp_steps.
  destruct ((20 <? 100 `min` whole) && (Z.of_nat (length (events sim)) <? 3));
    [|wp_steps; destruct (py_int elapsed); [exact Hend|wp_steps; exact I]].
  unfold random_random. wp_steps.
  destruct (flt _ lit_0_3);
    [|wp_steps; destruct (py_int elapsed); [exact Hend|wp_steps; exact I]].
  wp_steps. unfold subscript.
  destruct (dict_get (sim_content_type sim) SIMULATION_EVENTS) as [pool|];
    [|wp_steps; right; right; right; right; eauto].
  wp_steps. unfold random_choice. destruct pool as [|x pool']; [wp_steps; auto 8|].
  wp_steps. destruct (_ !! _); wp_steps; [|auto 8].
  destruct (py_int elapsed); [exact Hend|wp_steps; exact I].
Qed.

Lemma int_mul_float_errors n x e : int_mul_float n x = inl e -> e = OverflowError.
Proof.
  unfold int_mul_float. destruct (is_finite (float_of_int n)); [discriminate|].
  now intros [= <-].
Qed.

Lemma popularity_post_errors ct cid r w w' e :
  popularity_post ct cid r w w' (inl e) -> e = OverflowError.
Proof.
  unfold popularity_post. destruct (get_content_in _ _ _) as [c|]; [|intros [_ H]; discriminate].
  destruct (int_mul_float r lit_0_1) as [e'|x] eqn:Hm; intros [_ H]; [|discriminate].
  injection H as <-. exact (int_mul_float_errors _ _ _ Hm).
Qed.

(** The outcome of a completion of a live session. *)
Lemma complete_outcome k r tags w sim :
  dict_get k (sims_of w) = Some sim ->
  match (complete_simulation k r tags w).2 with
  | inr _ => True
  | inl e => e = StatementError
             \/ (e = OverflowError \/ e = UnboundLocalError "actual_duration")
  end.
Proof.
  intros Hk. pose proof (wp_run _ _ _ (complete_spec k r tags w sim Hk)) as H.
  unfold complete_post in H.
  destruct ((complete_simulation k r tags w).2) as [e|rep]; [|exact I].
  destruct (ledger_of w !! sim_interaction_id sim) as [row|].
  - destruct (duration_stored _ _ _) as [e'|dur] eqn:Hsec.
    + destruct H as [[= ->] _].
      destruct (duration_stored_inl _ _ _ _ Hsec) as [Hws|[-> _]]; [|now left].
      right. left. exact (whole_seconds_errors _ _ Hws).
    + destruct H as ([e'|[]] & Hpost & Hr); [|discriminate].
      injection Hr as ->. right. left. exact (popularity_post_errors _ _ _ _ _ _ Hpost).
  - destruct H as ([e'|[]] & Hpost & Hr); injection Hr as ->; [|now right; right].
    right. left. exact (popularity_post_errors _ _ _ _ _ _ Hpost).
Qed.

Lemma except_ValueError_other {A} (status : Z) (c : M A) w :
  (forall msg, (c w).2 <> inl (ValueError msg)) ->
  Api.except_ValueError status c w = c w.
Proof.
  unfold Api.except_ValueError. destruct (c w) as [w' [[]|a]]; simpl; try reflexivity.
  intros H. now destruct (H msg).
Qed.

(** X2: the three endpoints that take a session id answer HTTP 404
    "Simulation not found" and change nothing when the session is not live;
    for a live session they do what the tracker does and never answer with
    an HTTP exception; and no [ValueError] leaves an endpoint. *)
Theorem endpoint_not_found_iff (k : string) (w : World) :
  (dict_get k (sims_of w) = None ->
     Api.get_simulation_progress k w
     = (w, inl (HTTPException 404 "Simulation not found"))
     /\ (forall body,
           Api.complete_simulation k body w
           = (w, inl (HTTPException 404 "Simulation not found")))
     /\ Api.cancel_simulation k w
        = (w, inl (HTTPException 404 "Simulation not found")))
  /\ (is_Some (dict_get k (sims_of w)) ->
      Api.get_simulation_progress k w = get_simulation_progress k w
      /\ (forall body,
            Api.complete_simulation k body w
            = complete_simulation k (Api.sc_rating body) (Some (Api.sc_personal_tags body)) w)
      /\ Api.cancel_simulation k w = cancel_simulation k w
      /\ forall status detail,
           (Api.get_simulation_progress k w).2 <> inl (HTTPException status detail)
           /\ (forall body,
                 (Api.complete_simulation k body w).2 <> inl (HTTPException status detail))
           /\ (Api.cancel_simulation k w).2 <> inl (HTTPException status detail))
  /\ (forall msg,
        (Api.get_simulation_progress k w).2 <> inl (ValueError msg)
        /\ (forall body, (Api.complete_simulation k body w).2 <> inl (ValueError msg))
        /\ (Api.cancel_simulation k w).2 <> inl (ValueError msg)).
Proof.
  assert (Hlive : is_Some (dict_get k (sims_of w)) ->
            (forall msg, (get_simulation_progress k w).2 <> inl (ValueError msg))
            /\ (forall r tags msg, (complete_simulation k r tags w).2 <> inl (ValueError msg))
            /\ (forall msg, (cancel_simulation k w).2 <> inl (ValueError msg))
            /\ (forall s d, (get_simulation_progress k w).2 <> inl (HTTPException s d))
            /\ (forall r tags s d, (complete_simulation k r tags w).2 <> inl (HTTPException s d))
            /\ (forall s d, (cancel_simulation k w).2 <> inl (HTTPException s d))).
  { intros [sim Hk].
    pose proof (progress_outcome k w sim Hk) as Hp.
    pose proof (fun r tags => complete_outcome k r tags w sim Hk) as Hc.
    pose proof (cancel_spec k w sim Hk) as Hx.
    split_and!.
    - intros msg Heq. rewrite Heq in Hp. destruct Hp as [?|[?|[?|[?|[? ?]]]]]; discriminate.
    - intros r tags msg Heq. specialize (Hc r tags). rewrite Heq in Hc.
      destruct Hc as [?|[?|?]]; discriminate.
    - intros msg. rewrite Hx. discriminate.
    - intros s d Heq. rewrite Heq in Hp. destruct Hp as [?|[?|[?|[?|[? ?]]]]]; discriminate.
    - intros r tags s d Heq. specialize (Hc r tags). rewrite Heq in Hc.
      destruct Hc as [?|[?|?]]; discriminate.
    - intros s d. rewrite Hx. discriminate. }
  split_and!.
  - intros Hk. destruct (not_live k w Hk) as (Hp & Hc & Hx).
    unfold Api.get_simulation_progress, Api.complete_simulation, Api.cancel_simulation,
      Api.except_ValueError.
    rewrite Hp, Hx. split_and!; try reflexivity. intros body. now rewrite Hc.
  - intros Hk. destruct (Hlive Hk) as (Hp & Hc & Hx & Hp' & Hc' & Hx').
    assert (E1 : Api.get_simulation_progress k w = get_simulation_progress k w)
      by (apply except_ValueError_other; exact Hp).
    assert (E2 : forall body, Api.complete_simulation k body w
              = complete_simulation k (Api.sc_rating body) (Some (Api.sc_personal_tags body)) w)
      by (intros body; apply except_ValueError_other; apply Hc).
    assert (E3 : Api.cancel_simulation k w = cancel_simulation k w)
      by (apply except_ValueError_other; exact Hx).
    split_and!; try assumption.
    intros s d. rewrite E1, E3. split_and!; [apply Hp'| |apply Hx'].
    intros body. rewrite E2. apply Hc'.
  - intros msg.
    assert (Hno : forall A (c : M A), (Api.except_ValueError 404 c w).2 <> inl (ValueError msg)).
    { intros A c. unfold Api.except_ValueError. destruct (c w) as [w' [[]|a]]; discriminate. }
    split_and!; [apply Hno| |apply Hno]. intros body. apply Hno.
Qed.

(** X3: the start endpoint answers HTTP 400 with the detail "Content not
    found: <type> <id>" and changes nothing when the item is not a row of
    the catalog table of its content type, which is always the case for a
    content type other than book, movie and game; otherwise it returns what
    the tracker returns, with the key of the triple, the title of the item
    and the start message.  No [ValueError] and no [KeyError] leaves the
    endpoint. *)
Theorem start_endpoint_outcome (u : Z) (body : Api.SimulationStart) (w : World) :
  let ct := Api.ss_content_type body in
  let cid := Api.ss_content_id body in
  let out := Api.start_simulation u body w in
  ((~ exists c, in_catalog (db (service w)) ct cid c) ->
     out = (w, inl (HTTPException 400
                      ("Content not found: " +:+ ct +:+ " " +:+ pretty cid))))
  /\ (forall c, in_catalog (db (service w)) ct cid c ->
        out = start_simulation u ct cid w
        /\ exists res,
             out.2 = inr res
             /\ sr_simulation_id res = simulation_key u ct cid
             /\ sr_content_title res = title c
             /\ sr_message res
                = "Начинаем " +:+ get_action_verb ct +:+ " '" +:+ title c +:+ "'!")
  /\ (ct <> "book" -> ct <> "movie" -> ct <> "game" ->
      ~ exists c, in_catalog (db (service w)) ct cid c)
  /\ (forall msg, out.2 <> inl (ValueError msg))
  /\ (forall key, out.2 <> inl (KeyError key)).
Proof.
  intros ct cid out. subst out. unfold Api.start_simulation. fold ct cid.
  pose proof (wp_run _ _ _ (start_spec u ct cid w)) as H. unfold start_post in H.
  assert (Hsp : start_simulation u ct cid w
                = ((start_simulation u ct cid w).1, (start_simulation u ct cid w).2))
    by apply surjective_pairing.
  split_and!.
  - intros Hc. apply not_in_catalog_get in Hc. rewrite Hc in H. destruct H as [H1 H2].
    unfold Api.except_ValueError. rewrite Hsp, H1, H2. reflexivity.
  - intros c Hc. apply in_catalog_get in Hc. rewrite Hc in H.
    destruct H as (a & b & _ & _ & H1 & H2).
    cbv zeta in H1, H2. split.
    + unfold Api.except_ValueError. rewrite Hsp, H2. reflexivity.
    + eexists. split.
      * unfold Api.except_ValueError. rewrite Hsp, H2. reflexivity.
      * split_and!; reflexivity.
  - intros H1 H2 H3 [c Hc]. inversion Hc; congruence.
  - intros msg. unfold Api.except_ValueError.
    destruct (start_simulation u ct cid w) as [w' [[]|a]]; discriminate.
  - intros key. unfold Api.except_ValueError.
    destruct (get_content_in (db (service w)) ct cid) as [c|].
    + destruct H as (a & b & _ & _ & _ & H2). rewrite Hsp, H2. discriminate.
    + destruct H as [_ H2]. rewrite Hsp, H2. discriminate.
Qed.

Lemma start_endpoint_outcome_witness :
  Api.start_simulation 1 (Api.mkSimulationStart "book" 8) sample_world
  = (sample_world, inl (HTTPException 400 "Content not found: book 8"))
  /\ exists res,
       (Api.start_simulation 1 (Api.mkSimulationStart "book" 7) sample_world).2 = inr res
       /\ sr_content_title res = "Dune".
Proof.
  split.
  - destruct (start_endpoint_outcome 1 (Api.mkSimulationStart "book" 8) sample_world)
      as (H & _).
    exact (H sample_book_8).
  - destruct (start_endpoint_outcome 1 (Api.mkSimulationStart "book" 7) sample_world)
      as (_ & H & _).
    destruct (H _ sample_book_7) as (_ & res & Hres & _ & Ht & _).
    exists res. split; [exact Hres|exact Ht].
Defined.

(** ** Starting and cancelling *)

(** X10: starting a session for a triple that has no live session and
    cancelling it right away gives back the dict of live sessions as it
    was.  The ledger has exactly one more row, under a key that was free:
    type "dropped", progress 0, no rating, the first clock reading as start
    date and the third as completion date.  The catalog is untouched. *)
Theorem start_then_cancel (u : Z) (ct : string) (cid : Z) (w : World) (c : Content) :
  get_content_in (db (service w)) ct cid = Some c ->
  dict_get (simulation_key u ct cid) (sims_of w) = None ->
  let started := start_simulation u ct cid w in
  let out := cancel_simulation (simulation_key u ct cid) started.1 in
  (exists res, started.2 = inr res /\ sr_simulation_id res = simulation_key u ct cid
               /\ sr_interaction_id res = fresh_key (ledger_of w))
  /\ (exists rep, out.2 = inr rep)
  /\ sims_of out.1 = sims_of w
  /\ ledger_of out.1
     = <[fresh_key (ledger_of w) :=
           mkUserInteraction (fresh_key (ledger_of w)) u ct cid "dropped" None 0
             (Some (clock w (clock_pos w))) (Some (clock w (S (S (clock_pos w)))))
             None []]> (ledger_of w)
  /\ ledger_of w !! fresh_key (ledger_of w) = None
  /\ books (db (service out.1)) = books (db (service w))
  /\ movies (db (service out.1)) = movies (db (service w))
  /\ games (db (service out.1)) = games (db (service w)).
Proof.
  intros Hc Hfree started out. subst started out.
  pose proof (wp_run _ _ _ (start_spec u ct cid w)) as H. unfold start_post in H.
  rewrite Hc in H. destruct H as (a & b & Hab & Hle & Hw & Hres). cbv zeta in Hw, Hres.
  set (key := simulation_key u ct cid) in *. set (i := fresh_key (ledger_of w)) in *.
  set (t := a + draw_of w mod (b - a + 1)) in *.
  set (sim := mkSimulation i u ct cid (title c) (now_of (tick w)) t []) in *.
  rewrite Hw, Hres.
  set (w1 := drawn (tick (set_sims (dict_set key sim (sims_of w))
                (set_ledger (<[i := started_row i u ct cid (now_of w)]> (ledger_of w))
                   (tick w))))).
  assert (Hk : dict_get key (sims_of w1) = Some sim) by apply dict_get_set_eq.
  rewrite (cancel_spec key w1 sim Hk).
  assert (Hrow : ledger_of w1 !! sim_interaction_id sim
                 = Some (started_row i u ct cid (now_of w))).
  { unfold w1, ledger_of. simpl. apply lookup_insert_eq. }
  rewrite Hrow. cbn [fst snd].
  split_and!; try reflexivity.
  - eexists. split; [reflexivity|]. split; reflexivity.
  - eexists. reflexivity.
  - cbn [sims_of set_sims service active_simulations].
    change (active_simulations (service w1)) with (dict_set key sim (sims_of w)).
    now apply dict_del_set_absent.
  - unfold ledger_of at 1. simpl.
    change (ledger_of w1) with (<[i := started_row i u ct cid (now_of w)]> (ledger_of w)).
    rewrite insert_insert_eq. reflexivity.
  - apply fresh_key_fresh.
Qed.

Lemma start_then_cancel_witness :
  sims_of (cancel_simulation (simulation_key 1 "book" 7)
             (start_simulation 1 "book" 7 sample_world).1).1 = []
  /\ exists row,
       ledger_of (cancel_simulation (simulation_key 1 "book" 7)
                    (start_simulation 1 "book" 7 sample_world).1).1 !! 1 = Some row
       /\ interaction_type row = "dropped".
Proof.
  destruct (start_then_cancel 1 "book" 7 sample_world (mkContent "Dune" (float_of_int 8))
              eq_refl eq_refl) as (_ & _ & Hs & Hl & _).
  split; [rewrite Hs; reflexivity|].
  eexists. split; [rewrite Hl; apply lookup_insert_eq|reflexivity].
Defined.

(** ** Session keys *)

Lemma occurs_app c a r : occurs c (a +:+ String c r) = true.
Proof.
  induction a as [|c' a IH]; simpl.
  - now rewrite decide_True.
  - destruct (decide (c = c')); [reflexivity|exact IH].
Qed.

Lemma split_first c a a' r r' :
  occurs c a = false -> occurs c a' = false ->
  a +:+ String c r = a' +:+ String c r' -> a = a' /\ r = r'.
Proof.
  revert a'. induction a as [|x a IH]; intros [|x' a']; simpl.
  - intros _ _ [= ->]. easy.
  - intros _ H [= <- _]. now rewrite decide_True in H.
  - intros H _ [= -> _]. now rewrite decide_True in H.
  - intros H H' [= -> Heq].
    destruct (decide (c = x')); [discriminate|].
    destruct (IH a' H H' Heq) as [-> ->]. easy.
Qed.

Lemma split_last c a a' r r' :
  occurs c r = false -> occurs c r' = false ->
  a +:+ String c r = a' +:+ String c r' -> a = a' /\ r = r'.
Proof.
  intros Hr Hr'. revert a'. induction a as [|x a IH]; intros [|x' a']; simpl.
  - intros [= ->]. easy.
  - intros [= <- ->]. now rewrite occurs_app in Hr.
  - intros [= -> <-]. now rewrite occurs_app in Hr'.
  - intros [= -> Heq]. destruct (IH a' Heq) as [-> ->]. easy.
Qed.

Lemma pretty_N_go_occurs x s : occurs underscore (pretty_N_go x s) = occurs underscore s.
Proof.
  revert s. induction (N.lt_wf_0 x) as [x _ IH]; intros s.
  assert (x = 0 \/ 0 < x)%N as [->|Hpos] by lia.
  - now rewrite pretty_N_go_0.
  - rewrite pretty_N_go_step by exact Hpos.
    rewrite IH by (apply N.div_lt; lia).
    unfold pretty_N_char. repeat case_match; reflexivity.
Qed.

Lemma pretty_Z_occurs (z : Z) : occurs underscore (pretty z) = false.
Proof.
  assert (HN : forall p, occurs underscore (pretty (Npos p)) = false).
  { intros p. unfold pretty, pretty_N. rewrite decide_False by discriminate.
    apply pretty_N_go_occurs. }
  destruct z as [|p|p]; [reflexivity|apply HN|].
  change (pretty (Z.neg p)) with ("-" +:+ pretty (Npos p)).
  simpl. apply HN.
Qed.

(** X11: the key [f"{user_id}_{content_type}_{content_id}"] determines the
    user, the content type and the content id, whatever the content type
    is: two triples have the same key only if they are the same triple. *)
Theorem simulation_key_inj (u : Z) (ct : string) (cid : Z) (u' : Z) (ct' : string) (cid' : Z) :
  simulation_key u ct cid = simulation_key u' ct' cid' <-> u = u' /\ ct = ct' /\ cid = cid'.
Proof.
  split; [|intros (-> & -> & ->); reflexivity].
  unfold simulation_key. intros Heq.
  change ("_" +:+ ct +:+ "_" +:+ pretty cid) with (String underscore (ct +:+ "_" +:+ pretty cid)) in Heq.
  change ("_" +:+ ct' +:+ "_" +:+ pretty cid')
    with (String underscore (ct' +:+ "_" +:+ pretty cid')) in Heq.
  apply split_first in Heq as [Hu Hrest]; try apply pretty_Z_occurs.
  change ("_" +:+ pretty cid) with (String underscore (pretty cid)) in Hrest.
  change ("_" +:+ pretty cid') with (String underscore (pretty cid')) in Hrest.
  apply split_last in Hrest as [Hct Hcid]; try apply pretty_Z_occurs.
  split; [now apply (inj pretty)|]. split; [exact Hct|now apply (inj pretty)].
Qed.

(** ** Invariants of the dict of live sessions *)

Lemma Forall_dict_set {V} (P : string * V -> Prop) k v d :
  Forall P d -> P (k, v) -> Forall P (dict_set k v d).
Proof.
  intros Hd Hv. apply Forall_forall. intros x Hin. apply list_elem_of_In in Hin.
  apply dict_set_In in Hin as [->|Hin]; [exact Hv|].
  rewrite Forall_forall in Hd. apply Hd. now apply list_elem_of_In.
Qed.

Lemma Forall_dict_del {V} (P : string * V -> Prop) k d :
  Forall P d -> Forall P (dict_del k d).
Proof.
  intros Hd. apply Forall_forall. intros x Hin. apply list_elem_of_In in Hin.
  apply dict_del_In in Hin. rewrite Forall_forall in Hd. apply Hd. now apply list_elem_of_In.
Qed.

Lemma Forall_dict_get {V} (P : string * V -> Prop) k v d :
  Forall P d -> dict_get k d = Some v -> P (k, v).
Proof.
  intros Hd Hk. apply dict_get_Some_In in Hk. rewrite Forall_forall in Hd.
  apply Hd. now apply list_elem_of_In.
Qed.

(** The dict after a progress call, with the list the new event is from. *)
Lemma progress_sims_event k w :
  let w' := (get_simulation_progress k w).1 in
  sims_of w' = sims_of w
  \/ exists sim pool e,
       dict_get k (sims_of w) = Some sim
       /\ dict_get (sim_content_type sim) SIMULATION_EVENTS = Some pool
       /\ In e pool
       /\ sims_of w' = dict_set k (with_events sim (events sim ++ [e])) (sims_of w).
Proof.
  destruct (dict_get k (sims_of w)) as [sim|] eqn:Hk.
  - pose proof (wp_run _ _ _ (progress_spec k w sim Hk)) as H. cbv beta in H.
    destruct H as (_ & _ & _ & _ & _ & _ & H).
    destruct (progress_stored _ _) as [e|p].
    + destruct H as (_ & Hs & _). left. unfold sims_of. now rewrite Hs.
    + destruct H as (_ & _ & [Hadd|Hskip]).
      * destruct Hadd as (pool & e & rep & Hpool & He & _ & _ & _ & Hs & _).
        right. exists sim, pool, e. split; [reflexivity|]. split; [exact Hpool|].
        split; [|exact Hs]. apply list_elem_of_In. eapply list_elem_of_lookup_2. exact He.
      * left. apply Hskip.
  - left. destruct (not_live k w Hk) as (-> & _). reflexivity.
Qed.

Section SessionInvariant.

Variable P : string * Simulation -> Prop.

(** A new session has the property. *)
Hypothesis P_start :
  forall i u ct cid c started t a b,
    dict_get ct SIMULATION_TIMES = Some (a, b) -> a <= t <= b ->
    P (simulation_key u ct cid, mkSimulation i u ct cid (title c) started t []).

(** A session keeps it when it gets one more event of its list. *)
Hypothesis P_event :
  forall k sim pool e,
    P (k, sim) -> dict_get (sim_content_type sim) SIMULATION_EVENTS = Some pool ->
    In e pool -> P (k, with_events sim (events sim ++ [e])).

Lemma start_keeps u ct cid w :
  Forall P (sims_of w) -> Forall P (sims_of (start_simulation u ct cid w).1).
Proof.
  intros Hall. pose proof (wp_run _ _ _ (start_spec u ct cid w)) as H. unfold start_post in H.
  destruct (get_content_in (db (service w)) ct cid) as [c|].
  - destruct H as (a & b & Hab & Hle & -> & _).
    cbn [sims_of drawn tick set_sims service active_simulations].
    apply Forall_dict_set; [exact Hall|].
    apply (P_start _ _ _ _ _ _ _ a b Hab).
    pose proof (Z.mod_pos_bound (draw_of w) (b - a + 1)). lia.
  - destruct H as [-> _]. exact Hall.
Qed.

Lemma progress_keeps k w :
  Forall P (sims_of w) -> Forall P (sims_of (get_simulation_progress k w).1).
Proof.
  intros Hall.
  destruct (progress_sims_event k w) as [->|(sim & pool & e & Hk & Hpool & He & ->)];
    [exact Hall|].
  apply Forall_dict_set; [exact Hall|].
  apply (P_event k sim pool e); [|exact Hpool|exact He].
  exact (Forall_dict_get P k sim _ Hall Hk).
Qed.

Lemma active_loop_keeps u items acc w :
  Forall P (sims_of w) -> Forall P (sims_of (Api.active_loop u items acc w).1).
Proof.
  revert acc w. induction items as [|[sim_id sim_data] rest IH]; intros acc w Hall.
  - exact Hall.
  - simpl. destruct (decide (sim_user_id sim_data = u)); [|now apply IH].
    unfold bind. pose proof (progress_keeps sim_id w Hall) as Hall'.
    destruct (get_simulation_progress sim_id w) as [w1 [err|rep]]; [exact Hall'|].
    now apply IH.
Qed.

Lemma step_keeps w w' : step w w' -> Forall P (sims_of w) -> Forall P (sims_of w').
Proof.
  intros Hstep Hall. destruct Hstep.
  - now apply start_keeps.
  - now apply progress_keeps.
  - destruct (complete_sims k r tags w) as [->| ->]; [exact Hall|now apply Forall_dict_del].
  - destruct (cancel_sims k w) as [->| ->]; [exact Hall|now apply Forall_dict_del].
  - unfold Api.get_active_simulations, bind, get_sims. now apply active_loop_keeps.
  - exact Hall.
Qed.

Lemma reachable_keeps w : reachable w -> Forall P (sims_of w).
Proof.
  induction 1 as [d c cp e ep|w w' _ IH Hstep].
  - apply Forall_nil_2.
  - now apply (step_keeps w w').
Qed.

End SessionInvariant.

Lemma reachable_filed w : reachable w -> Forall session_filed (sims_of w).
Proof.
  apply reachable_keeps.
  - intros. reflexivity.
  - intros k sim pool e H _ _. exact H.
Qed.

Lemma reachable_events_from_pool w : reachable w -> Forall events_from_pool (sims_of w).
Proof.
  apply reachable_keeps.
  - intros i u ct cid c started t a b Hab _. unfold events_from_pool.
    cbn [snd sim_content_type events].
    destruct (events_of_type ct (times_type _ _ Hab)) as (pool & Hpool & _).
    exists pool. split; [exact Hpool|apply Forall_nil_2].
  - intros k sim pool e (pool' & Hpool' & Hall) Hpool He. cbn [snd] in Hpool', Hall.
    unfold events_from_pool. cbn [snd with_events sim_content_type events].
    exists pool. split; [exact Hpool|]. rewrite Hpool in Hpool'. injection Hpool' as <-.
    apply Forall_app. split; [exact Hall|]. apply Forall_cons. split; [exact He|apply Forall_nil_2].
Qed.

(** X12: in every reachable world a live session is filed under the key
    of its own user, content type and content id, its content type is
    book, movie or game, and it is the only live session of that user for
    that item. *)
Theorem live_session_key (w : World) (k : string) (sim : Simulation) :
  reachable w ->
  dict_get k (sims_of w) = Some sim ->
  k = simulation_key (sim_user_id sim) (sim_content_type sim) (sim_content_id sim)
  /\ (sim_content_type sim = "book" \/ sim_content_type sim = "movie"
      \/ sim_content_type sim = "game")
  /\ (forall k' sim',
        dict_get k' (sims_of w) = Some sim' ->
        sim_user_id sim' = sim_user_id sim ->
        sim_content_type sim' = sim_content_type sim ->
        sim_content_id sim' = sim_content_id sim ->
        k' = k /\ sim' = sim).
Proof.
  intros Hreach Hk.
  pose proof (Forall_dict_get _ _ _ _ (reachable_filed w Hreach) Hk) as Hfiled.
  unfold session_filed in Hfiled. cbn [fst snd] in Hfiled.
  split; [exact Hfiled|]. split.
  - destruct (sessions_ok_get _ _ _ (reachable_sessions_ok w Hreach) Hk) as [_ (a & b & Hab & _)].
    exact (times_type _ _ Hab).
  - intros k' sim' Hk' Hu Hct Hcid.
    pose proof (Forall_dict_get _ _ _ _ (reachable_filed w Hreach) Hk') as Hfiled'.
    unfold session_filed in Hfiled'. cbn [fst snd] in Hfiled'.
    assert (k' = k) as -> by (rewrite Hfiled, Hfiled', Hu, Hct, Hcid; reflexivity).
    split; [reflexivity|]. congruence.
Qed.

Lemma live_session_key_witness :
  "1_book_7" = simulation_key 1 "book" 7.
Proof.
  destruct (live_session_key sample_started "1_book_7" sample_session
              sample_started_reachable sample_started_session) as [H _].
  exact H.
Defined.

(** X13: in every reachable world the events of a live session, and the
    event a progress call on it reports, are entries of the event list of
    the session's content type. *)
Theorem events_come_from_pool (w : World) (k : string) (sim : Simulation) :
  reachable w ->
  dict_get k (sims_of w) = Some sim ->
  exists pool,
    dict_get (sim_content_type sim) SIMULATION_EVENTS = Some pool
    /\ (forall e, In e (events sim) -> In e pool)
    /\ (forall rep e,
          (get_simulation_progress k w).2 = inr rep -> pr_event rep = Some e -> In e pool).
Proof.
  intros Hreach Hk.
  destruct (Forall_dict_get _ _ _ _ (reachable_events_from_pool w Hreach) Hk)
    as (pool & Hpool & Hall).
  cbn [snd] in Hpool, Hall. exists pool. split; [exact Hpool|]. split.
  - intros e He. rewrite Forall_forall in Hall. apply Hall. now apply list_elem_of_In.
  - intros rep e Hrep Hev.
    pose proof (wp_run _ _ _ (progress_spec k w sim Hk)) as H. cbv beta in H.
    destruct H as (_ & _ & _ & _ & _ & _ & H). rewrite Hrep in H.
    destruct (progress_stored _ _) as [err|p]; [destruct H as [H _]; discriminate|].
    destruct H as (_ & _ & [Hadd|Hskip]).
    + destruct Hadd as (pool' & e' & rep' & Hpool' & He' & _ & _ & _ & _ & _ & Hr & Hev').
      injection Hr as <-. rewrite Hev in Hev'. injection Hev' as <-.
      rewrite Hpool in Hpool'. injection Hpool' as <-.
      apply list_elem_of_In. eapply list_elem_of_lookup_2. exact He'.
    + destruct Hskip as (_ & Hnone & _). rewrite (Hnone rep eq_refl) in Hev. discriminate.
Qed.

(** ** Whole seconds *)

(** X8: while the clock is within [2^52] microseconds of the start of a
    session, the elapsed time of a progress report and the duration of a
    completion report, which is also stored in the ledger row, are exactly
    the whole seconds elapsed, [(now - start_time) // 10**6]: the division
    in doubles loses nothing. *)
Theorem elapsed_whole_seconds (k : string) (w : World) (sim : Simulation) :
  dict_get k (sims_of w) = Some sim ->
  0 <= now_of w - start_time sim < 2 ^ 52 ->
  (forall rep,
     (get_simulation_progress k w).2 = inr rep ->
     pr_elapsed_time rep = (now_of w - start_time sim) / 1000000)
  /\ (forall r tags rep,
        (complete_simulation k r tags w).2 = inr rep ->
        cr_duration rep = (now_of w - start_time sim) / 1000000
        /\ exists row',
             ledger_of (complete_simulation k r tags w).1 !! sim_interaction_id sim
             = Some row'
             /\ simulation_duration row' = Some ((now_of w - start_time sim) / 1000000)).
Proof.
  intros Hk Hus. pose proof (whole_seconds_exact _ Hus) as Hsec. split.
  - intros rep Hrep.
    pose proof (wp_run _ _ _ (progress_spec k w sim Hk)) as H. cbv beta in H.
    destruct H as (_ & _ & _ & _ & _ & _ & H). rewrite Hrep in H.
    destruct (progress_stored _ _) as [e|p]; [destruct H as [H _]; discriminate|].
    destruct H as (_ & Hr & _). destruct (Hr rep eq_refl) as (_ & _ & _ & He).
    rewrite Hsec in He. now injection He as <-.
  - intros r tags rep Hrep.
    destruct (complete_success k r tags w sim rep Hk Hrep)
      as (row & dur & Hrow & Hdur & -> & Hpost).
    rewrite Hsec in Hdur. injection Hdur as <-. split; [reflexivity|].
    exists (completed_row row r tags (now_of w) ((now_of w - start_time sim) / 1000000)).
    split; [|reflexivity].
    rewrite (popularity_post_ledger _ _ _ _ _ _ Hpost). unfold ledger_of at 1. simpl.
    now rewrite lookup_insert_eq.
Qed.

(** ** The progress never goes back *)

Lemma rounds_to_mono f1 x1 f2 x2 :
  rounds_to f1 x1 -> rounds_to f2 x2 -> (x1 < x2)%R -> (fval f1 <= fval f2)%R.
Proof.
  intros (m1 & e1 & E1 & k1 & _ & _ & _ & _ & _ & Hv1 & Hn1 & Hx1)
         (m2 & e2 & E2 & k2 & _ & _ & _ & _ & _ & Hv2 & Hn2 & Hx2) Hlt.
  apply Rabs_le_both in Hn1, Hn2. rewrite Hv1, Hv2 in *.
  pose proof (pow2_pos E1) as Hp1. pose proof (pow2_pos E2) as Hp2.
  assert (HE : E1 + 52 < E2 + 53) by (apply (pow2_between _ _ x1); lra).
  assert (H52 : forall E, pow2 (E + 52) = (4503599627370496 * pow2 E)%R).
  { intros E. rewrite Z.add_comm, pow2_add, (pow2_IZR 52) by lia. reflexivity. }
  assert (H53 : forall E, pow2 (E + 53) = (9007199254740992 * pow2 E)%R).
  { intros E. rewrite Z.add_comm, pow2_add, (pow2_IZR 53) by lia. reflexivity. }
  rewrite H52, H53 in Hx1, Hx2.
  destruct (Z.eq_dec E1 E2) as [->|Hne].
  - (* the same binade *)
    destruct (Z_le_gt_dec k1 k2) as [Hle|Hgt]; [apply IZR_le in Hle; nra|]. exfalso.
    assert (Hk : (IZR k2 + 1 <= IZR k1)%R) by (rewrite <- plus_IZR; apply IZR_le; lia).
    nra.
  - (* a lower binade *)
    assert (Hlow : E1 + 1 <= E2) by lia.
    assert (Hpp : (2 * pow2 E1 <= pow2 E2)%R).
    { rewrite <- pow2_succ. apply pow2_le. lia. }
    assert (Hk1 : (IZR k1 <= 9007199254740992)%R).
    { destruct (Z_le_gt_dec k1 9007199254740992) as [Hle|Hgt]; [now apply IZR_le|]. exfalso.
      assert (Hk : (9007199254740992 + 1 <= IZR k1)%R)
        by (rewrite <- plus_IZR; apply IZR_le; lia).
      nra. }
    assert (Hk2 : (4503599627370496 <= IZR k2)%R).
    { destruct (Z_le_gt_dec 4503599627370496 k2) as [Hle|Hgt]; [now apply IZR_le|]. exfalso.
      assert (Hk : (IZR k2 + 1 <= 4503599627370496)%R)
        by (rewrite <- plus_IZR; apply IZR_le; lia).
      nra. }
    nra.
Qed.

Lemma rounds_to_inj f1 x1 f2 x2 :
  rounds_to f1 x1 -> rounds_to f2 x2 -> fval f1 = fval f2 -> f1 = f2.
Proof.
  intros (m1 & e1 & E1 & k1 & -> & _ & Hd1 & _)
         (m2 & e2 & E2 & k2 & -> & _ & Hd2 & _) Hv.
  cbn [fval] in Hv.
  pose proof (Zdigits2_bounds (Z.pos m1) ltac:(lia)) as Hb1.
  pose proof (Zdigits2_bounds (Z.pos m2) ltac:(lia)) as Hb2.
  rewrite Hd1 in Hb1. rewrite Hd2 in Hb2.
  change (2 ^ (53 - 1)) with 4503599627370496 in *.
  change (2 ^ 53) with 9007199254740992 in *.
  assert (Hshift : forall ma ea mb eb,
            ea < eb -> B2R (Z.pos ma) ea = B2R (Z.pos mb) eb ->
            4503599627370496 <= Z.pos mb -> Z.pos ma < 9007199254740992 -> False).
  { intros ma ea mb eb Hlt Heq Hlo Hhi.
    replace eb with (ea + (eb - ea)) in Heq by lia.
    rewrite <- B2R_shift in Heq by lia. unfold B2R in Heq.
    pose proof (pow2_pos ea) as Hp.
    apply Rmult_eq_reg_r in Heq; [|lra]. apply eq_IZR in Heq.
    assert (2 ^ 1 <= 2 ^ (eb - ea)) by (apply Z.pow_le_mono_r; lia).
    change (2 ^ 1) with 2 in *. nia. }
  destruct (Z.lt_trichotomy e1 e2) as [Hlt|[->|Hgt]].
  - exfalso. apply (Hshift m1 e1 m2 e2 Hlt Hv); lia.
  - unfold B2R in Hv. pose proof (pow2_pos e2) as Hp.
    apply Rmult_eq_reg_r in Hv; [|lra]. apply eq_IZR in Hv. now injection Hv as ->.
  - exfalso. apply (Hshift m2 e2 m1 e1 Hgt (eq_sym Hv)); lia.
Qed.

(** The three roundings behind a percentage. *)
Lemma scaled_ratio_roundings us total :
  0 < us < 2 ^ 62 -> 20 <= total <= 300 ->
  exists fe fr fs,
    total_seconds us = inr fe
    /\ fe = int_true_div us 1000000
    /\ fr = fdiv fe (float_of_int total)
    /\ fs = fmul fr (float_of_int 100)
    /\ scaled_ratio us total = inr fs
    /\ rounds_to fe (IZR us / 1000000)
    /\ rounds_to fr (fval fe / IZR total)
    /\ rounds_to fs (fval fr * 100).
Proof.
  intros Hpos Htot.
  destruct (exact_int_float_spec total (exact_int_float_range total Htot))
    as (mt & et & Ht & Hdt & Het & Hvt).
  destruct float_100 as [H100 Hv100].
  pose proof (elapsed_rounds us Hpos) as He.
  set (xe := (IZR us / 1000000)%R) in *.
  assert (Hxe : (/ 1000000 <= xe < 4611686018428)%R).
  { unfold xe. destruct Hpos as [H0 H62]. apply IZR_lt in H62.
    assert (1 <= us) by lia. apply IZR_le in H.
    change (2 ^ 62) with 4611686018427387904 in H62. lra. }
  destruct (rounds_to_exponent _ _ (-20) 43 He) as (me & ee & Hef & Hde & Hee1 & Hee2).
  { change (-20) with (- (20)). rewrite pow2_opp, pow2_IZR by lia.
    change (2 ^ 20) with 1048576. lra. }
  { rewrite pow2_IZR by lia. change (2 ^ 43) with 8796093022208. lra. }
  destruct (rounds_to_error _ _ He) as [Hxe0 Herr]. unfold eps in Herr.
  assert (HT : (20 <= IZR total <= 300)%R).
  { destruct Htot as [H1 H2]. apply IZR_le in H1, H2. lra. }
  assert (Hr : rounds_to (fdiv (int_true_div us 1000000) (float_of_int total))
                 (fval (int_true_div us 1000000) / IZR total)).
  { rewrite Hef, Ht. cbn [fval]. rewrite <- Hvt. apply fdiv_pos_spec. lia. }
  rewrite Hef in Herr. cbn [fval] in Herr.
  set (ve := B2R (Z.pos me) ee) in *.
  assert (Hve : fval (int_true_div us 1000000) = ve) by (rewrite Hef; reflexivity).
  rewrite Hve in Hr.
  set (xr := (ve / IZR total)%R) in *.
  assert (Hxr : (xr * IZR total = ve)%R) by (unfold xr; field; lra).
  assert (Hxrb : (/ 1000000000 <= xr < 4611686018428)%R) by (split; nra).
  destruct (rounds_to_exponent _ _ (-30) 43 Hr) as (mr & er & Hrf & Hdr & Her1 & Her2).
  { change (-30) with (- (30)). rewrite pow2_opp, pow2_IZR by lia.
    change (2 ^ 30) with 1073741824. lra. }
  { rewrite pow2_IZR by lia. change (2 ^ 43) with 8796093022208. lra. }
  assert (Hs : rounds_to (fmul (fdiv (int_true_div us 1000000) (float_of_int total))
                            (float_of_int 100))
                 (fval (fdiv (int_true_div us 1000000) (float_of_int total)) * 100)).
  { rewrite Hrf, H100. cbn [fval]. rewrite <- Hv100.
    apply fmul_pos_spec; [exact Hdr|reflexivity|lia]. }
  exists (int_true_div us 1000000),
         (fdiv (int_true_div us 1000000) (float_of_int total)),
         (fmul (fdiv (int_true_div us 1000000) (float_of_int total)) (float_of_int 100)).
  split_and!; try reflexivity.
  - unfold total_seconds. now rewrite Hef.
  - assert (F1 : is_finite (int_true_div us 1000000) = true) by now rewrite Hef.
    assert (F2 : is_finite (float_of_int total) = true) by now rewrite Ht.
    assert (F3 : is_zero (float_of_int total) = false) by now rewrite Ht.
    assert (F4 : is_finite (float_of_int 100) = true) by now rewrite H100.
    unfold scaled_ratio, total_seconds, float_div_int, float_mul_int.
    rewrite F1. cbn [rbind]. rewrite F2, F3. cbn [rbind]. rewrite F4. reflexivity.
  - exact He.
  - rewrite Hve. exact Hr.
  - exact Hs.
Qed.

Lemma rounds_to_py_int f x :
  rounds_to f x ->
  exists n, py_int f = inr n /\ 0 <= n /\ (IZR n <= fval f < IZR n + 1)%R.
Proof.
  intros (m & e & E & k & -> & _). cbn [py_int fval].
  destruct (trunc_mag_floor m e) as [H0 H1]. eauto.
Qed.

Lemma floor_mono n1 n2 v1 v2 :
  (IZR n1 <= v1 < IZR n1 + 1)%R -> (IZR n2 <= v2 < IZR n2 + 1)%R -> (v1 <= v2)%R -> n1 <= n2.
Proof.
  intros H1 H2 Hle.
  assert (Hlt : (IZR n1 < IZR (n2 + 1))%R) by (rewrite plus_IZR; lra).
  apply lt_IZR in Hlt. lia.
Qed.

(** The percentage and the whole seconds as functions of the elapsed time. *)
Lemma progress_of_mono us1 us2 total :
  0 <= us1 -> us1 <= us2 -> us2 < 2 ^ 62 -> 20 <= total <= 300 ->
  exists p1 p2 s1 s2,
    progress_of us1 total = inr p1 /\ progress_of us2 total = inr p2
    /\ whole_seconds us1 = inr s1 /\ whole_seconds us2 = inr s2
    /\ 0 <= p1 /\ p1 <= p2 /\ p2 <= 100 /\ 0 <= s1 /\ s1 <= s2.
Proof.
  intros H0 Hle H62 Htot.
  assert (HT : (20 <= IZR total <= 300)%R).
  { destruct Htot as [H1 H2]. apply IZR_le in H1, H2. lra. }
  (* the later reading *)
  assert (Hlater : forall us, 0 < us < 2 ^ 62 ->
            exists fe fs p s,
              total_seconds us = inr fe /\ scaled_ratio us total = inr fs
              /\ fe = int_true_div us 1000000
              /\ fs = fmul (fdiv fe (float_of_int total)) (float_of_int 100)
              /\ rounds_to fe (IZR us / 1000000)
              /\ rounds_to (fdiv fe (float_of_int total)) (fval fe / IZR total)
              /\ rounds_to fs (fval (fdiv fe (float_of_int total)) * 100)
              /\ py_int fs = inr p /\ 0 <= p /\ (IZR p <= fval fs < IZR p + 1)%R
              /\ py_int fe = inr s /\ 0 <= s /\ (IZR s <= fval fe < IZR s + 1)%R).
  { intros us Hus.
    destruct (scaled_ratio_roundings us total Hus Htot)
      as (fe & fr & fs & Hts & Hfe & Hfr & Hfs & Hsr & Re & Rr & Rs).
    destruct (rounds_to_py_int _ _ Rs) as (p & Hp & Hp0 & Hpv).
    destruct (rounds_to_py_int _ _ Re) as (s & Hs & Hs0 & Hsv).
    exists fe, fs, p, s. subst fr.
    split_and!; try assumption; try apply Hpv; try apply Hsv. }
  assert (Hout : forall us fe fs p s,
            total_seconds us = inr fe -> scaled_ratio us total = inr fs ->
            py_int fs = inr p -> py_int fe = inr s ->
            progress_of us total = inr (Z.min 100 p) /\ whole_seconds us = inr s).
  { intros us fe fs p s Hts Hsr Hp Hs. unfold progress_of, whole_seconds.
    rewrite Hsr, Hts. cbn [rbind]. rewrite Hp, Hs. cbn [rbind]. easy. }
  assert (Hzero : progress_of 0 total = inr 0 /\ whole_seconds 0 = inr 0).
  { destruct (exact_int_float_spec total (exact_int_float_range total Htot))
      as (mt & et & Ht & _).
    destruct float_100 as [H100 _].
    unfold progress_of, scaled_ratio, whole_seconds, total_seconds, float_div_int,
      float_mul_int.
    rewrite Ht, H100. cbn. split; reflexivity. }
  destruct Hzero as [Hz1 Hz2].
  destruct (Z.eq_dec us1 0) as [->|Hne1].
  - (* the first reading is the start itself *)
    destruct (Z.eq_dec us2 0) as [->|Hne2].
    + exists 0, 0, 0, 0. split_and!; try assumption; lia.
    + destruct (Hlater us2 ltac:(lia))
        as (fe & fs & p & s & Hts & Hsr & _ & _ & _ & _ & _ & Hp & Hp0 & _ & Hs & Hs0 & _).
      destruct (Hout us2 fe fs p s Hts Hsr Hp Hs) as [Hprog Hsec].
      exists 0, (Z.min 100 p), 0, s. split_and!; try assumption; lia.
  - destruct (Hlater us1 ltac:(lia))
      as (fe1 & fs1 & p1 & s1 & Hts1 & Hsr1 & Hfe1 & Hfs1 & Re1 & Rr1 & Rs1
          & Hp1 & Hp10 & Hpv1 & Hs1 & Hs10 & Hsv1).
    destruct (Hlater us2 ltac:(lia))
      as (fe2 & fs2 & p2 & s2 & Hts2 & Hsr2 & Hfe2 & Hfs2 & Re2 & Rr2 & Rs2
          & Hp2 & Hp20 & Hpv2 & Hs2 & Hs20 & Hsv2).
    destruct (Hout us1 fe1 fs1 p1 s1 Hts1 Hsr1 Hp1 Hs1) as [Hprog1 Hsec1].
    destruct (Hout us2 fe2 fs2 p2 s2 Hts2 Hsr2 Hp2 Hs2) as [Hprog2 Hsec2].
    exists (Z.min 100 p1), (Z.min 100 p2), s1, s2.
    split_and!; try assumption; try lia.
    + (* the percentage *)
      destruct (Z.eq_dec us1 us2) as [Heq|Hneq].
      { subst us2. rewrite Hsr1 in Hsr2. injection Hsr2 as <-.
        rewrite Hp1 in Hp2. injection Hp2 as <-. lia. }
      assert (Hx : (IZR us1 / 1000000 < IZR us2 / 1000000)%R).
      { assert (us1 < us2) by lia. apply IZR_lt in H. lra. }
      pose proof (rounds_to_mono _ _ _ _ Re1 Re2 Hx) as Hve.
      destruct (Req_dec (fval fe1) (fval fe2)) as [Heq|Hvne].
      { pose proof (rounds_to_inj _ _ _ _ Re1 Re2 Heq) as Hf. subst fs1 fs2.
        rewrite Hf in Hp1. rewrite Hp1 in Hp2. injection Hp2 as <-. lia. }
      assert (Hxr : (fval fe1 / IZR total < fval fe2 / IZR total)%R).
      { apply Rmult_lt_compat_r; [apply Rinv_0_lt_compat; lra|lra]. }
      pose proof (rounds_to_mono _ _ _ _ Rr1 Rr2 Hxr) as Hvr.
      destruct (Req_dec (fval (fdiv fe1 (float_of_int total)))
                        (fval (fdiv fe2 (float_of_int total)))) as [Heq|Hrne].
      { pose proof (rounds_to_inj _ _ _ _ Rr1 Rr2 Heq) as Hf. subst fs1 fs2.
        rewrite Hf in Hp1. rewrite Hp1 in Hp2. injection Hp2 as <-. lia. }
      assert (Hxs : (fval (fdiv fe1 (float_of_int total)) * 100
                     < fval (fdiv fe2 (float_of_int total)) * 100)%R) by lra.
      pose proof (rounds_to_mono _ _ _ _ Rs1 Rs2 Hxs) as Hvs.
      pose proof (floor_mono _ _ _ _ Hpv1 Hpv2 Hvs). lia.
    + (* the whole seconds *)
      destruct (Z.eq_dec us1 us2) as [Heq|Hneq].
      { subst us2. rewrite Hts1 in Hts2. injection Hts2 as <-.
        rewrite Hs1 in Hs2. injection Hs2 as <-. lia. }
      assert (Hx : (IZR us1 / 1000000 < IZR us2 / 1000000)%R).
      { assert (us1 < us2) by lia. apply IZR_lt in H. lra. }
      pose proof (rounds_to_mono _ _ _ _ Re1 Re2 Hx) as Hve.
      exact (floor_mono _ _ _ _ Hsv1 Hsv2 Hve).
Qed.

(** The percentage a progress call reports. *)
Lemma progress_reported k w sim rep :
  dict_get k (sims_of w) = Some sim ->
  (get_simulation_progress k w).2 = inr rep ->
  progress_of (now_of w - start_time sim) (total_time sim) = inr (pr_progress rep)
  /\ whole_seconds (now_of w - start_time sim) = inr (pr_elapsed_time rep).
Proof.
  intros Hk Hrep.
  pose proof (wp_run _ _ _ (progress_spec k w sim Hk)) as H. cbv beta in H.
  destruct H as (_ & _ & _ & _ & _ & _ & H). rewrite Hrep in H.
  destruct (progress_stored _ _) as [e|p] eqn:Hps; [destruct H as [H _]; discriminate|].
  destruct H as (_ & Hr & _). destruct (Hr rep eq_refl) as (Hp & _ & _ & He).
  rewrite Hp. split; [exact (progress_stored_inr _ _ _ Hps)|exact He].
Qed.

Lemma progress_completed_flag k w sim rep :
  dict_get k (sims_of w) = Some sim ->
  (get_simulation_progress k w).2 = inr rep ->
  pr_completed rep = (100 <=? pr_progress rep).
Proof.
  intros Hk Hrep.
  pose proof (wp_run _ _ _ (progress_spec k w sim Hk)) as H. cbv beta in H.
  destruct H as (_ & _ & _ & _ & _ & _ & H). rewrite Hrep in H.
  destruct (progress_stored _ _) as [e|p]; [destruct H as [H _]; discriminate|].
  destruct H as (_ & Hr & _). destruct (Hr rep eq_refl) as (Hp & Hc & _).
  now rewrite Hc, Hp.
Qed.

(** X9: the progress of a session never goes back.  Of two progress
    reports on a session of a reachable world, taken at clock readings
    [t1 <= t2] not before the start, the second has at least the
    percentage and at least the elapsed seconds of the first, both
    percentages are between 0 and 100, and a session reported completed
    stays completed. *)
Theorem progress_never_goes_back (k : string) (w1 w2 : World) (sim1 sim2 : Simulation)
    (rep1 rep2 : ProgressReport) :
  reachable w1 ->
  dict_get k (sims_of w1) = Some sim1 ->
  dict_get k (sims_of w2) = Some sim2 ->
  start_time sim2 = start_time sim1 ->
  total_time sim2 = total_time sim1 ->
  start_time sim1 <= now_of w1 ->
  now_of w1 <= now_of w2 ->
  now_of w2 - start_time sim1 < 2 ^ 62 ->
  (get_simulation_progress k w1).2 = inr rep1 ->
  (get_simulation_progress k w2).2 = inr rep2 ->
  0 <= pr_progress rep1 /\ pr_progress rep1 <= pr_progress rep2 /\ pr_progress rep2 <= 100
  /\ 0 <= pr_elapsed_time rep1 /\ pr_elapsed_time rep1 <= pr_elapsed_time rep2
  /\ (pr_completed rep1 = true -> pr_completed rep2 = true).
Proof.
  intros Hreach Hk1 Hk2 Hst Htt H0 Hle H62 Hrep1 Hrep2.
  destruct (sessions_ok_get _ _ _ (reachable_sessions_ok w1 Hreach) Hk1) as [_ Hdur].
  destruct (duration_events _ Hdur) as [Htot _].
  destruct (progress_reported k w1 sim1 rep1 Hk1 Hrep1) as [Hp1 Hs1].
  destruct (progress_reported k w2 sim2 rep2 Hk2 Hrep2) as [Hp2 Hs2].
  rewrite Hst, Htt in Hp2. rewrite Hst in Hs2.
  destruct (progress_of_mono (now_of w1 - start_time sim1) (now_of w2 - start_time sim1)
              (total_time sim1) ltac:(lia) ltac:(lia) H62 Htot)
    as (p1 & p2 & s1 & s2 & Hq1 & Hq2 & Ht1 & Ht2 & Hb).
  rewrite Hp1 in Hq1. rewrite Hp2 in Hq2. rewrite Hs1 in Ht1. rewrite Hs2 in Ht2.
  injection Hq1 as <-. injection Hq2 as <-. injection Ht1 as <-. injection Ht2 as <-.
  split_and!; try lia.
  rewrite (progress_completed_flag k w1 sim1 rep1 Hk1 Hrep1),
    (progress_completed_flag k w2 sim2 rep2 Hk2 Hrep2).
  intros H100. apply Z.leb_le in H100. apply Z.leb_le. lia.
Qed.

(** ** Listing and the other users *)

(** What one progress call does to the dict and to the ledger. *)
Lemma progress_effect k w sim :
  dict_get k (sims_of w) = Some sim ->
  let w' := (get_simulation_progress k w).1 in
  (sims_of w' = sims_of w
   \/ exists e, sims_of w' = dict_set k (with_events sim (events sim ++ [e])) (sims_of w))
  /\ (ledger_of w' = ledger_of w
      \/ exists p, ledger_of w' = store_progress (sim_interaction_id sim) p (ledger_of w)).
Proof.
  intros Hk. pose proof (wp_run _ _ _ (progress_spec k w sim Hk)) as H. cbv beta in H.
  destruct H as (_ & _ & _ & _ & _ & _ & H).
  destruct (progress_stored _ _) as [e|p].
  - destruct H as (_ & Hs & _). unfold sims_of, ledger_of. rewrite Hs. split; now left.
  - destruct H as (Hl & _ & [Hadd|Hskip]).
    + destruct Hadd as (pool & e & rep & _ & _ & _ & _ & _ & Hs & _).
      split; [right; now exists e|right; now exists p].
    + split; [left; apply Hskip|right; now exists p].
Qed.

Lemma same_but_events_id s s' :
  same_but_events s s' ->
  sim_interaction_id s' = sim_interaction_id s /\ sim_user_id s' = sim_user_id s.
Proof. unfold same_but_events. intros <-. split; reflexivity. Qed.

Lemma store_progress_other i p (l : gmap Z UserInteraction) j :
  i <> j -> store_progress i p l !! j = l !! j.
Proof.
  intros Hne. unfold store_progress. destruct (l !! i); [|reflexivity].
  now apply lookup_insert_ne.
Qed.

Lemma active_loop_others u w0 items acc w :
  NoDup (dict_keys (sims_of w0)) ->
  (forall kv, In kv items -> In kv (sims_of w0)) ->
  (forall k sim, dict_get k (sims_of w0) = Some sim ->
     exists sim', dict_get k (sims_of w) = Some sim' /\ same_but_events sim sim'
                  /\ (sim_user_id sim <> u -> sim' = sim)) ->
  let w' := (Api.active_loop u items acc w).1 in
  (forall k sim, dict_get k (sims_of w0) = Some sim -> sim_user_id sim <> u ->
     dict_get k (sims_of w') = Some sim)
  /\ (forall i,
        (forall k sim, dict_get k (sims_of w0) = Some sim -> sim_user_id sim = u ->
           sim_interaction_id sim <> i) ->
        ledger_of w' !! i = ledger_of w !! i).
Proof.
  intros Hnd. revert acc w. induction items as [|[sim_id sim_data] rest IH]; intros acc w Hin Hinv.
  - simpl. split; [|reflexivity].
    intros k sim Hk Hu. destruct (Hinv k sim Hk) as (sim' & Hk' & _ & Hsame).
    now rewrite Hk', (Hsame Hu).
  - simpl. assert (Hrest : forall kv, In kv rest -> In kv (sims_of w0))
      by (intros kv H; apply Hin; now right).
    destruct (decide (sim_user_id sim_data = u)) as [Hu|Hu]; [|now apply IH].
    assert (Hk0 : dict_get sim_id (sims_of w0) = Some sim_data)
      by (apply dict_get_In; [exact Hnd|apply Hin; now left]).
    destruct (Hinv sim_id sim_data Hk0) as (cur & Hcur & Hsb & _).
    destruct (same_but_events_id _ _ Hsb) as [Hid _].
    destruct (progress_effect sim_id w cur Hcur) as [Hs Hl].
    unfold bind.
    destruct (get_simulation_progress sim_id w) as [w1 [err|rep]] eqn:Hrun;
      cbn [fst] in Hs, Hl.
    + (* the call raised: the loop ends here *)
      cbn [fst]. split.
      * intros k sim Hk Hne. destruct (Hinv k sim Hk) as (sim' & Hk' & _ & Hsame).
        rewrite (Hsame Hne) in Hk'.
        destruct Hs as [->|[e ->]]; [exact Hk'|].
        rewrite dict_get_set_ne; [exact Hk'|]. intros <-. congruence.
      * intros i Hi. specialize (Hi sim_id sim_data Hk0 Hu).
        destruct Hl as [->|[p ->]]; [reflexivity|].
        apply store_progress_other. congruence.
    + assert (Hinv1 : forall k sim, dict_get k (sims_of w0) = Some sim ->
                exists sim', dict_get k (sims_of w1) = Some sim' /\ same_but_events sim sim'
                             /\ (sim_user_id sim <> u -> sim' = sim)).
      { intros k sim Hk. destruct (Hinv k sim Hk) as (sim' & Hk' & Hsb' & Hsame).
        destruct Hs as [->|[e ->]]; [now exists sim'|].
        destruct (decide (sim_id = k)) as [<-|Hne].
        - rewrite Hk0 in Hk. injection Hk as <-. rewrite Hcur in Hk'. injection Hk' as <-.
          exists (with_events cur (events cur ++ [e])).
          split; [apply dict_get_set_eq|]. split; [exact Hsb|]. intros Hc. congruence.
        - exists sim'. split; [now rewrite dict_get_set_ne|]. easy. }
      destruct (IH (acc ++ [Api.mkActiveSummary sim_id (sim_content_title sim_data)
                              (sim_content_type sim_data) (pr_progress rep)
                              (start_time sim_data)]) w1 Hrest Hinv1) as [IH1 IH2].
      split; [exact IH1|].
      intros i Hi. rewrite (IH2 i Hi). specialize (Hi sim_id sim_data Hk0 Hu).
      destruct Hl as [->|[p ->]]; [reflexivity|].
      apply store_progress_other. congruence.
Qed.

Lemma active_loop_nobody u items acc w :
  Forall (fun kv => sim_user_id kv.2 <> u) items ->
  Api.active_loop u items acc w = (w, inr acc).
Proof.
  revert acc. induction items as [|[sim_id sim_data] rest IH]; intros acc Hall.
  - reflexivity.
  - apply Forall_cons in Hall as [Hne Hall]. simpl in *.
    rewrite decide_False by exact Hne. now apply IH.
Qed.

(** X14: in a reachable world, listing the active sessions of a user
    leaves every session of every other user exactly as it was and writes
    to no ledger row other than those of the user's own live sessions; for
    a user without live sessions it returns the empty list and changes
    nothing at all, the clock included. *)
Theorem listing_spares_other_users (u : Z) (w : World) :
  reachable w ->
  let out := Api.get_active_simulations u w in
  (forall k sim,
     dict_get k (sims_of w) = Some sim -> sim_user_id sim <> u ->
     dict_get k (sims_of out.1) = Some sim)
  /\ (forall i,
        (forall k sim, dict_get k (sims_of w) = Some sim -> sim_user_id sim = u ->
           sim_interaction_id sim <> i) ->
        ledger_of out.1 !! i = ledger_of w !! i)
  /\ ((forall k sim, dict_get k (sims_of w) = Some sim -> sim_user_id sim <> u) ->
      out = (w, inr [])).
Proof.
  intros Hreach out. subst out.
  destruct (reachable_sessions_ok w Hreach) as [Hnd _].
  unfold Api.get_active_simulations, bind, get_sims. cbn [fst snd].
  change (active_simulations (service w)) with (sims_of w).
  destruct (active_loop_others u w (sims_of w) [] w Hnd (fun kv H => H)) as [H1 H2].
  { intros k sim Hk. exists sim. split; [exact Hk|].
    split; [apply same_but_events_refl|reflexivity]. }
  split; [exact H1|]. split; [exact H2|].
  intros Hnone. apply active_loop_nobody. apply Forall_forall. intros [k sim] Hin.
  apply list_elem_of_In in Hin. exact (Hnone k sim (dict_get_In _ _ _ Hnd Hin)).
Qed.

(** ** The further properties on the sample world *)

Lemma sample_midway_session :
  dict_get "1_book_7" (sims_of sample_midway) = Some sample_session.
Proof. vm_compute. reflexivity. Qed.

Lemma sample_started_report :
  (get_simulation_progress "1_book_7" sample_started).2
  = inr (mkProgressReport 10 false None "Dune" 10).
Proof. vm_compute. reflexivity. Qed.

Lemma sample_midway_report :
  (get_simulation_progress "1_book_7" sample_midway).2
  = inr (mkProgressReport 40 false (Some "Главный герой принимает важное решение...")
           "Dune" 40).
Proof. vm_compute. reflexivity. Qed.

Lemma progress_stores_percentage_witness :
  ledger_of (get_simulation_progress "1_book_7" sample_midway).1
  = <[1 := with_progress sample_row 40]> (ledger_of sample_midway).
Proof.
  pose proof (progress_stores_percentage "1_book_7" sample_midway sample_session _
                sample_midway_session sample_midway_report) as [H _].
  exact H.
Defined.

Lemma events_come_from_pool_witness :
  exists pool,
    dict_get "book" SIMULATION_EVENTS = Some pool
    /\ forall rep e,
         (get_simulation_progress "1_book_7" sample_started).2 = inr rep ->
         pr_event rep = Some e -> In e pool.
Proof.
  destruct (events_come_from_pool sample_started "1_book_7" sample_session
              sample_started_reachable sample_started_session) as (pool & H1 & _ & H2).
  exists pool. split; [exact H1|exact H2].
Defined.

Lemma elapsed_whole_seconds_witness :
  pr_elapsed_time (mkProgressReport 40 false
                     (Some "Главный герой принимает важное решение...") "Dune" 40)
  = (50000000 - 10000000) / 1000000.
Proof.
  destruct (elapsed_whole_seconds "1_book_7" sample_midway sample_session
              sample_midway_session) as [H _].
  - vm_compute. split; [discriminate|reflexivity].
  - exact (H _ sample_midway_report).
Defined.

Lemma progress_never_goes_back_witness :
  pr_progress (mkProgressReport 10 false None "Dune" 10)
  <= pr_progress (mkProgressReport 40 false
                    (Some "Главный герой принимает важное решение...") "Dune" 40).
Proof.
  destruct (progress_never_goes_back "1_book_7" sample_started sample_midway
              sample_session sample_session
              (mkProgressReport 10 false None "Dune" 10)
              (mkProgressReport 40 false
                 (Some "Главный герой принимает важное решение...") "Dune" 40)
              sample_started_reachable sample_started_session sample_midway_session
              eq_refl eq_refl) as (_ & H & _).
  - vm_compute. discriminate.
  - vm_compute. discriminate.
  - vm_compute. reflexivity.
  - exact sample_started_report.
  - exact sample_midway_report.
  - exact H.
Defined.

Lemma listing_spares_other_users_witness :
  dict_get "1_book_7" (sims_of (Api.get_active_simulations 2 sample_started).1)
  = Some sample_session
  /\ Api.get_active_simulations 2 sample_started = (sample_started, inr []).
Proof.
  destruct (listing_spares_other_users 2 sample_started sample_started_reachable)
    as (H1 & _ & H3).
  split.
  - apply H1; [exact sample_started_session|vm_compute; discriminate].
  - apply H3. intros k sim Hk.
    assert (Hin : In (k, sim) (sims_of sample_started)) by now apply dict_get_Some_In.
    vm_compute in Hin. destruct Hin as [[= <- <-]|[]]. vm_compute. discriminate.
Defined.

(** ** The worlds the endpoints run in *)

Lemma except_ValueError_world {A} (status : Z) (c : M A) w :
  (Api.except_ValueError status c w).1 = (c w).1.
Proof. unfold Api.except_ValueError. destruct (c w) as [w' [[]|a]]; reflexivity. Qed.

Lemma endpoint_step req w : step w (endpoint req w).
Proof.
  destruct req as [u body|k|k body|k|u]; simpl.
  - unfold Api.start_simulation. rewrite except_ValueError_world. apply step_start.
  - unfold Api.get_simulation_progress. rewrite except_ValueError_world. apply step_progress.
  - unfold Api.complete_simulation. rewrite except_ValueError_world. apply step_complete.
  - unfold Api.cancel_simulation. rewrite except_ValueError_world. apply step_cancel.
  - apply step_active.
Qed.

Lemma world_of_reachable g env :
  match g with
  | None => True
  | Some s => exists w, reachable w /\ service w = s
  end ->
  reachable (world_of g env).
Proof.
  destruct g as [s|]; unfold world_of, get_simulation_service.
  - intros (w & Hw & <-). eapply reach_step; [exact Hw|]. apply step_env.
  - intros _. apply reach_init.
Qed.

Lemma serve_reachable requests g s :
  match g with
  | None => True
  | Some s => exists w, reachable w /\ service w = s
  end ->
  serve g requests = Some s -> exists w, reachable w /\ service w = s.
Proof.
  revert g. induction requests as [|[env req] rest IH]; intros g Hg; simpl.
  - intros ->. exact Hg.
  - apply IH. exists (endpoint req (world_of g env)). split; [|reflexivity].
    eapply reach_step; [apply world_of_reachable; exact Hg|apply endpoint_step].
Qed.

(** X15: the module-level service object is created with an empty dict on
    the first request and keeps its dict from request to request, while the
    database session is the one of the current request.  So whatever
    requests came before, with whatever databases, clocks and generators,
    an endpoint runs in a reachable world and leaves a reachable world;
    the session keys are pairwise distinct there, no session has more than
    three events and every planned duration is within its range. *)
Theorem requests_run_in_reachable_worlds (before : list (Environment * Request))
    (env : Environment) (req : Request) :
  let w := world_of (serve None before) env in
  reachable w
  /\ reachable (endpoint req w)
  /\ sessions_ok (sims_of w)
  /\ sessions_ok (sims_of (endpoint req w))
  /\ db (service w) = env_db env
  /\ (before = [] -> sims_of w = [])
  /\ (forall env0 req0 earlier,
        before = earlier ++ [(env0, req0)] ->
        sims_of w = sims_of (endpoint req0 (world_of (serve None earlier) env0))).
Proof.
  intros w. subst w.
  assert (Hw : reachable (world_of (serve None before) env)).
  { apply world_of_reachable. destruct (serve None before) as [s|] eqn:Hs; [|exact I].
    exact (serve_reachable before None s I Hs). }
  assert (Hw' : reachable (endpoint req (world_of (serve None before) env)))
    by (eapply reach_step; [exact Hw|apply endpoint_step]).
  split_and!; try assumption.
  - now apply reachable_sessions_ok.
  - now apply reachable_sessions_ok.
  - unfold world_of, get_simulation_service. destruct (serve None before); reflexivity.
  - intros ->. reflexivity.
  - intros env0 req0 earlier ->.
    assert (Hserve : forall l g, serve g (l ++ [(env0, req0)])
              = Some (service (endpoint req0 (world_of (serve g l) env0)))).
    { induction l as [|[e r] l IHl]; intros g; simpl; [reflexivity|apply IHl]. }
    rewrite Hserve. reflexivity.
Qed.

(** ** Deleting a ledger row *)

(** X16: deleting a ledger row through the interactions endpoint.  When
    the row exists and belongs to the caller it is removed, no other row
    changes and the message is returned.  When there is no such row, or it
    belongs to another user, nothing is deleted and the call ends in a
    [NameError]: the module never imports [HTTPException], so the 404 it
    means to raise cannot be built.  The catalog is never touched. *)
Theorem delete_interaction_outcome (interaction_id u : Z) (d : Db) :
  let out := Interactions.delete_interaction interaction_id u d in
  (forall row,
     user_interactions d !! interaction_id = Some row -> user_id row = u ->
     out.2 = inr "Interaction deleted successfully"
     /\ user_interactions out.1 !! interaction_id = None
     /\ (forall j, j <> interaction_id ->
           user_interactions out.1 !! j = user_interactions d !! j))
  /\ ((forall row, user_interactions d !! interaction_id = Some row -> user_id row <> u) ->
      out = (d, inl (Interactions.NameError "HTTPException")))
  /\ books out.1 = books d /\ movies out.1 = movies d /\ games out.1 = games d
  /\ (forall msg, out.2 = inr msg -> msg = "Interaction deleted successfully").
Proof.
  intros out. subst out. unfold Interactions.delete_interaction.
  destruct (user_interactions d !! interaction_id) as [row|] eqn:Hrow.
  - destruct (decide (user_id row = u)) as [Hu|Hu]; cbn [fst snd].
    + split_and!; try reflexivity.
      * intros row' [= <-] _. split; [reflexivity|]. cbn [user_interactions]. split.
        -- apply lookup_delete_eq.
        -- intros j Hj. now apply lookup_delete_ne.
      * intros H. now destruct (H row eq_refl).
      * now intros msg [= <-].
    + split_and!; try reflexivity.
      * intros row' [= <-] Hu'. contradiction.
      * discriminate.
  - cbn [fst snd]. split_and!; try reflexivity; discriminate.
Qed.

(** X17: in a reachable world, when the owner deletes the ledger row of a
    live session through the interactions endpoint, the world stays
    reachable and the session stays live.  Completing it afterwards never
    returns a report: the session is removed and the call raises on the
    duration that was never assigned (for a rating a double can hold).
    Cancelling it instead succeeds and writes nothing to the ledger. *)
Theorem delete_interaction_orphans_session (k : string) (w : World) (sim : Simulation)
    (row : UserInteraction) :
  reachable w ->
  dict_get k (sims_of w) = Some sim ->
  ledger_of w !! sim_interaction_id sim = Some row ->
  let deleted :=
    Interactions.delete_interaction (sim_interaction_id sim) (user_id row) (db (service w)) in
  let w' := set_db deleted.1 w in
  deleted.2 = inr "Interaction deleted successfully"
  /\ reachable w'
  /\ sims_of w' = sims_of w
  /\ ledger_of w' !! sim_interaction_id sim = None
  /\ (forall r tags rep, (complete_simulation k r tags w').2 <> inr rep)
  /\ (forall r tags,
        Z.abs r < 2 ^ 1023 ->
        (complete_simulation k r tags w').2 = inl (UnboundLocalError "actual_duration"))
  /\ (forall r tags, dict_get k (sims_of (complete_simulation k r tags w').1) = None)
  /\ (exists rep, (cancel_simulation k w').2 = inr rep)
  /\ ledger_of (cancel_simulation k w').1 = ledger_of w'.
Proof.
  intros Hreach Hk Hrow deleted w'. subst w' deleted.
  unfold Interactions.delete_interaction.
  change (user_interactions (db (service w))) with (ledger_of w). rewrite Hrow.
  rewrite decide_True by reflexivity. cbn [fst snd].
  set (w' := set_db _ w).
  assert (Hreach' : reachable w').
  { eapply reach_step; [exact Hreach|]. unfold w', set_db. apply step_env. }
  assert (Hk' : dict_get k (sims_of w') = Some sim) by exact Hk.
  assert (Hnone : ledger_of w' !! sim_interaction_id sim = None)
    by (unfold w', ledger_of; simpl; apply lookup_delete_eq).
  split_and!; try reflexivity; try assumption.
  - intros r tags rep Hrep.
    destruct (complete_success k r tags w' sim rep Hk' Hrep) as (row' & _ & Hrow' & _).
    rewrite Hnone in Hrow'. discriminate.
  - intros r tags Hr.
    pose proof (wp_run _ _ _ (complete_spec k r tags w' sim Hk')) as H.
    unfold complete_post in H. rewrite Hnone in H. destruct H as (ur & Hpost & Hres).
    rewrite Hres. rewrite (popularity_post_result _ _ _ _ _ _ Hpost); [reflexivity|].
    now apply float_of_int_finite.
  - intros r tags.
    pose proof (wp_run _ _ _ (complete_spec k r tags w' sim Hk')) as H.
    unfold complete_post in H. rewrite Hnone in H. destruct H as (ur & Hpost & _).
    rewrite (popularity_post_sims _ _ _ _ _ _ Hpost).
    cbn [sims_of set_sims service active_simulations].
    apply dict_get_del_eq. apply (reachable_sessions_ok w' Hreach').
  - rewrite (cancel_spec k w' sim Hk'), Hnone. eexists. reflexivity.
  - rewrite (cancel_spec k w' sim Hk'), Hnone. reflexivity.
Qed.

Lemma delete_interaction_orphans_session_witness :
  set_db (Interactions.delete_interaction 1 1 (db (service sample_started))).1 sample_started
  = sample_orphaned
  /\ (complete_simulation "1_book_7" 9 None sample_orphaned).2
     = inl (UnboundLocalError "actual_duration").
Proof.
  assert (Heq : set_db (Interactions.delete_interaction 1 1 (db (service sample_started))).1
                  sample_started = sample_orphaned) by (vm_compute; reflexivity).
  split; [exact Heq|].
  destruct (delete_interaction_orphans_session "1_book_7" sample_started sample_session
              sample_row sample_started_reachable sample_started_session
              sample_started_row) as (_ & _ & _ & _ & _ & H & _).
  change (sim_interaction_id sample_session) with 1 in H.
  change (user_id sample_row) with 1 in H.
  rewrite Heq in H. apply H. vm_compute. reflexivity.
Defined.

(** ** The statistics of a user *)

Section Stats.
Import Interactions.
Implicit Types (rows : list UserInteraction) (i : UserInteraction).

Lemma sum_app (l1 l2 : list Z) : sum (l1 ++ l2) = sum l1 + sum l2.
Proof. unfold sum. induction l1 as [|x l1 IH]; simpl; lia. Qed.

Lemma sum_Permutation (l1 l2 : list Z) : l1 ≡ₚ l2 -> sum l1 = sum l2.
Proof. unfold sum. induction 1; simpl; lia. Qed.

Lemma of_type_disjoint rows t1 t2 :
  t1 <> t2 ->
  (length (of_type t1 rows) + length (of_type t2 rows) <= length rows)%nat.
Proof.
  intros Hne. unfold of_type. induction rows as [|i rows IH]; [reflexivity|].
  rewrite !filter_cons. destruct (decide (interaction_type i = t1)) as [H1|H1];
    destruct (decide (interaction_type i = t2)) as [H2|H2]; simpl; try lia.
  congruence.
Qed.

Lemma filter_length_le {A} (P : A -> Prop) `{!forall x, Decision (P x)} (l : list A) :
  (length (filter P l) <= length l)%nat.
Proof.
  induction l as [|x l IH]; [reflexivity|]. rewrite filter_cons.
  destruct (decide (P x)); simpl; lia.
Qed.

Lemma counts_eq (b b' m m' g g' : Z) :
  b = b' -> m = m' -> g = g' ->
  [("book", b); ("movie", m); ("game", g)] = [("book", b'); ("movie", m'); ("game", g')].
Proof. now intros -> -> ->. Qed.

Lemma count_content_types_spec rows b m g :
  match count_content_types rows [("book", b); ("movie", m); ("game", g)] with
  | inr counts =>
      Forall countable rows
      /\ counts = [ ("book", b + Z.of_nat (length (with_content_type "book" rows)));
                    ("movie", m + Z.of_nat (length (with_content_type "movie" rows)));
                    ("game", g + Z.of_nat (length (with_content_type "game" rows))) ]
  | inl e =>
      exists i, In i rows /\ ~ countable i /\ e = KeyError (content_type i)
  end.
Proof.
  revert b m g. induction rows as [|i rows IH]; intros b m g.
  - simpl. split; [apply Forall_nil_2|]. unfold with_content_type.
    apply counts_eq; simpl; lia.
  - cbn [count_content_types]. unfold with_content_type. rewrite !filter_cons.
    cbn [dict_get dict_set].
    destruct (decide (content_type i = "book")) as [Hb|Hb].
    + rewrite Hb. simpl.
      specialize (IH (b + 1) m g).
      destruct (count_content_types rows _) as [e|counts].
      * destruct IH as (j & Hj & Hnc & ->). exists j. split; [now right|easy].
      * destruct IH as [Hall ->]. split.
        -- apply Forall_cons. split; [left; exact Hb|exact Hall].
        -- unfold with_content_type. apply counts_eq; simpl; lia.
    + destruct (decide (content_type i = "movie")) as [Hm|Hm].
      * rewrite Hm. simpl.
        specialize (IH b (m + 1) g).
        destruct (count_content_types rows _) as [e|counts].
        -- destruct IH as (j & Hj & Hnc & ->). exists j. split; [now right|easy].
        -- destruct IH as [Hall ->]. split.
           ++ apply Forall_cons. split; [right; left; exact Hm|exact Hall].
           ++ unfold with_content_type. apply counts_eq; simpl; lia.
      * destruct (decide (content_type i = "game")) as [Hg|Hg].
        -- rewrite Hg. simpl.
           specialize (IH b m (g + 1)).
           destruct (count_content_types rows _) as [e|counts].
           ++ destruct IH as (j & Hj & Hnc & ->). exists j. split; [now right|easy].
           ++ destruct IH as [Hall ->]. split.
              ** apply Forall_cons. split; [right; right; exact Hg|exact Hall].
              ** unfold with_content_type. apply counts_eq; simpl; lia.
        -- exists i. split; [now left|]. split; [|reflexivity].
           intros [?|[?|?]]; contradiction.
Qed.

Lemma countable_partition rows :
  Forall countable rows ->
  (length (with_content_type "book" rows) + length (with_content_type "movie" rows)
   + length (with_content_type "game" rows) = length rows)%nat.
Proof.
  unfold with_content_type. induction 1 as [|i rows Hi _ IH]; [reflexivity|].
  rewrite !filter_cons.
  destruct Hi as [Hi|[Hi|Hi]]; rewrite Hi; simpl; lia.
Qed.

Lemma recent_rows_spec week_ago rows :
  match recent_rows week_ago rows with
  | inr recent =>
      Forall (fun i => is_Some (start_date i)) rows
      /\ (length recent <= length rows)%nat
      /\ forall i, In i recent <-> In i rows /\ exists t, start_date i = Some t /\ week_ago <= t
  | inl e => exists i, In i rows /\ start_date i = None
  end.
Proof.
  induction rows as [|i rows IH]; simpl.
  - split; [apply Forall_nil_2|]. split; [reflexivity|]. intros i. split; [intros []|intros [[] _]].
  - destruct (start_date i) as [t|] eqn:Ht; [|exists i; split; [now left|exact Ht]].
    destruct (recent_rows week_ago rows) as [e|recent]; cbn [ebind].
    + destruct IH as (j & Hj & Hnone). exists j. split; [now right|exact Hnone].
    + destruct IH as (Hall & Hlen & Hin). split; [|split].
      * apply Forall_cons. split; [rewrite Ht; eauto|exact Hall].
      * destruct (week_ago <=? t); simpl; lia.
      * intros j. destruct (week_ago <=? t) eqn:Hle.
        -- apply Z.leb_le in Hle. simpl. rewrite Hin. split.
           ++ intros [<-|[Hj Hex]]; [split; [now left|eauto]|split; [now right|exact Hex]].
           ++ intros [[<-|Hj] Hex]; [now left|right; easy].
        -- apply Z.leb_gt in Hle. rewrite Hin. split.
           ++ intros [Hj Hex]. split; [now right|exact Hex].
           ++ intros [[<-|Hj] Hex]; [|easy].
              destruct Hex as (t' & Ht' & Hle'). rewrite Ht in Ht'. injection Ht' as <-. lia.
Qed.

End Stats.

(** The fields of the statistics, when the endpoint returns them. *)
Lemma get_user_stats_fields (all_rows : gmap Z UserInteraction -> list UserInteraction)
    (u now : Z) (d : Db) (st : Interactions.Stats) :
  Interactions.get_user_stats all_rows u now d = inr st ->
  let mine := Interactions.of_user u (all_rows (user_interactions d)) in
  let done := Interactions.of_type "completed" mine in
  Interactions.total_interactions st = Z.of_nat (length mine)
  /\ Interactions.completed st = Z.of_nat (length done)
  /\ Interactions.dropped st = Z.of_nat (length (Interactions.of_type "dropped" mine))
  /\ Interactions.total_time_spent st
     = Interactions.sum (Interactions.truthy_values simulation_duration done)
  /\ Forall countable done
  /\ Interactions.by_content_type st
     = [ ("book", 0 + Z.of_nat (length (with_content_type "book" done)));
         ("movie", 0 + Z.of_nat (length (with_content_type "movie" done)));
         ("game", 0 + Z.of_nat (length (with_content_type "game" done))) ]
  /\ (exists recent,
        Interactions.recent_rows (now - Interactions.week) mine = inr recent
        /\ Interactions.recent_activity st = Z.of_nat (length recent))
  /\ match Interactions.truthy_values rating done with
     | [] => Interactions.average_rating st = None
     | ratings =>
         Interactions.average_rating st
         = Some (round2 (int_true_div (Interactions.sum ratings)
                                      (Z.of_nat (length ratings))))
     end.
Proof.
  intros Hst mine done. unfold Interactions.get_user_stats in Hst. fold mine done in Hst.
  set (ratings := Interactions.truthy_values rating done) in *.
  destruct (match ratings with
            | [] => inr None
            | _ => _
            end) as [e|avg] eqn:Havg; [discriminate|]. cbn [Interactions.ebind] in Hst.
  pose proof (count_content_types_spec done 0 0 0) as Hct.
  destruct (Interactions.count_content_types done _) as [e|counts]; [discriminate|].
  cbn [Interactions.ebind] in Hst. destruct Hct as [Hcountable ->].
  destruct (Interactions.recent_rows _ mine) as [e|recent] eqn:Hrec; [discriminate|].
  cbn [Interactions.ebind] in Hst. injection Hst as <-.
  cbn [Interactions.total_interactions Interactions.completed Interactions.dropped
       Interactions.total_time_spent Interactions.by_content_type
       Interactions.recent_activity Interactions.average_rating].
  split_and!; try reflexivity; try assumption.
  - exists recent. split; reflexivity.
  - destruct ratings as [|x l]; [now injection Havg as <-|].
    destruct (is_finite _); [|discriminate]. now injection Havg as <-.
Qed.

(** X18: when the statistics endpoint returns, the total is the number
    of the user's rows and [completed] the number of those of type
    "completed"; [completed + dropped] is at most the total and so is the
    recent activity; the counts by content type are those of book, movie
    and game, in that order, and add up to [completed]; every completed row
    has one of these three content types and every row of the user a start
    date (else the endpoint raises); the average rating keeps its initial 0
    exactly when no completed row has a rating other than 0; and the time
    spent is the sum of the durations of the completed rows. *)
Theorem get_user_stats_counts (all_rows : gmap Z UserInteraction -> list UserInteraction)
    (u now : Z) (d : Db) (st : Interactions.Stats) :
  Interactions.get_user_stats all_rows u now d = inr st ->
  let mine := Interactions.of_user u (all_rows (user_interactions d)) in
  let done := Interactions.of_type "completed" mine in
  Interactions.total_interactions st = Z.of_nat (length mine)
  /\ Interactions.completed st = Z.of_nat (length done)
  /\ 0 <= Interactions.dropped st
  /\ Interactions.completed st + Interactions.dropped st
     <= Interactions.total_interactions st
  /\ 0 <= Interactions.recent_activity st <= Interactions.total_interactions st
  /\ (exists nb nm ng,
        Interactions.by_content_type st = [("book", nb); ("movie", nm); ("game", ng)]
        /\ 0 <= nb /\ 0 <= nm /\ 0 <= ng
        /\ nb + nm + ng = Interactions.completed st)
  /\ Forall countable done
  /\ Forall (fun i => is_Some (start_date i)) mine
  /\ (Interactions.average_rating st = None
      <-> Forall (fun i => rating i = None \/ rating i = Some 0) done)
  /\ Interactions.total_time_spent st
     = Interactions.sum (omap simulation_duration done).
Proof.
  intros Hst mine done.
  destruct (get_user_stats_fields all_rows u now d st Hst)
    as (Htot & Hdone & Hdrop & Htime & Hcountable & Hct & (recent & Hrec & Hra) & Havg).
  fold mine done in Htot, Hdone, Hdrop, Htime, Hcountable, Hct, Hrec, Havg.
  pose proof (recent_rows_spec (now - Interactions.week) mine) as Hspec.
  rewrite Hrec in Hspec. destruct Hspec as (Hdates & Hlen & _).
  pose proof (of_type_disjoint mine "completed" "dropped" ltac:(discriminate)) as Hdis.
  fold done in Hdis.
  split_and!; try assumption; try lia.
  - eexists _, _, _. split; [exact Hct|].
    pose proof (countable_partition done Hcountable). split_and!; lia.
  - (* no average exactly when no rating counts *)
    assert (Hr : Interactions.truthy_values rating done = []
                 <-> Forall (fun i => rating i = None \/ rating i = Some 0) done).
    { unfold Interactions.truthy_values. clear. induction done as [|i l IH]; simpl.
      - split; [intros _; apply Forall_nil_2|reflexivity].
      - rewrite Forall_cons. unfold Interactions.truthy at 1.
        destruct (rating i) as [v|] eqn:Hv; simpl.
        + destruct (Z.eqb_spec v 0) as [->|Hne]; simpl.
          * rewrite IH. split; [intros H; split; [now right|exact H]|now intros [_ H]].
          * split; [discriminate|]. intros [[H|H] _]; [discriminate|]. congruence.
        + rewrite IH. split; [intros H; split; [now left|exact H]|now intros [_ H]]. }
    rewrite <- Hr. destruct (Interactions.truthy_values rating done) as [|x l].
    + rewrite Havg. easy.
    + rewrite Havg. split; discriminate.
  - (* the durations that are 0 add nothing *)
    rewrite Htime. unfold Interactions.truthy_values, Interactions.sum. clear.
    induction done as [|i l IH]; [reflexivity|].
    simpl in *. unfold Interactions.truthy at 1.
    destruct (simulation_duration i) as [v|]; simpl; [|exact IH].
    destruct (Z.eqb_spec v 0) as [->|Hne]; simpl; [rewrite Z.add_0_l|f_equal]; exact IH.
Qed.

(** ** A completion in the statistics *)

Lemma rows_replaced (all_rows : gmap Z UserInteraction -> list UserInteraction)
    (ledger : gmap Z UserInteraction) i row row' :
  (forall m, all_rows m ≡ₚ (map_to_list m).*2) ->
  ledger !! i = Some row ->
  all_rows ledger ≡ₚ row :: (map_to_list (delete i ledger)).*2
  /\ all_rows (<[i := row']> ledger) ≡ₚ row' :: (map_to_list (delete i ledger)).*2.
Proof.
  intros Hperm Hrow. split.
  - rewrite Hperm, <- (map_to_list_delete ledger i row Hrow). reflexivity.
  - rewrite Hperm, <- (insert_delete_eq ledger).
    rewrite map_to_list_insert by apply lookup_delete_eq. reflexivity.
Qed.

Lemma of_user_cons u i rows :
  Interactions.of_user u (i :: rows)
  = if decide (user_id i = u) then i :: Interactions.of_user u rows
    else Interactions.of_user u rows.
Proof. unfold Interactions.of_user. now rewrite filter_cons. Qed.

Lemma of_type_cons t i rows :
  Interactions.of_type t (i :: rows)
  = if decide (interaction_type i = t) then i :: Interactions.of_type t rows
    else Interactions.of_type t rows.
Proof. unfold Interactions.of_type. now rewrite filter_cons. Qed.

Lemma of_user_Permutation u rows rows' :
  rows ≡ₚ rows' -> Interactions.of_user u rows ≡ₚ Interactions.of_user u rows'.
Proof. unfold Interactions.of_user. now intros ->. Qed.

Lemma of_type_Permutation t rows rows' :
  rows ≡ₚ rows' -> Interactions.of_type t rows ≡ₚ Interactions.of_type t rows'.
Proof. unfold Interactions.of_type. now intros ->. Qed.

Lemma truthy_values_Permutation f rows rows' :
  rows ≡ₚ rows' ->
  Interactions.truthy_values f rows ≡ₚ Interactions.truthy_values f rows'.
Proof. unfold Interactions.truthy_values. now intros ->. Qed.

(** X19: a completion shows in the statistics of the owner of the ledger
    row.  If the row was of type "started" and the completion returns a
    report, then, whatever order the database returns the rows in, the
    statistics after it have the same total, one more completed, the same
    number dropped, and the reported duration more of time spent, provided
    the statistics endpoint returns before and after. *)
Theorem completion_shows_in_stats
    (all_rows : gmap Z UserInteraction -> list UserInteraction)
    (k : string) (r : Z) (tags : option (list string)) (w : World) (sim : Simulation)
    (rep : CompletionReport) (row : UserInteraction) (now now' : Z)
    (st st' : Interactions.Stats) :
  (forall m, all_rows m ≡ₚ (map_to_list m).*2) ->
  dict_get k (sims_of w) = Some sim ->
  (complete_simulation k r tags w).2 = inr rep ->
  ledger_of w !! sim_interaction_id sim = Some row ->
  interaction_type row = "started" ->
  Interactions.get_user_stats all_rows (user_id row) now (db (service w)) = inr st ->
  Interactions.get_user_stats all_rows (user_id row) now'
    (db (service (complete_simulation k r tags w).1)) = inr st' ->
  Interactions.total_interactions st' = Interactions.total_interactions st
  /\ Interactions.completed st' = Interactions.completed st + 1
  /\ Interactions.dropped st' = Interactions.dropped st
  /\ Interactions.total_time_spent st'
     = Interactions.total_time_spent st + cr_duration rep.
Proof.
  intros Hperm Hk Hrep Hrow Htype Hst Hst'.
  destruct (complete_success k r tags w sim rep Hk Hrep)
    as (row0 & dur & Hrow0 & _ & -> & Hpost).
  rewrite Hrow in Hrow0. injection Hrow0 as <-.
  pose proof (popularity_post_ledger _ _ _ _ _ _ Hpost) as Hl.
  unfold ledger_of at 2 in Hl. cbn [set_sims set_ledger set_db tick service db user_interactions]
    in Hl.
  set (row' := completed_row row r tags (now_of w) dur) in *.
  destruct (rows_replaced all_rows (ledger_of w) (sim_interaction_id sim) row row' Hperm Hrow)
    as [Hrows Hrows'].
  rewrite <- Hl in Hrows'.
  set (R := (map_to_list (delete (sim_interaction_id sim) (ledger_of w))).*2) in *.
  set (u := user_id row) in *.
  destruct (get_user_stats_fields _ _ _ _ _ Hst) as (Htot & Hdone & Hdrop & Htime & _).
  destruct (get_user_stats_fields _ _ _ _ _ Hst') as (Htot' & Hdone' & Hdrop' & Htime' & _).
  cbv zeta in *. fold (ledger_of w) in Htot, Hdone, Hdrop, Htime.
  fold (ledger_of (complete_simulation k r tags w).1) in Htot', Hdone', Hdrop', Htime'.
  (* the rows of the user before and after *)
  assert (Hmine : Interactions.of_user u (all_rows (ledger_of w))
                  ≡ₚ row :: Interactions.of_user u R).
  { rewrite (of_user_Permutation _ _ _ Hrows), of_user_cons.
    now rewrite decide_True by reflexivity. }
  assert (Hmine' : Interactions.of_user u (all_rows (ledger_of (complete_simulation k r tags w).1))
                   ≡ₚ row' :: Interactions.of_user u R).
  { rewrite (of_user_Permutation _ _ _ Hrows'), of_user_cons.
    now rewrite decide_True by reflexivity. }
  set (M := Interactions.of_user u R) in *.
  assert (Hd : Interactions.of_type "completed" (Interactions.of_user u (all_rows (ledger_of w)))
               ≡ₚ Interactions.of_type "completed" M).
  { rewrite (of_type_Permutation _ _ _ Hmine), of_type_cons.
    rewrite decide_False; [reflexivity|]. rewrite Htype. discriminate. }
  assert (Hd' : Interactions.of_type "completed"
                  (Interactions.of_user u (all_rows (ledger_of (complete_simulation k r tags w).1)))
                ≡ₚ row' :: Interactions.of_type "completed" M).
  { rewrite (of_type_Permutation _ _ _ Hmine'), of_type_cons.
    now rewrite decide_True by reflexivity. }
  assert (Hp : Interactions.of_type "dropped" (Interactions.of_user u (all_rows (ledger_of w)))
               ≡ₚ Interactions.of_type "dropped" M).
  { rewrite (of_type_Permutation _ _ _ Hmine), of_type_cons.
    rewrite decide_False; [reflexivity|]. rewrite Htype. discriminate. }
  assert (Hp' : Interactions.of_type "dropped"
                  (Interactions.of_user u (all_rows (ledger_of (complete_simulation k r tags w).1)))
                ≡ₚ Interactions.of_type "dropped" M).
  { rewrite (of_type_Permutation _ _ _ Hmine'), of_type_cons.
    rewrite decide_False; [reflexivity|]. discriminate. }
  split_and!.
  - rewrite Htot, Htot'. f_equal.
    rewrite (Permutation_length Hmine), (Permutation_length Hmine'). reflexivity.
  - rewrite Hdone, Hdone', (Permutation_length Hd), (Permutation_length Hd'). simpl. lia.
  - rewrite Hdrop, Hdrop', (Permutation_length Hp), (Permutation_length Hp'). reflexivity.
  - rewrite Htime, Htime'.
    rewrite (sum_Permutation _ _ (truthy_values_Permutation simulation_duration _ _ Hd)).
    rewrite (sum_Permutation _ _ (truthy_values_Permutation simulation_duration _ _ Hd')).
    cbn [cr_duration]. unfold Interactions.truthy_values at 1. cbn [omap list_omap].
    change (simulation_duration row') with (Some dur). cbn [Interactions.truthy].
    destruct (Z.eqb_spec dur 0) as [->|Hne]; cbn [negb Interactions.sum foldr];
      unfold Interactions.truthy_values, Interactions.sum; lia.
Qed.

(** ** The library of a user *)

Lemma library_eq (r r' c c' d d' p p' : list UserInteraction) :
  r = r' -> c = c' -> d = d' -> p = p' ->
  [("reading", r); ("completed", c); ("dropped", d); ("planned", p)]
  = [("reading", r'); ("completed", c'); ("dropped", d'); ("planned", p')].
Proof. now intros -> -> -> ->. Qed.

Lemma group_by_status_spec rows r c d p :
  Interactions.group_by_status rows
    [("reading", r); ("completed", c); ("dropped", d); ("planned", p)]
  = inr [ ("reading", r ++ filter shown_as_reading rows);
          ("completed", c ++ Interactions.of_type "completed" rows);
          ("dropped", d ++ Interactions.of_type "dropped" rows);
          ("planned", p ++ Interactions.of_type "planned" rows) ].
Proof.
  revert r c d p. induction rows as [|i rows IH]; intros r c d p.
  - simpl. f_equal. apply library_eq; now rewrite app_nil_r.
  - cbn [Interactions.group_by_status]. unfold Interactions.of_type, shown_as_reading.
    rewrite !filter_cons. unfold Interactions.status_reverse_mapping. cbn [dict_get default].
    destruct (decide (interaction_type i = "started")) as [Hs|Hs].
    + rewrite Hs. simpl. rewrite IH. f_equal.
      apply library_eq; try reflexivity. now rewrite <- app_assoc.
    + destruct (decide (interaction_type i = "completed")) as [Hc|Hc].
      * rewrite Hc. simpl. rewrite IH. f_equal.
        apply library_eq; try reflexivity. now rewrite <- app_assoc.
      * destruct (decide (interaction_type i = "dropped")) as [Hd|Hd].
        -- rewrite Hd. simpl. rewrite IH. f_equal.
           apply library_eq; try reflexivity. now rewrite <- app_assoc.
        -- destruct (decide (interaction_type i = "planned")) as [Hp|Hp].
           ++ rewrite Hp. simpl. rewrite IH. f_equal.
              apply library_eq; try reflexivity. now rewrite <- app_assoc.
           ++ simpl. rewrite IH. f_equal.
              rewrite decide_True by easy.
              apply library_eq; try reflexivity. now rewrite <- app_assoc.
Qed.

(** X20: the library of a user.  For a status the router accepts, the
    endpoint returns the four groups reading, completed, dropped and
    planned, in that order, over the rows of the user that pass the filters,
    each group in the order of the query: a row is under completed, dropped
    or planned when that is its type and under reading otherwise, so a row
    of a type the mapping does not know is shown as reading and the four
    groups together are the rows of the query.  Any other status raises a
    [KeyError].  With the status reading only started rows are returned,
    all under reading; with completed, dropped or planned only rows of that
    type, none under reading. *)
Theorem get_user_library_groups
    (by_start_date : gmap Z UserInteraction -> list UserInteraction)
    (status : string) (content_type_filter : option string) (u : Z) (d : Db) :
  let rows := library_rows (by_start_date (user_interactions d)) status
                content_type_filter u in
  let out := Interactions.get_user_library by_start_date status content_type_filter u d in
  (status = "all" \/ status = "reading" \/ status = "completed" \/ status = "dropped"
   \/ status = "planned" ->
   out = inr [ ("reading", filter shown_as_reading rows);
               ("completed", Interactions.of_type "completed" rows);
               ("dropped", Interactions.of_type "dropped" rows);
               ("planned", Interactions.of_type "planned" rows) ])
  /\ (status <> "all" -> status <> "reading" -> status <> "completed" ->
      status <> "dropped" -> status <> "planned" ->
      out = inl (Interactions.KeyError status))
  /\ Forall (fun i => user_id i = u) rows
  /\ (status = "reading" ->
      Forall (fun i => interaction_type i = "started") rows
      /\ filter shown_as_reading rows = rows)
  /\ (status = "completed" \/ status = "dropped" \/ status = "planned" ->
      Forall (fun i => interaction_type i = status) rows
      /\ filter shown_as_reading rows = [])
  /\ filter shown_as_reading rows ++ Interactions.of_type "completed" rows
       ++ Interactions.of_type "dropped" rows ++ Interactions.of_type "planned" rows
     ≡ₚ rows.
Proof.
  intros rows out. subst out.
  set (mine := Interactions.of_user u (by_start_date (user_interactions d))).
  set (typed := match content_type_filter with
                | Some t => if decide (t = "") then mine else with_content_type t mine
                | None => mine
                end).
  assert (Hrows : rows = if decide (status = "all") then typed
                         else if decide (status = "reading")
                              then Interactions.of_type "started" typed
                              else Interactions.of_type status typed) by reflexivity.
  assert (Hout : Interactions.get_user_library by_start_date status content_type_filter u d
                 = Interactions.ebind
                     (if decide (status = "all") then inr typed
                      else match dict_get status Interactions.status_mapping with
                           | Some t => inr (Interactions.of_type t typed)
                           | None => inl (Interactions.KeyError status)
                           end)
                     (fun interactions =>
                        Interactions.group_by_status interactions
                          [("reading", []); ("completed", []); ("dropped", []);
                           ("planned", [])])) by reflexivity.
  assert (Hfilter : forall (P : UserInteraction -> Prop) `{!forall x, Decision (P x)} l,
            Forall P (filter P l)).
  { intros P HP l. apply Forall_forall. intros x Hx. now apply list_elem_of_filter in Hx. }
  assert (Hkeep : forall (P : UserInteraction -> Prop) `{!forall x, Decision (P x)} l,
            Forall P l -> filter P l = l).
  { intros P HP l Hl. induction Hl as [|x l Hx _ IH]; [reflexivity|].
    rewrite filter_cons, decide_True by exact Hx. now rewrite IH. }
  assert (Hdrop : forall (P : UserInteraction -> Prop) `{!forall x, Decision (P x)} l,
            Forall (fun x => ~ P x) l -> filter P l = []).
  { intros P HP l Hl. induction Hl as [|x l Hx _ IH]; [reflexivity|].
    rewrite filter_cons, decide_False by exact Hx. exact IH. }
  assert (Hsub : forall (P Q : UserInteraction -> Prop) `{!forall x, Decision (Q x)} l,
            Forall P l -> Forall P (filter Q l)).
  { intros P Q HQ l Hl. rewrite Forall_forall in *. intros x Hx.
    apply list_elem_of_filter in Hx as [_ Hx]. now apply Hl. }
  split_and!.
  - intros Hstatus. rewrite Hout, Hrows.
    destruct Hstatus as [->|[->|[->|[->| ->]]]]; cbn [decide]; simpl;
      rewrite group_by_status_spec; reflexivity.
  - intros H1 H2 H3 H4 H5. rewrite Hout. rewrite decide_False by exact H1.
    unfold Interactions.status_mapping. cbn [dict_get].
    now rewrite !decide_False by assumption.
  - assert (Hmine : Forall (fun i => user_id i = u) mine) by apply Hfilter.
    assert (Htyped : Forall (fun i => user_id i = u) typed).
    { unfold typed. destruct content_type_filter as [t|]; [|exact Hmine].
      destruct (decide (t = "")); [exact Hmine|].
      unfold with_content_type. now apply Hsub. }
    rewrite Hrows. repeat case_decide; try exact Htyped;
      unfold Interactions.of_type; now apply Hsub.
  - intros ->. rewrite Hrows. rewrite decide_False by discriminate.
    rewrite decide_True by reflexivity.
    assert (Hall : Forall (fun i => interaction_type i = "started")
                     (Interactions.of_type "started" typed)) by apply Hfilter.
    split; [exact Hall|]. apply Hkeep.
    eapply Forall_impl; [exact Hall|]. intros i Hi. unfold shown_as_reading.
    rewrite Hi. split_and!; discriminate.
  - intros Hstatus. rewrite Hrows.
    rewrite decide_False by (destruct Hstatus as [->|[->| ->]]; discriminate).
    rewrite decide_False by (destruct Hstatus as [->|[->| ->]]; discriminate).
    assert (Hall : Forall (fun i => interaction_type i = status)
                     (Interactions.of_type status typed)) by apply Hfilter.
    split; [exact Hall|]. apply Hdrop.
    eapply Forall_impl; [exact Hall|]. intros i Hi. unfold shown_as_reading.
    rewrite Hi. destruct Hstatus as [->|[->| ->]]; intros (H1 & H2 & H3); congruence.
  - clear. unfold Interactions.of_type, shown_as_reading.
    induction rows as [|i rows IH]; [reflexivity|].
    rewrite !filter_cons.
    set (A := filter _ rows) in *.
    set (B := filter (fun i => interaction_type i = "completed") rows) in *.
    set (C := filter (fun i => interaction_type i = "dropped") rows) in *.
    set (D := filter (fun i => interaction_type i = "planned") rows) in *.
    destruct (decide (interaction_type i = "completed")) as [Hc|Hc];
      destruct (decide (interaction_type i = "dropped")) as [Hd|Hd];
      destruct (decide (interaction_type i = "planned")) as [Hp|Hp];
      try (rewrite Hc in Hd; discriminate); try (rewrite Hc in Hp; discriminate);
      try (rewrite Hd in Hp; discriminate).
    + rewrite decide_False by (intros (H & _); contradiction).
      etransitivity; [|apply perm_skip; exact IH].
      simpl. now rewrite <- Permutation_middle.
    + rewrite decide_False by (intros (_ & H & _); contradiction).
      etransitivity; [|apply perm_skip; exact IH].
      simpl. rewrite (app_assoc A B), <- Permutation_middle, <- app_assoc. reflexivity.
    + rewrite decide_False by (intros (_ & _ & H); contradiction).
      etransitivity; [|apply perm_skip; exact IH].
      simpl. rewrite (app_assoc B C), (app_assoc A), <- Permutation_middle, <- !app_assoc.
      reflexivity.
    + rewrite decide_True by easy. simpl. now apply perm_skip.
Qed.

(** ** A session whose item has left the catalog *)


(** ** The interactions endpoints on the sample world *)

Lemma sample_completed_report :
  (complete_simulation "1_book_7" 9 None sample_started).2
  = inr (mkCompletionReport "Вы завершили чтение 'Dune'!" 9 10 90).
Proof. vm_compute. reflexivity. Qed.

Lemma get_user_stats_counts_witness :
  exists st,
    Interactions.get_user_stats Interactions.rows_of_map 1 100000000
      (db (service sample_completed)) = inr st
    /\ Interactions.completed st = 1
    /\ Interactions.by_content_type st = [("book", 1); ("movie", 0); ("game", 0)]
    /\ Interactions.completed st + Interactions.dropped st
       <= Interactions.total_interactions st.
Proof.
  eexists. split; [vm_compute; reflexivity|]. split; [reflexivity|]. split; [reflexivity|].
  eapply (get_user_stats_counts Interactions.rows_of_map 1 100000000
            (db (service sample_completed))).
  vm_compute. reflexivity.
Defined.

Lemma sample_started_stats :
  Interactions.get_user_stats Interactions.rows_of_map 1 100000000
    (db (service sample_started))
  = inr (Interactions.mkStats 1 0 0 None 0 [("book", 0); ("movie", 0); ("game", 0)] 1).
Proof. vm_compute. reflexivity. Qed.

Lemma sample_completed_stats :
  Interactions.get_user_stats Interactions.rows_of_map 1 100000000
    (db (service (complete_simulation "1_book_7" 9 None sample_started).1))
  = inr (Interactions.mkStats 1 1 0 (Some (float_of_int 9)) 10
           [("book", 1); ("movie", 0); ("game", 0)] 1).
Proof. vm_compute. reflexivity. Qed.

Lemma completion_shows_in_stats_witness :
  Interactions.completed
    (Interactions.mkStats 1 1 0 (Some (float_of_int 9)) 10
       [("book", 1); ("movie", 0); ("game", 0)] 1)
  = Interactions.completed
      (Interactions.mkStats 1 0 0 None 0 [("book", 0); ("movie", 0); ("game", 0)] 1) + 1.
Proof.
  pose proof (completion_shows_in_stats Interactions.rows_of_map "1_book_7" 9 None
                sample_started sample_session
                (mkCompletionReport "Вы завершили чтение 'Dune'!" 9 10 90)
                sample_row 100000000 100000000 _ _
                (fun m => reflexivity _)
                sample_started_session sample_completed_report sample_started_row
                eq_refl sample_started_stats sample_completed_stats) as (_ & H & _).
  exact H.
Defined.


(** ** The chance of an event *)

(** Comparing two positive normal doubles compares their values. *)
Lemma flt_normal m1 e1 m2 e2 :
  Zdigits2 (Z.pos m1) = 53 -> Zdigits2 (Z.pos m2) = 53 ->
  flt (S754_finite false m1 e1) (S754_finite false m2 e2) = true
  <-> (B2R (Z.pos m1) e1 < B2R (Z.pos m2) e2)%R.
Proof.
  intros Hd1 Hd2. unfold flt, SFltb, SFcompare.
  pose proof (B2R_digits (Z.pos m1) e1 ltac:(lia)) as [Hlo1 Hhi1].
  pose proof (B2R_digits (Z.pos m2) e2 ltac:(lia)) as [Hlo2 Hhi2].
  rewrite Hd1 in Hlo1, Hhi1. rewrite Hd2 in Hlo2, Hhi2.
  destruct (Z.compare_spec e1 e2) as [->|Hlt|Hgt].
  - rewrite Pos.compare_cont_spec. cbn [Pos.switch_Eq].
    change (m1 ?= m2)%positive with (Z.pos m1 ?= Z.pos m2).
    unfold B2R. pose proof (pow2_pos e2) as Hp.
    destruct (Z.compare_spec (Z.pos m1) (Z.pos m2)) as [Heq|Hl|Hg].
    + rewrite Heq. split; [discriminate|lra].
    + apply IZR_lt in Hl. split; [intros _; nra|reflexivity].
    + apply IZR_lt in Hg. split; [discriminate|nra].
  - assert (Hle : (pow2 (53 + e1) <= pow2 (53 + e2 - 1))%R) by (apply pow2_le; lia).
    split; [intros _; lra|reflexivity].
  - assert (Hle : (pow2 (53 + e2) <= pow2 (53 + e1 - 1))%R) by (apply pow2_le; lia).
    split; [discriminate|lra].
Qed.

(** [random.random()] is exact: a zero for the draw 0, else the normal
    double of value [k / 2^53]. *)
Lemma unit_float_value raw :
  let k := raw mod 2 ^ 53 in
  (k = 0 /\ unit_float raw = S754_zero false)
  \/ (0 < k
      /\ exists m e, unit_float raw = S754_finite false m e
                     /\ Zdigits2 (Z.pos m) = 53
                     /\ B2R (Z.pos m) e = B2R k (-53)).
Proof.
  intros k. pose proof (Z.mod_pos_bound raw (2 ^ 53) ltac:(lia)) as Hk. fold k in Hk.
  unfold unit_float. fold k. destruct k as [|p|p] eqn:Ek; [now left| |lia].
  right. split; [lia|]. cbn [binary_normalize].
  change (binary_round prec emax) with (binary_round 53 1024).
  pose proof (Zdigits2_pos (Z.pos p) ltac:(lia)) as Hd0.
  pose proof (Zdigits2_le (Z.pos p) 53 ltac:(lia) ltac:(lia) ltac:(lia)) as Hd53.
  set (d := Zdigits2 (Z.pos p)) in *.
  assert (HE : fexp64 (d + -53) = d - 106) by (rewrite fexp64_eq; lia).
  pose proof (binary_round_near p (-53)) as Hnear. fold d in Hnear.
  rewrite HE in Hnear. specialize (Hnear ltac:(lia)).
  destruct Hnear as (j & Hj & Habs & Hval & Hform).
  assert (Hx : B2R (Z.pos p) (-53) = (IZR (Z.pos p * 2 ^ (53 - d)) * pow2 (d - 106))%R).
  { fold (B2R (Z.pos p * 2 ^ (53 - d)) (d - 106)). rewrite B2R_shift by lia.
    f_equal. lia. }
  assert (Hjk : j = Z.pos p * 2 ^ (53 - d)).
  { rewrite Hx in Habs. set (n := Z.pos p * 2 ^ (53 - d)) in *.
    apply Rabs_le_both in Habs. pose proof (pow2_pos (d - 106)) as Hp.
    destruct (Z.lt_trichotomy j n) as [Hlt|[Heq|Hgt]]; [exfalso|exact Heq|exfalso].
    - assert (H1 : (IZR j + 1 <= IZR n)%R) by (rewrite <- plus_IZR; apply IZR_le; lia). nra.
    - assert (H1 : (IZR n + 1 <= IZR j)%R) by (rewrite <- plus_IZR; apply IZR_le; lia). nra. }
  rewrite Hjk, <- Hx in Hval.
  pose proof (B2R_digits (Z.pos p) (-53) ltac:(lia)) as [Hlo _]. fold d in Hlo.
  assert (Hpos : (0 < B2R (Z.pos p) (-53))%R).
  { pose proof (pow2_pos (d + -53 - 1)). lra. }
  destruct Hform as [Hz|(m & e & Hf & Hcan)].
  { rewrite Hz in Hval. simpl in Hval. lra. }
  exists m, e. split; [exact Hf|]. rewrite Hf in Hval. cbn [fval] in Hval.
  split; [|exact Hval].
  destruct (canonical_cases m e Hcan) as [[H53 _]|[He Hle]]; [exact H53|exfalso].
  pose proof (B2R_digits (Z.pos m) e ltac:(lia)) as [_ Hhi]. rewrite Hval in Hhi.
  assert (d + -53 - 1 < Zdigits2 (Z.pos m) + e) by (apply (pow2_between _ _ _ Hlo Hhi)).
  lia.
Qed.

Lemma lit_0_3_eq : lit_0_3 = S754_finite false 5404319552844595 (-54).
Proof. vm_compute. reflexivity. Qed.

(** [random.random() < 0.3] in terms of the raw draw. *)
Lemma unit_float_below_0_3 raw :
  flt (unit_float raw) lit_0_3 = true <-> raw mod 2 ^ 53 < 2702159776422298.
Proof.
  rewrite lit_0_3_eq.
  destruct (unit_float_value raw) as [[Hk ->]|(Hk & m & e & -> & Hd & Hval)].
  - rewrite Hk. split; [lia|reflexivity].
  - rewrite flt_normal by (exact Hd || reflexivity). rewrite Hval.
    set (k := raw mod 2 ^ 53) in *. unfold B2R.
    change (-54) with (-53 + -1). rewrite pow2_add.
    assert (Hh : pow2 (-1) = (/ 2)%R).
    { change (-1) with (- (1)). rewrite pow2_opp, pow2_1. reflexivity. }
    rewrite Hh. pose proof (pow2_pos (-53)) as Hp.
    split.
    + intros Hlt. assert (H2 : (IZR (2 * k) < IZR 5404319552844595)%R).
      { rewrite mult_IZR. nra. }
      apply lt_IZR in H2. lia.
    + intros Hlt. assert (H2 : (IZR (2 * k) < IZR 5404319552844595)%R)
        by (apply IZR_lt; lia).
      rewrite mult_IZR in H2. nra.
Qed.

(** When a progress call reports an event. *)
Lemma progress_event_gate k w sim :
  dict_get k (sims_of w) = Some sim ->
  wp (get_simulation_progress k) w (fun w' r =>
    forall rep, r = inr rep ->
      (is_Some (pr_event rep)
       <-> 20 < pr_progress rep /\ (length (events sim) < 3)%nat
           /\ flt (unit_float (draw_of w)) lit_0_3 = true)).
Proof.
  intros Hk. unfold get_simulation_progress. wp_steps. rewrite Hk. wp_steps.
  destruct (total_seconds _) as [e|elapsed] eqn:Hel; [wp_steps; discriminate|]. wp_steps.
  destruct (float_div_int _ _) as [e|ratio]; [wp_steps; discriminate|]. wp_steps.
  destruct (float_mul_int _ _) as [e|scaled]; [wp_steps; discriminate|]. wp_steps.
  destruct (py_int scaled) as [e|whole]; [wp_steps; discriminate|]. wp_steps.
  destruct (py_int_finite elapsed (total_seconds_finite _ _ Hel)) as [secs Hsecs].
  set (p := 100 `min` whole).
  apply (wp_mono _ _ (fun w' r => r = inl StatementError
                                  \/ (draw_of w' = draw_of w /\ r = inr tt))).
  2:{ destruct (ledger_of (tick w) !! sim_interaction_id sim); wp_steps; [|right; easy].
      destruct (storable _ _); [right; easy|now left]. }
  intros w1 r [->|[Hd ->]]; [intros rep0 [=]|]. wp_steps.
  destruct ((20 <? p) && (Z.of_nat (length (events sim)) <? 3)) eqn:Hgate.
  - apply andb_true_iff in Hgate as [Hp Hlen].
    apply Z.ltb_lt in Hp, Hlen.
    unfold random_random. wp_steps.
    change (binary_normalize prec emax (draw_of w1 mod 2 ^ 53) (-53) false)
      with (unit_float (draw_of w1)).
    rewrite Hd.
    destruct (flt (unit_float (draw_of w)) lit_0_3) eqn:Hflt.
    + wp_steps. unfold subscript.
      destruct (dict_get (sim_content_type sim) SIMULATION_EVENTS) as [pool|];
        [|wp_steps; discriminate].
      wp_steps. unfold random_choice.
      destruct pool as [|x pool'] eqn:Hpl; [wp_steps; discriminate|].
      rewrite <- Hpl. wp_steps.
      destruct (pool !! _) as [e|]; [|wp_steps; discriminate].
      wp_steps. rewrite Hsecs. wp_steps. intros rep [= <-]. cbn [pr_event pr_progress].
      split; [intros _; split_and!; [exact Hp|lia|reflexivity]|intros _; eauto].
    + wp_steps. rewrite Hsecs. wp_steps. intros rep [= <-]. cbn [pr_event pr_progress].
      split; [intros [? ?]; discriminate|intros (_ & _ & ?); discriminate].
  - wp_steps. rewrite Hsecs. wp_steps. intros rep [= <-]. cbn [pr_event pr_progress].
    apply andb_false_iff in Hgate.
    split; [intros [? ?]; discriminate|]. intros (H1 & H2 & _). fold p in H1.
    destruct Hgate as [Hg|Hg]; apply Z.ltb_ge in Hg; lia.
Qed.

(** X22: when a progress call reports an event.  A call that returns a
    report on a live session carries an event exactly when the reported
    percentage is above 20, the session has fewer than three events, and
    the raw draw, taken modulo 2^53, is below 2702159776422298: the draws
    for which [random.random()] is below the double 0.3. *)
Theorem event_chance (k : string) (w : World) (sim : Simulation) (rep : ProgressReport) :
  dict_get k (sims_of w) = Some sim ->
  (get_simulation_progress k w).2 = inr rep ->
  (is_Some (pr_event rep)
   <-> 20 < pr_progress rep /\ (length (events sim) < 3)%nat
       /\ draw_of w mod 2 ^ 53 < 2702159776422298).
Proof.
  intros Hk Hrep. rewrite <- unit_float_below_0_3.
  exact (wp_run _ _ _ (progress_event_gate k w sim Hk) rep Hrep).
Qed.

Lemma event_chance_witness :
  20 < 40 /\ (0 < 3)%nat /\ draw_of sample_midway mod 2 ^ 53 < 2702159776422298.
Proof.
  apply (proj1 (event_chance "1_book_7" sample_midway sample_session _
                  sample_midway_session sample_midway_report)).
  cbn [pr_event]. eauto.
Defined.

(** ** Sessions and their ledger rows *)

Lemma same_subject_refl r : same_subject r r.
Proof. unfold same_subject. easy. Qed.

Lemma ledger_kept_refl l : ledger_kept l l.
Proof. intros i row H. exists row. split; [exact H|apply same_subject_refl]. Qed.

Lemma ledger_kept_trans l1 l2 l3 :
  ledger_kept l1 l2 -> ledger_kept l2 l3 -> ledger_kept l1 l3.
Proof.
  intros H12 H23 i row H. destruct (H12 i row H) as (row2 & H2 & S2).
  destruct (H23 i row2 H2) as (row3 & H3 & S3). exists row3. split; [exact H3|].
  unfold same_subject in *. intuition congruence.
Qed.

(** Writing a row back with the same subject keeps the ledger. *)
Lemma ledger_kept_insert (l : gmap Z UserInteraction) i row row' :
  l !! i = Some row -> same_subject row row' -> ledger_kept l (<[i := row']> l).
Proof.
  intros Hi Hs j r Hj. destruct (decide (i = j)) as [<-|Hne].
  - rewrite lookup_insert_eq. exists row'. split; [reflexivity|]. congruence.
  - rewrite lookup_insert_ne by exact Hne. exists r. split; [exact Hj|apply same_subject_refl].
Qed.

Lemma ledger_kept_fresh (l : gmap Z UserInteraction) i row :
  l !! i = None -> ledger_kept l (<[i := row]> l).
Proof.
  intros Hi j r Hj. rewrite lookup_insert_ne by congruence.
  exists r. split; [exact Hj|apply same_subject_refl].
Qed.

Lemma store_progress_kept i p l : ledger_kept l (store_progress i p l).
Proof.
  unfold store_progress. destruct (l !! i) as [row|] eqn:Hi; [|apply ledger_kept_refl].
  apply (ledger_kept_insert l i row); [exact Hi|]. unfold same_subject. easy.
Qed.

Lemma session_linked_kept l l' sim :
  ledger_kept l l' -> session_linked l sim -> session_linked l' sim.
Proof.
  intros Hk (row & Hrow & Hu & Hct & Hcid). destruct (Hk _ _ Hrow) as (row' & Hrow' & S).
  exists row'. split; [exact Hrow'|]. unfold same_subject in S. intuition congruence.
Qed.

Lemma session_linked_events l sim ev :
  session_linked l sim -> session_linked l (with_events sim ev).
Proof. intros H. exact H. Qed.

Lemma all_linked_kept (l' : gmap Z UserInteraction) sims w :
  all_linked w -> ledger_kept (ledger_of w) l' ->
  (forall kv, In kv sims -> In kv (sims_of w)) ->
  Forall (fun kv : string * Simulation => session_linked l' kv.2) sims.
Proof.
  intros Hall Hk Hsub. apply Forall_forall. intros kv Hin. apply list_elem_of_In in Hin.
  unfold all_linked in Hall. rewrite Forall_forall in Hall.
  apply (session_linked_kept (ledger_of w)); [exact Hk|].
  apply Hall. apply list_elem_of_In. now apply Hsub.
Qed.

Lemma start_linked u ct cid w : all_linked w -> all_linked (start_simulation u ct cid w).1.
Proof.
  intros Hall. pose proof (wp_run _ _ _ (start_spec u ct cid w)) as H. unfold start_post in H.
  destruct (get_content_in (db (service w)) ct cid) as [c|]; [|destruct H as [-> _]; exact Hall].
  destruct H as (a & b & _ & _ & -> & _). unfold all_linked.
  set (i := fresh_key (ledger_of w)).
  set (l' := <[i := started_row i u ct cid (now_of w)]> (ledger_of w)).
  change (Forall (fun kv : string * Simulation => session_linked l' kv.2)
            (dict_set (simulation_key u ct cid)
               (mkSimulation i u ct cid (title c) (now_of (tick w))
                  (a + draw_of w mod (b - a + 1)) []) (sims_of w))).
  apply Forall_dict_set.
  - apply (all_linked_kept l' (sims_of w) w Hall); [|easy].
    apply ledger_kept_fresh. apply fresh_key_fresh.
  - exists (started_row i u ct cid (now_of w)). cbn [snd sim_interaction_id].
    split; [apply lookup_insert_eq|]. easy.
Qed.

Lemma progress_linked k w : all_linked w -> all_linked (get_simulation_progress k w).1.
Proof.
  intros Hall. destruct (dict_get k (sims_of w)) as [sim|] eqn:Hk.
  2:{ destruct (not_live k w Hk) as (-> & _). exact Hall. }
  destruct (progress_effect k w sim Hk) as [Hs Hl].
  set (w' := (get_simulation_progress k w).1) in *.
  assert (Hkept : ledger_kept (ledger_of w) (ledger_of w')).
  { destruct Hl as [->|[p ->]]; [apply ledger_kept_refl|apply store_progress_kept]. }
  unfold all_linked. destruct Hs as [->|[e ->]].
  - apply (all_linked_kept _ _ w Hall Hkept). easy.
  - apply Forall_dict_set.
    + apply (all_linked_kept _ _ w Hall Hkept). easy.
    + cbn [snd]. apply session_linked_events.
      apply (session_linked_kept (ledger_of w)); [exact Hkept|].
      exact (Forall_dict_get _ k sim _ Hall Hk).
Qed.

Lemma complete_ledger_kept k r tags w :
  ledger_kept (ledger_of w) (ledger_of (complete_simulation k r tags w).1).
Proof.
  destruct (dict_get k (sims_of w)) as [sim|] eqn:Hk.
  2:{ destruct (not_live k w Hk) as (_ & H & _). rewrite H. apply ledger_kept_refl. }
  pose proof (wp_run _ _ _ (complete_spec k r tags w sim Hk)) as H. unfold complete_post in H.
  destruct (ledger_of w !! sim_interaction_id sim) as [row|] eqn:Hrow.
  - destruct (duration_stored _ _ _) as [e|dur].
    + destruct H as [_ ->]. apply ledger_kept_refl.
    + destruct H as (ur & Hpost & _). rewrite (popularity_post_ledger _ _ _ _ _ _ Hpost).
      apply (ledger_kept_insert _ _ row); [exact Hrow|]. unfold same_subject. easy.
  - destruct H as (ur & Hpost & _). rewrite (popularity_post_ledger _ _ _ _ _ _ Hpost).
    apply ledger_kept_refl.
Qed.

Lemma cancel_ledger_kept k w :
  ledger_kept (ledger_of w) (ledger_of (cancel_simulation k w).1).
Proof.
  destruct (dict_get k (sims_of w)) as [sim|] eqn:Hk.
  2:{ destruct (not_live k w Hk) as (_ & _ & ->). apply ledger_kept_refl. }
  rewrite (cancel_spec k w sim Hk). cbn [fst].
  destruct (ledger_of w !! sim_interaction_id sim) as [row|] eqn:Hrow;
    [|apply ledger_kept_refl].
  apply (ledger_kept_insert _ _ row); [exact Hrow|]. unfold same_subject. easy.
Qed.

Lemma active_loop_linked u items acc w :
  all_linked w -> all_linked (Api.active_loop u items acc w).1.
Proof.
  revert acc w. induction items as [|[sim_id sim_data] rest IH]; intros acc w Hall.
  - exact Hall.
  - simpl. destruct (decide (sim_user_id sim_data = u)); [|now apply IH].
    unfold bind. pose proof (progress_linked sim_id w Hall) as Hall'.
    destruct (get_simulation_progress sim_id w) as [w1 [err|rep]]; [exact Hall'|].
    now apply IH.
Qed.

Lemma keeping_step_linked w w' : keeping_step w w' -> all_linked w -> all_linked w'.
Proof.
  intros Hstep Hall. destruct Hstep.
  - now apply start_linked.
  - now apply progress_linked.
  - unfold all_linked.
    apply (all_linked_kept _ _ w Hall (complete_ledger_kept k r tags w)).
    destruct (complete_sims k r tags w) as [->| ->]; [easy|]. intros kv. apply dict_del_In.
  - unfold all_linked.
    apply (all_linked_kept _ _ w Hall (cancel_ledger_kept k w)).
    destruct (cancel_sims k w) as [->| ->]; [easy|]. intros kv. apply dict_del_In.
  - unfold Api.get_active_simulations, bind, get_sims. now apply active_loop_linked.
  - unfold all_linked. apply (all_linked_kept _ _ w Hall); [assumption|easy].
Qed.

Lemma rows_kept_linked w : rows_kept w -> all_linked w.
Proof.
  induction 1 as [d c cp e ep|w w' _ IH Hstep].
  - apply Forall_nil_2.
  - now apply (keeping_step_linked w w').
Qed.

Lemma rows_kept_reachable w : rows_kept w -> reachable w.
Proof.
  induction 1 as [d c cp e ep|w w' _ IH Hstep]; [apply reach_init|].
  apply (reach_step w w' IH). destruct Hstep; constructor.
Qed.

(** Two live sessions with the same ledger row are one session. *)
Lemma linked_rows_differ w k sim k' sim' :
  all_linked w -> Forall session_filed (sims_of w) ->
  dict_get k (sims_of w) = Some sim -> dict_get k' (sims_of w) = Some sim' ->
  sim_interaction_id sim' = sim_interaction_id sim -> k' = k.
Proof.
  intros Hall Hfiled Hk Hk' Hid.
  destruct (Forall_dict_get _ k sim _ Hall Hk) as (row & Hrow & Hu & Hct & Hcid).
  destruct (Forall_dict_get _ k' sim' _ Hall Hk') as (row' & Hrow' & Hu' & Hct' & Hcid').
  cbn [snd] in *. rewrite Hid, Hrow in Hrow'. injection Hrow' as <-.
  pose proof (Forall_dict_get _ _ _ _ Hfiled Hk) as F.
  pose proof (Forall_dict_get _ _ _ _ Hfiled Hk') as F'.
  unfold session_filed in F, F'. cbn [fst snd] in F, F'. congruence.
Qed.

(** X23: the tracker never orphans a session.  In every world reached
    while nothing outside the tracker deletes a ledger row or gives it to
    another user or item, each live session has its ledger row, the row is
    of the session's user and item, no other live session has the same row,
    and completing the session does not fail for want of a duration. *)
Theorem sessions_keep_their_rows (w : World) (k : string) (sim : Simulation) :
  rows_kept w ->
  dict_get k (sims_of w) = Some sim ->
  (exists row,
     ledger_of w !! sim_interaction_id sim = Some row
     /\ user_id row = sim_user_id sim
     /\ content_type row = sim_content_type sim
     /\ content_id row = sim_content_id sim)
  /\ (forall k' sim',
        dict_get k' (sims_of w) = Some sim' ->
        sim_interaction_id sim' = sim_interaction_id sim -> k' = k)
  /\ (forall r tags,
        (complete_simulation k r tags w).2 <> inl (UnboundLocalError "actual_duration")).
Proof.
  intros Hrun Hk.
  pose proof (rows_kept_linked w Hrun) as Hall.
  pose proof (reachable_filed w (rows_kept_reachable w Hrun)) as Hfiled.
  pose proof (Forall_dict_get _ k sim _ Hall Hk) as Hlink. cbn [snd] in Hlink.
  split; [exact Hlink|]. destruct Hlink as (row & Hrow & Hu & Hct & Hcid). split.
  - intros k' sim' Hk' Hid. exact (linked_rows_differ w k sim k' sim' Hall Hfiled Hk Hk' Hid).
  - intros r tags Herr.
    pose proof (wp_run _ _ _ (complete_spec k r tags w sim Hk)) as H. unfold complete_post in H.
    rewrite Hrow, Herr in H.
    destruct (duration_stored _ _ _) as [e|dur] eqn:Hsec.
    + destruct H as [[= <-] _].
      destruct (duration_stored_inl _ _ _ _ Hsec) as [Hws|[? _]];
        [pose proof (whole_seconds_errors _ _ Hws)|]; discriminate.
    + destruct H as ([e|[]] & Hpost & Hr); [|discriminate].
      injection Hr as <-. pose proof (popularity_post_errors _ _ _ _ _ _ Hpost). discriminate.
Qed.

Lemma sample_started_rows_kept : rows_kept sample_started.
Proof. apply (rows_kept_step sample_world); constructor. Qed.

Lemma sessions_keep_their_rows_witness :
  exists row, ledger_of sample_started !! sim_interaction_id sample_session = Some row
              /\ user_id row = 1.
Proof.
  destruct (sessions_keep_their_rows sample_started "1_book_7" sample_session
              sample_started_rows_kept sample_started_session)
    as ((row & Hrow & Hu & _) & _).
  exists row. split; [exact Hrow|exact Hu].
Defined.

(** ** Rows whose outcome is recorded *)

Lemma tracker_step_keeping w w' : tracker_step w w' -> keeping_step w w'.
Proof.
  intros []; try constructor. rewrite H. apply ledger_kept_refl.
Qed.

Lemma tracker_run_rows_kept w : tracker_run w -> rows_kept w.
Proof.
  induction 1 as [d c cp e ep|w w' _ IH Hstep]; [apply rows_kept_init|].
  exact (rows_kept_step w w' IH (tracker_step_keeping w w' Hstep)).
Qed.

Lemma session_open_other (l : gmap Z UserInteraction) i row sim :
  sim_interaction_id sim <> i -> session_open l sim -> session_open (<[i := row]> l) sim.
Proof.
  intros Hne (r & Hr & Hopen). exists r. split; [|exact Hopen].
  rewrite lookup_insert_ne by congruence. exact Hr.
Qed.

Lemma session_open_progress (l : gmap Z UserInteraction) i p sim :
  session_open l sim -> session_open (store_progress i p l) sim.
Proof.
  intros (r & Hr & Hopen). unfold store_progress.
  destruct (l !! i) as [row|] eqn:Hi; [|now exists r].
  destruct (decide (i = sim_interaction_id sim)) as [->|Hne].
  - rewrite Hr in Hi. injection Hi as <-. exists (with_progress r p).
    split; [apply lookup_insert_eq|exact Hopen].
  - exists r. split; [|exact Hopen]. now rewrite lookup_insert_ne.
Qed.

Lemma start_open u ct cid w : all_open w -> all_open (start_simulation u ct cid w).1.
Proof.
  intros Hall. pose proof (wp_run _ _ _ (start_spec u ct cid w)) as H. unfold start_post in H.
  destruct (get_content_in (db (service w)) ct cid) as [c|]; [|destruct H as [-> _]; exact Hall].
  destruct H as (a & b & _ & _ & -> & _). unfold all_open.
  set (i := fresh_key (ledger_of w)).
  set (l' := <[i := started_row i u ct cid (now_of w)]> (ledger_of w)).
  change (Forall (fun kv : string * Simulation => session_open l' kv.2)
            (dict_set (simulation_key u ct cid)
               (mkSimulation i u ct cid (title c) (now_of (tick w))
                  (a + draw_of w mod (b - a + 1)) []) (sims_of w))).
  apply Forall_dict_set.
  - unfold all_open in Hall. eapply Forall_impl; [exact Hall|].
    intros [k sim] Hopen. cbn [snd] in *. apply session_open_other; [|exact Hopen].
    destruct Hopen as (r & Hr & _). intros Heq. rewrite Heq in Hr.
    unfold i in Hr. now rewrite fresh_key_fresh in Hr.
  - exists (started_row i u ct cid (now_of w)). cbn [snd sim_interaction_id].
    split; [apply lookup_insert_eq|]. unfold row_open. easy.
Qed.

Lemma progress_open k w : all_open w -> all_open (get_simulation_progress k w).1.
Proof.
  intros Hall. destruct (dict_get k (sims_of w)) as [sim|] eqn:Hk.
  2:{ destruct (not_live k w Hk) as (-> & _). exact Hall. }
  destruct (progress_effect k w sim Hk) as [Hs Hl].
  set (w' := (get_simulation_progress k w).1) in *.
  assert (Hopen : forall s, session_open (ledger_of w) s -> session_open (ledger_of w') s).
  { intros s Hs0. destruct Hl as [->|[p ->]]; [exact Hs0|now apply session_open_progress]. }
  assert (Hold : Forall (fun kv : string * Simulation => session_open (ledger_of w') kv.2)
                   (sims_of w)).
  { eapply Forall_impl; [exact Hall|]. intros kv. apply Hopen. }
  unfold all_open. destruct Hs as [->|[e ->]]; [exact Hold|].
  apply Forall_dict_set; [exact Hold|].
  exact (Forall_dict_get _ k sim _ Hold Hk).
Qed.

Lemma active_loop_open u items acc w :
  all_open w -> all_open (Api.active_loop u items acc w).1.
Proof.
  revert acc w. induction items as [|[sim_id sim_data] rest IH]; intros acc w Hall.
  - exact Hall.
  - simpl. destruct (decide (sim_user_id sim_data = u)); [|now apply IH].
    unfold bind. pose proof (progress_open sim_id w Hall) as Hall'.
    destruct (get_simulation_progress sim_id w) as [w1 [err|rep]]; [exact Hall'|].
    now apply IH.
Qed.

(** Removing a session whose row is rewritten leaves the other sessions
    open. *)
Lemma remove_open w k sim row' :
  rows_kept w -> all_open w -> dict_get k (sims_of w) = Some sim ->
  Forall (fun kv : string * Simulation =>
            session_open (<[sim_interaction_id sim := row']> (ledger_of w)) kv.2)
         (dict_del k (sims_of w)).
Proof.
  intros Hrun Hall Hk.
  pose proof (rows_kept_reachable w Hrun) as Hreach.
  destruct (reachable_sessions_ok w Hreach) as [Hnd _].
  apply Forall_forall. intros [k' sim'] Hin. apply list_elem_of_In in Hin. cbn [snd].
  assert (Hk' : dict_get k' (dict_del k (sims_of w)) = Some sim')
    by (apply dict_get_In; [now apply dict_del_NoDup|exact Hin]).
  assert (Hne : k <> k').
  { intros <-. rewrite dict_get_del_eq in Hk' by exact Hnd. discriminate. }
  rewrite dict_get_del_ne in Hk' by exact Hne.
  apply session_open_other; [|exact (Forall_dict_get _ k' sim' _ Hall Hk')].
  intros Hid. apply Hne. symmetry.
  exact (linked_rows_differ w k sim k' sim' (rows_kept_linked w Hrun)
           (reachable_filed w Hreach) Hk Hk' Hid).
Qed.

Lemma del_open w k :
  all_open w ->
  Forall (fun kv : string * Simulation => session_open (ledger_of w) kv.2)
         (dict_del k (sims_of w)).
Proof. intros Hall. now apply Forall_dict_del. Qed.

Lemma complete_open k r tags w :
  rows_kept w -> all_open w -> all_open (complete_simulation k r tags w).1.
Proof.
  intros Hrun Hall. destruct (dict_get k (sims_of w)) as [sim|] eqn:Hk.
  2:{ destruct (not_live k w Hk) as (_ & H & _). rewrite H. exact Hall. }
  pose proof (wp_run _ _ _ (complete_spec k r tags w sim Hk)) as H. unfold complete_post in H.
  unfold all_open.
  destruct (ledger_of w !! sim_interaction_id sim) as [row|] eqn:Hrow.
  - destruct (duration_stored _ _ _) as [e|dur].
    + destruct H as [_ ->]. exact Hall.
    + destruct H as (ur & Hpost & _).
      rewrite (popularity_post_ledger _ _ _ _ _ _ Hpost),
        (popularity_post_sims _ _ _ _ _ _ Hpost).
      exact (remove_open w k sim _ Hrun Hall Hk).
  - destruct H as (ur & Hpost & _).
    rewrite (popularity_post_ledger _ _ _ _ _ _ Hpost),
      (popularity_post_sims _ _ _ _ _ _ Hpost).
    exact (del_open w k Hall).
Qed.

Lemma cancel_open k w :
  rows_kept w -> all_open w -> all_open (cancel_simulation k w).1.
Proof.
  intros Hrun Hall. destruct (dict_get k (sims_of w)) as [sim|] eqn:Hk.
  2:{ destruct (not_live k w Hk) as (_ & _ & ->). exact Hall. }
  rewrite (cancel_spec k w sim Hk). cbn [fst]. unfold all_open.
  destruct (ledger_of w !! sim_interaction_id sim) as [row|] eqn:Hrow.
  - exact (remove_open w k sim _ Hrun Hall Hk).
  - exact (del_open w k Hall).
Qed.

Lemma tracker_step_open w w' :
  tracker_run w -> tracker_step w w' -> all_open w -> all_open w'.
Proof.
  intros Hrun Hstep Hall. pose proof (tracker_run_rows_kept w Hrun) as Hkept.
  destruct Hstep.
  - now apply start_open.
  - now apply progress_open.
  - now apply complete_open.
  - now apply cancel_open.
  - unfold Api.get_active_simulations, bind, get_sims. now apply active_loop_open.
  - unfold all_open, ledger_of, sims_of in *. cbn [service db active_simulations].
    rewrite H. exact Hall.
Qed.

Lemma tracker_run_open w : tracker_run w -> all_open w.
Proof.
  induction 1 as [d c cp e ep|w w' Hrun IH Hstep].
  - apply Forall_nil_2.
  - now apply (tracker_step_open w w').
Qed.

(** A row that no live session has is out of the reach of the tracker. *)
Lemma progress_unreferenced k w i row :
  unreferenced w i -> ledger_of w !! i = Some row ->
  unreferenced (get_simulation_progress k w).1 i
  /\ ledger_of (get_simulation_progress k w).1 !! i = Some row.
Proof.
  intros Hfree Hrow. destruct (dict_get k (sims_of w)) as [sim|] eqn:Hk.
  2:{ destruct (not_live k w Hk) as (-> & _). easy. }
  pose proof (Forall_dict_get _ k sim _ Hfree Hk) as Hne. cbn [snd] in Hne.
  destruct (progress_effect k w sim Hk) as [Hs Hl]. split.
  - unfold unreferenced. destruct Hs as [->|[e ->]]; [exact Hfree|].
    apply Forall_dict_set; [exact Hfree|exact Hne].
  - destruct Hl as [->|[p ->]]; [exact Hrow|]. now rewrite store_progress_other.
Qed.

Lemma active_loop_unreferenced u items acc w i row :
  unreferenced w i -> ledger_of w !! i = Some row ->
  unreferenced (Api.active_loop u items acc w).1 i
  /\ ledger_of (Api.active_loop u items acc w).1 !! i = Some row.
Proof.
  revert acc w. induction items as [|[sim_id sim_data] rest IH]; intros acc w Hfree Hrow.
  - easy.
  - simpl. destruct (decide (sim_user_id sim_data = u)); [|now apply IH].
    unfold bind. pose proof (progress_unreferenced sim_id w i row Hfree Hrow) as Hstep.
    destruct (get_simulation_progress sim_id w) as [w1 [err|rep]]; [exact Hstep|].
    cbn [fst] in Hstep. now apply IH.
Qed.

Lemma tracker_step_unreferenced w w' i row :
  tracker_step w w' -> unreferenced w i -> ledger_of w !! i = Some row ->
  unreferenced w' i /\ ledger_of w' !! i = Some row.
Proof.
  intros Hstep Hfree Hrow. destruct Hstep.
  - pose proof (wp_run _ _ _ (start_spec u ct cid w)) as H. unfold start_post in H.
    destruct (get_content_in (db (service w)) ct cid) as [c|]; [|destruct H as [-> _]; easy].
    destruct H as (a & b & _ & _ & -> & _).
    assert (Hne : fresh_key (ledger_of w) <> i).
    { intros Heq. rewrite <- Heq, fresh_key_fresh in Hrow. discriminate. }
    split.
    + unfold unreferenced.
      change (Forall (fun kv : string * Simulation => sim_interaction_id kv.2 <> i)
                (dict_set (simulation_key u ct cid)
                   (mkSimulation (fresh_key (ledger_of w)) u ct cid (title c)
                      (now_of (tick w)) (a + draw_of w mod (b - a + 1)) []) (sims_of w))).
      apply Forall_dict_set; [exact Hfree|exact Hne].
    + change (<[fresh_key (ledger_of w)
                := started_row (fresh_key (ledger_of w)) u ct cid (now_of w)]>
                (ledger_of w) !! i = Some row).
      now rewrite lookup_insert_ne.
  - now apply progress_unreferenced.
  - split.
    { unfold unreferenced. destruct (complete_sims k r tags w) as [->| ->];
        [exact Hfree|now apply Forall_dict_del]. }
    destruct (dict_get k (sims_of w)) as [sim|] eqn:Hk.
    2:{ destruct (not_live k w Hk) as (_ & H & _). rewrite H. exact Hrow. }
    pose proof (Forall_dict_get _ k sim _ Hfree Hk) as Hne. cbn [snd] in Hne.
    pose proof (wp_run _ _ _ (complete_spec k r tags w sim Hk)) as H. unfold complete_post in H.
    destruct (ledger_of w !! sim_interaction_id sim) as [row0|] eqn:Hrow0.
    + destruct (duration_stored _ _ _) as [e|dur].
      * destruct H as [_ ->]. exact Hrow.
      * destruct H as (ur & Hpost & _). rewrite (popularity_post_ledger _ _ _ _ _ _ Hpost).
        change (<[sim_interaction_id sim := completed_row row0 r tags (now_of w) dur]>
                  (ledger_of w) !! i = Some row).
        now rewrite lookup_insert_ne.
    + destruct H as (ur & Hpost & _). rewrite (popularity_post_ledger _ _ _ _ _ _ Hpost).
      exact Hrow.
  - split.
    { unfold unreferenced. destruct (cancel_sims k w) as [->| ->];
        [exact Hfree|now apply Forall_dict_del]. }
    destruct (dict_get k (sims_of w)) as [sim|] eqn:Hk.
    2:{ destruct (not_live k w Hk) as (_ & _ & ->). exact Hrow. }
    pose proof (Forall_dict_get _ k sim _ Hfree Hk) as Hne. cbn [snd] in Hne.
    rewrite (cancel_spec k w sim Hk). cbn [fst].
    destruct (ledger_of w !! sim_interaction_id sim) as [row0|] eqn:Hrow0; [|exact Hrow].
    change (<[sim_interaction_id sim := dropped_row row0 (now_of w)]> (ledger_of w) !! i
            = Some row).
    now rewrite lookup_insert_ne.
  - unfold Api.get_active_simulations, bind, get_sims. now apply active_loop_unreferenced.
  - split; [exact Hfree|]. unfold ledger_of at 1. cbn [service db]. rewrite H. exact Hrow.
Qed.

Lemma tracker_steps_unreferenced w w' i row :
  rtc tracker_step w w' -> unreferenced w i -> ledger_of w !! i = Some row ->
  unreferenced w' i /\ ledger_of w' !! i = Some row.
Proof.
  induction 1 as [w|w w1 w' Hstep _ IH]; intros Hfree Hrow; [easy|].
  destruct (tracker_step_unreferenced w w1 i row Hstep Hfree Hrow) as [Hfree1 Hrow1].
  now apply IH.
Qed.

(** A closed row is not the row of a live session. *)
Lemma closed_row_unreferenced w i row :
  all_open w -> ledger_of w !! i = Some row -> interaction_type row <> "started" ->
  unreferenced w i.
Proof.
  intros Hall Hrow Hclosed. unfold unreferenced. eapply Forall_impl; [exact Hall|].
  intros [k sim] (row' & Hrow' & Hopen & _) Hid. cbn [snd] in *.
  rewrite Hid, Hrow in Hrow'. injection Hrow' as <-. contradiction.
Qed.

(** X24: recorded outcomes are final.  While only the tracker writes to
    the ledger, the row of a live session is an open one: started, with no
    rating and no completion date; and a row that is no longer "started"
    (completed or dropped) is never changed again, whatever requests the
    tracker serves afterwards. *)
Theorem recorded_outcomes_stay (w w' : World) :
  tracker_run w ->
  rtc tracker_step w w' ->
  (forall k sim,
     dict_get k (sims_of w) = Some sim ->
     exists row,
       ledger_of w !! sim_interaction_id sim = Some row
       /\ interaction_type row = "started" /\ rating row = None
       /\ completion_date row = None)
  /\ (forall i row,
        ledger_of w !! i = Some row -> interaction_type row <> "started" ->
        ledger_of w' !! i = Some row).
Proof.
  intros Hrun Hsteps. split.
  - intros k sim Hk.
    destruct (Forall_dict_get _ k sim _ (tracker_run_open w Hrun) Hk)
      as (row & Hrow & Ht & Hr & Hc & _).
    exists row. easy.
  - intros i row Hrow Hclosed.
    apply (tracker_steps_unreferenced w w' i row Hsteps); [|exact Hrow].
    exact (closed_row_unreferenced w i row (tracker_run_open w Hrun) Hrow Hclosed).
Qed.

Lemma sample_completed_tracker_run : tracker_run sample_completed.
Proof.
  apply (tracker_run_step sample_started); [|constructor].
  apply (tracker_run_step sample_world); constructor.
Qed.

Lemma sample_completed_row :
  ledger_of sample_completed !! 1 = Some (completed_row sample_row 9 None 20000000 10).
Proof. vm_compute. reflexivity. Qed.

Lemma recorded_outcomes_stay_witness :
  ledger_of (start_simulation 1 "book" 7 sample_completed).1 !! 1
  = Some (completed_row sample_row 9 None 20000000 10).
Proof.
  destruct (recorded_outcomes_stay sample_completed
              (start_simulation 1 "book" 7 sample_completed).1
              sample_completed_tracker_run) as [_ H].
  - apply rtc_once. constructor.
  - apply H; [exact sample_completed_row|discriminate].
Defined.

(** ** Restarting an item *)

Lemma Forall_dict_set_other {V} (P : string * V -> Prop) k v (d : list (string * V)) :
  NoDup (dict_keys d) -> P (k, v) ->
  (forall k' v', k' <> k -> dict_get k' d = Some v' -> P (k', v')) ->
  Forall P (dict_set k v d).
Proof.
  intros Hnd Hv Hother. apply Forall_forall. intros [k' v'] Hin. apply list_elem_of_In in Hin.
  apply dict_get_In in Hin; [|now apply dict_set_NoDup].
  destruct (decide (k = k')) as [<-|Hne].
  - rewrite dict_get_set_eq in Hin. now injection Hin as <-.
  - rewrite dict_get_set_ne in Hin by exact Hne. apply Hother; [congruence|exact Hin].
Qed.

(** X25: restarting an item abandons the row of the earlier session.
    When a session is live under the key of a user and an item and the
    user starts the item again, no live session has the earlier ledger row
    any more, and while only the tracker writes to the ledger the row stays
    exactly as it was in every later world: it is never completed or
    dropped. *)
Theorem restart_abandons_row (u : Z) (ct : string) (cid : Z) (w w' : World)
    (sim : Simulation) (row : UserInteraction) (c : Content) :
  rows_kept w ->
  dict_get (simulation_key u ct cid) (sims_of w) = Some sim ->
  ledger_of w !! sim_interaction_id sim = Some row ->
  get_content_in (db (service w)) ct cid = Some c ->
  rtc tracker_step (start_simulation u ct cid w).1 w' ->
  ledger_of w' !! sim_interaction_id sim = Some row
  /\ (forall k s, dict_get k (sims_of w') = Some s ->
        sim_interaction_id s <> sim_interaction_id sim).
Proof.
  intros Hrun Hk Hrow Hc Hsteps.
  pose proof (rows_kept_reachable w Hrun) as Hreach.
  destruct (reachable_sessions_ok w Hreach) as [Hnd _].
  set (i := sim_interaction_id sim) in *.
  assert (Hfresh : fresh_key (ledger_of w) <> i).
  { intros Heq. rewrite <- Heq, fresh_key_fresh in Hrow. discriminate. }
  assert (H1 : unreferenced (start_simulation u ct cid w).1 i
               /\ ledger_of (start_simulation u ct cid w).1 !! i = Some row).
  { pose proof (wp_run _ _ _ (start_spec u ct cid w)) as H. unfold start_post in H.
    rewrite Hc in H. destruct H as (a & b & _ & _ & -> & _). split.
    - unfold unreferenced.
      change (Forall (fun kv : string * Simulation => sim_interaction_id kv.2 <> i)
                (dict_set (simulation_key u ct cid)
                   (mkSimulation (fresh_key (ledger_of w)) u ct cid (title c)
                      (now_of (tick w)) (a + draw_of w mod (b - a + 1)) []) (sims_of w))).
      apply Forall_dict_set_other; [exact Hnd|exact Hfresh|].
      intros k' s' Hne Hk' Hid. cbn [snd] in Hid. apply Hne.
      exact (linked_rows_differ w _ sim k' s' (rows_kept_linked w Hrun)
               (reachable_filed w Hreach) Hk Hk' Hid).
    - change (<[fresh_key (ledger_of w)
                := started_row (fresh_key (ledger_of w)) u ct cid (now_of w)]>
                (ledger_of w) !! i = Some row).
      now rewrite lookup_insert_ne. }
  destruct H1 as [Hfree1 Hrow1].
  destruct (tracker_steps_unreferenced _ w' i row Hsteps Hfree1 Hrow1) as [Hfree Hrow'].
  split; [exact Hrow'|]. intros k s Hks. exact (Forall_dict_get _ k s _ Hfree Hks).
Qed.

Lemma sample_started_content :
  get_content_in (db (service sample_started)) "book" 7
  = Some (mkContent "Dune" (float_of_int 8)).
Proof. vm_compute. reflexivity. Qed.

Lemma restart_abandons_row_witness :
  ledger_of (complete_simulation "1_book_7" 9 None
               (start_simulation 1 "book" 7 sample_started).1).1 !! 1
  = Some sample_row.
Proof.
  destruct (restart_abandons_row 1 "book" 7 sample_started
              (complete_simulation "1_book_7" 9 None
                 (start_simulation 1 "book" 7 sample_started).1).1
              sample_session sample_row (mkContent "Dune" (float_of_int 8))
              sample_started_rows_kept sample_started_session sample_started_row
              sample_started_content) as [H _].
  - apply rtc_once. constructor.
  - exact H.
Defined.

(** ** Starting and cancelling in the statistics *)

Lemma with_content_type_Permutation t rows rows' :
  rows ≡ₚ rows' -> with_content_type t rows ≡ₚ with_content_type t rows'.
Proof. unfold with_content_type. now intros ->. Qed.

(** The part of the statistics that is computed from the completed rows. *)
Lemma stats_of_completed (all_rows all_rows' : gmap Z UserInteraction -> list UserInteraction)
    (u now now' : Z) (d d' : Db) (st st' : Interactions.Stats) :
  Interactions.get_user_stats all_rows u now d = inr st ->
  Interactions.get_user_stats all_rows' u now' d' = inr st' ->
  Interactions.of_type "completed" (Interactions.of_user u (all_rows (user_interactions d)))
  ≡ₚ Interactions.of_type "completed" (Interactions.of_user u (all_rows' (user_interactions d'))) ->
  Interactions.completed st' = Interactions.completed st
  /\ Interactions.total_time_spent st' = Interactions.total_time_spent st
  /\ Interactions.by_content_type st' = Interactions.by_content_type st.
Proof.
  intros Hst Hst' Hperm.
  destruct (get_user_stats_fields _ _ _ _ _ Hst) as (_ & Hdone & _ & Htime & _ & Hby & _).
  destruct (get_user_stats_fields _ _ _ _ _ Hst') as (_ & Hdone' & _ & Htime' & _ & Hby' & _).
  cbv zeta in *. split_and!.
  - now rewrite Hdone, Hdone', (Permutation_length Hperm).
  - rewrite Htime, Htime'. symmetry. apply sum_Permutation.
    now apply truthy_values_Permutation.
  - rewrite Hby, Hby'.
    now rewrite !(Permutation_length (with_content_type_Permutation _ _ _ Hperm)).
Qed.

(** X26: a cancellation shows in the statistics of the owner of the
    ledger row.  If the row of the cancelled session was of type "started",
    then, whatever order the database returns the rows in, the statistics
    after the cancellation have the same total, one more dropped, and the
    same number completed, time spent and counts per content type,
    provided the statistics endpoint returns before and after. *)
Theorem cancel_shows_in_stats
    (all_rows : gmap Z UserInteraction -> list UserInteraction)
    (k : string) (w : World) (sim : Simulation) (row : UserInteraction) (now now' : Z)
    (st st' : Interactions.Stats) :
  (forall m, all_rows m ≡ₚ (map_to_list m).*2) ->
  dict_get k (sims_of w) = Some sim ->
  ledger_of w !! sim_interaction_id sim = Some row ->
  interaction_type row = "started" ->
  Interactions.get_user_stats all_rows (user_id row) now (db (service w)) = inr st ->
  Interactions.get_user_stats all_rows (user_id row) now'
    (db (service (cancel_simulation k w).1)) = inr st' ->
  Interactions.total_interactions st' = Interactions.total_interactions st
  /\ Interactions.dropped st' = Interactions.dropped st + 1
  /\ Interactions.completed st' = Interactions.completed st
  /\ Interactions.total_time_spent st' = Interactions.total_time_spent st
  /\ Interactions.by_content_type st' = Interactions.by_content_type st.
Proof.
  intros Hperm Hk Hrow Htype Hst Hst'.
  assert (Hl : ledger_of (cancel_simulation k w).1
               = <[sim_interaction_id sim := dropped_row row (now_of w)]> (ledger_of w)).
  { rewrite (cancel_spec k w sim Hk), Hrow. reflexivity. }
  set (row' := dropped_row row (now_of w)) in *.
  destruct (rows_replaced all_rows (ledger_of w) (sim_interaction_id sim) row row' Hperm Hrow)
    as [Hrows Hrows'].
  rewrite <- Hl in Hrows'.
  set (R := (map_to_list (delete (sim_interaction_id sim) (ledger_of w))).*2) in *.
  set (u := user_id row) in *.
  assert (Hmine : Interactions.of_user u (all_rows (ledger_of w))
                  ≡ₚ row :: Interactions.of_user u R).
  { rewrite (of_user_Permutation _ _ _ Hrows), of_user_cons.
    now rewrite decide_True by reflexivity. }
  assert (Hmine' : Interactions.of_user u (all_rows (ledger_of (cancel_simulation k w).1))
                   ≡ₚ row' :: Interactions.of_user u R).
  { rewrite (of_user_Permutation _ _ _ Hrows'), of_user_cons.
    now rewrite decide_True by reflexivity. }
  set (M := Interactions.of_user u R) in *.
  assert (Hd : Interactions.of_type "completed" (Interactions.of_user u (all_rows (ledger_of w)))
               ≡ₚ Interactions.of_type "completed" M).
  { rewrite (of_type_Permutation _ _ _ Hmine), of_type_cons.
    rewrite decide_False; [reflexivity|]. rewrite Htype. discriminate. }
  assert (Hd' : Interactions.of_type "completed"
                  (Interactions.of_user u (all_rows (ledger_of (cancel_simulation k w).1)))
                ≡ₚ Interactions.of_type "completed" M).
  { rewrite (of_type_Permutation _ _ _ Hmine'), of_type_cons.
    rewrite decide_False; [reflexivity|]. discriminate. }
  assert (Hp : Interactions.of_type "dropped" (Interactions.of_user u (all_rows (ledger_of w)))
               ≡ₚ Interactions.of_type "dropped" M).
  { rewrite (of_type_Permutation _ _ _ Hmine), of_type_cons.
    rewrite decide_False; [reflexivity|]. rewrite Htype. discriminate. }
  assert (Hp' : Interactions.of_type "dropped"
                  (Interactions.of_user u (all_rows (ledger_of (cancel_simulation k w).1)))
                ≡ₚ row' :: Interactions.of_type "dropped" M).
  { rewrite (of_type_Permutation _ _ _ Hmine'), of_type_cons.
    now rewrite decide_True by reflexivity. }
  destruct (stats_of_completed all_rows all_rows u now now' _ _ st st' Hst Hst')
    as (Hc & Ht & Hb).
  { fold (ledger_of w). fold (ledger_of (cancel_simulation k w).1). now rewrite Hd, Hd'. }
  destruct (get_user_stats_fields _ _ _ _ _ Hst) as (Htot & _ & Hdrop & _).
  destruct (get_user_stats_fields _ _ _ _ _ Hst') as (Htot' & _ & Hdrop' & _).
  cbv zeta in *. fold (ledger_of w) in Htot, Hdrop.
  fold (ledger_of (cancel_simulation k w).1) in Htot', Hdrop'.
  split_and!; try assumption.
  - rewrite Htot, Htot'. f_equal.
    rewrite (Permutation_length Hmine), (Permutation_length Hmine'). reflexivity.
  - rewrite Hdrop, Hdrop', (Permutation_length Hp), (Permutation_length Hp'). simpl. lia.
Qed.

(** X27: a start shows in the statistics of the user.  When
    [start_simulation] returns, the statistics of the user have one more
    in the total and the same number completed and dropped, time spent and
    counts per content type; and the new row counts as recent activity
    when the statistics are asked for within a week of the start. *)
Theorem start_shows_in_stats
    (all_rows : gmap Z UserInteraction -> list UserInteraction)
    (u : Z) (ct : string) (cid : Z) (w : World) (res : StartResult) (now now' : Z)
    (st st' : Interactions.Stats) :
  (forall m, all_rows m ≡ₚ (map_to_list m).*2) ->
  (start_simulation u ct cid w).2 = inr res ->
  Interactions.get_user_stats all_rows u now (db (service w)) = inr st ->
  Interactions.get_user_stats all_rows u now'
    (db (service (start_simulation u ct cid w).1)) = inr st' ->
  Interactions.total_interactions st' = Interactions.total_interactions st + 1
  /\ Interactions.completed st' = Interactions.completed st
  /\ Interactions.dropped st' = Interactions.dropped st
  /\ Interactions.total_time_spent st' = Interactions.total_time_spent st
  /\ Interactions.by_content_type st' = Interactions.by_content_type st
  /\ (now' - Interactions.week <= now_of w -> 1 <= Interactions.recent_activity st').
Proof.
  intros Hperm Hres Hst Hst'.
  pose proof (wp_run _ _ _ (start_spec u ct cid w)) as H. unfold start_post in H.
  destruct (get_content_in (db (service w)) ct cid) as [c|].
  2:{ destruct H as [_ H]. rewrite H in Hres. discriminate. }
  destruct H as (a & b & _ & _ & Hw & _).
  set (i := fresh_key (ledger_of w)) in *.
  set (new := started_row i u ct cid (now_of w)) in *.
  assert (Hl : ledger_of (start_simulation u ct cid w).1 = <[i := new]> (ledger_of w))
    by (rewrite Hw; reflexivity).
  assert (Hrows : all_rows (ledger_of (start_simulation u ct cid w).1)
                  ≡ₚ new :: all_rows (ledger_of w)).
  { rewrite Hl, !Hperm. rewrite map_to_list_insert by apply fresh_key_fresh. reflexivity. }
  assert (Hmine : Interactions.of_user u (all_rows (ledger_of (start_simulation u ct cid w).1))
                  ≡ₚ new :: Interactions.of_user u (all_rows (ledger_of w))).
  { rewrite (of_user_Permutation _ _ _ Hrows), of_user_cons.
    now rewrite decide_True by reflexivity. }
  set (M := Interactions.of_user u (all_rows (ledger_of w))) in *.
  destruct (stats_of_completed all_rows all_rows u now now' _ _ st st' Hst Hst')
    as (Hc & Ht & Hb).
  { fold (ledger_of w). fold (ledger_of (start_simulation u ct cid w).1). fold M.
    rewrite (of_type_Permutation _ _ _ Hmine), of_type_cons.
    rewrite decide_False; [reflexivity|]. discriminate. }
  destruct (get_user_stats_fields _ _ _ _ _ Hst) as (Htot & _ & Hdrop & _).
  destruct (get_user_stats_fields _ _ _ _ _ Hst')
    as (Htot' & _ & Hdrop' & _ & _ & _ & (recent & Hrec & Hact) & _).
  cbv zeta in *. fold (ledger_of w) in Htot, Hdrop. fold M in Htot, Hdrop.
  fold (ledger_of (start_simulation u ct cid w).1) in Htot', Hdrop', Hrec.
  split_and!; try assumption.
  - rewrite Htot, Htot', (Permutation_length Hmine). simpl. lia.
  - rewrite Hdrop, Hdrop'. f_equal.
    rewrite (Permutation_length (of_type_Permutation "dropped" _ _ Hmine)), of_type_cons.
    rewrite decide_False; [reflexivity|]. discriminate.
  - intros Hweek. rewrite Hact.
    pose proof (recent_rows_spec (now' - Interactions.week)
                  (Interactions.of_user u (all_rows (ledger_of (start_simulation u ct cid w).1))))
      as Hspec.
    rewrite Hrec in Hspec. destruct Hspec as (_ & _ & Hin).
    assert (Hnew : In new recent).
    { apply Hin. split.
      - apply list_elem_of_In. rewrite Hmine. apply list_elem_of_here.
      - exists (now_of w). split; [reflexivity|exact Hweek]. }
    destruct recent as [|x recent']; [destruct Hnew|]. simpl. lia.
Qed.

Lemma sample_cancelled_stats :
  Interactions.get_user_stats Interactions.rows_of_map 1 100000000
    (db (service (cancel_simulation "1_book_7" sample_started).1))
  = inr (Interactions.mkStats 1 0 1 None 0 [("book", 0); ("movie", 0); ("game", 0)] 1).
Proof. vm_compute. reflexivity. Qed.

Lemma sample_world_stats :
  Interactions.get_user_stats Interactions.rows_of_map 1 100000000 (db (service sample_world))
  = inr (Interactions.mkStats 0 0 0 None 0 [("book", 0); ("movie", 0); ("game", 0)] 0).
Proof. vm_compute. reflexivity. Qed.

Lemma sample_start_result :
  (start_simulation 1 "book" 7 sample_world).2
  = inr (mkStartResult "1_book_7" 1 100 "Dune" "Начинаем чтение 'Dune'!").
Proof. vm_compute. reflexivity. Qed.

Lemma cancel_shows_in_stats_witness :
  Interactions.dropped
    (Interactions.mkStats 1 0 1 None 0 [("book", 0); ("movie", 0); ("game", 0)] 1)
  = Interactions.dropped
      (Interactions.mkStats 1 0 0 None 0 [("book", 0); ("movie", 0); ("game", 0)] 1) + 1.
Proof.
  pose proof (cancel_shows_in_stats Interactions.rows_of_map "1_book_7"
                sample_started sample_session sample_row 100000000 100000000 _ _
                (fun m => reflexivity _)
                sample_started_session sample_started_row
                eq_refl sample_started_stats sample_cancelled_stats) as (_ & H & _).
  exact H.
Defined.

Lemma start_shows_in_stats_witness :
  Interactions.total_interactions
    (Interactions.mkStats 1 0 0 None 0 [("book", 0); ("movie", 0); ("game", 0)] 1)
  = Interactions.total_interactions
      (Interactions.mkStats 0 0 0 None 0 [("book", 0); ("movie", 0); ("game", 0)] 0) + 1.
Proof.
  pose proof (start_shows_in_stats Interactions.rows_of_map 1 "book" 7 sample_world
                (mkStartResult "1_book_7" 1 100 "Dune" "Начинаем чтение 'Dune'!")
                100000000 100000000 _ _
                (fun m => reflexivity _)
                sample_start_result sample_world_stats sample_started_stats) as (H & _).
  exact H.
Defined.
